(** * Catalyst: Neptune metric routing and run-provenance capture

    A shallow embedding of [catalyst/loggers/neptune.py] and of the
    environment part of [catalyst/utils/sys.py], with the properties of
    the metric key conflict resolver, the scoped path builder, the logging
    entry points, the environment probe and the environment dump.

    Conventions of the embedding.
    - A Python [str] is a [string]: the sequence of the bytes of its UTF-8
      encoding.  Concatenation, equality, [startswith], [endswith] and the
      slice [k[:-4]] after an [endswith("/std")] test agree on this
      representation with the operations on code points.
    - A Python [dict] is an association list in insertion order with
      pairwise distinct keys.
    - A Python exception is a value of [exn]; code that may raise returns a
      [result]; code that also writes to the tracking backend or to the
      file system threads the written state explicitly, so that what was
      written before an exception stays written. *)

From Stdlib Require Import ZArith DecimalString.
From stdpp Require Import base option list strings gmap.

(** ** Exceptions and results *)

Inductive exn : Type :=
  | KeyError (key : string)
  | UnboundLocalError (var : string)
  | TypeError
  | CalledProcessError
  | FileNotFoundError
  | UnicodeDecodeError
  | SameFileError
  | ValueError (msg : string)
  | OtherError (name : string).

Inductive result (A : Type) : Type :=
  | Ok (a : A)
  | Raise (e : exn).
Arguments Ok {A} a.
Arguments Raise {A} e.

#[global] Instance result_bind : MBind result := λ A B f r,
  match r with
  | Ok a => f a
  | Raise e => Raise e
  end.

#[global] Instance result_ret : MRet result := λ A a, Ok a.

(** Code that may raise and that writes to a state [S]: the state it
    leaves is returned also when it raises. *)
Definition stm (S A : Type) : Type := S → result A * S.

#[global] Instance stm_bind {S : Type} : MBind (stm S) := λ A B f m s,
  match m s with
  | (Ok a, s') => f a s'
  | (Raise e, s') => (Raise e, s')
  end.

#[global] Instance stm_ret {S : Type} : MRet (stm S) := λ A a s, (Ok a, s).

Definition lift {S A : Type} (r : result A) : stm S A := λ s, (r, s).

(** [for x in xs: body] over a state [s] where the body may raise. *)
Fixpoint for_each {A S : Type} (body : S → A → result S) (xs : list A) (s : S)
  : result S :=
  match xs with
  | [] => Ok s
  | x :: xs' => s' ← body s x ; for_each body xs' s'
  end.

(** ** Python string builtins *)

(** [j.startswith(k)] *)
Fixpoint startswith (j k : string) {struct k} : bool :=
  match k with
  | EmptyString => true
  | String c k' =>
      match j with
      | EmptyString => false
      | String d j' => Ascii.eqb d c && startswith j' k'
      end
  end.

(** [s[:n]] for [0 <= n] *)
Definition take_chars (n : nat) (s : string) : string := String.substring 0 n s.

(** [s[n:]] for [0 <= n] *)
Definition drop_chars (n : nat) (s : string) : string :=
  String.substring n (String.length s - n) s.

(** [k.endswith(suffix)] *)
Definition endswith (k suffix : string) : bool :=
  (String.length suffix <=? String.length k)%nat
  && String.eqb (drop_chars (String.length k - String.length suffix) k) suffix.

(** [k[:-n]] for [0 < n]: all but the last [n] characters. *)
Definition drop_last (n : nat) (k : string) : string :=
  take_chars (String.length k - n) k.

(** [sep.join(parts)] *)
Fixpoint join (sep : string) (parts : list string) : string :=
  match parts with
  | [] => ""
  | [p] => p
  | p :: ps => p +:+ sep +:+ join sep ps
  end.

(** [str(n)] for a natural number *)
Definition decimal_digits (n : N) : string :=
  NilZero.string_of_uint (N.to_uint n).

(** [digits.zfill(width)] on a text of digits: zeros in front up to the
    width; character 48 is the digit zero. *)
Definition zfill (width : nat) (digits : string) : string :=
  String.string_of_list_ascii
    (replicate (width - String.length digits) (Ascii.ascii_of_nat 48))
  +:+ digits.

(** [format(z, "04d")]: decimal digits, zero-padded to width 4, the sign
    (of a negative number only) counted in the width and put first. *)
Definition format_04d (z : Z) : string :=
  if (z <? 0)%Z then "-" +:+ zfill 3 (decimal_digits (Z.abs_N z))
  else zfill 4 (decimal_digits (Z.abs_N z)).

(** ** Python dictionaries *)

Definition dict (V : Type) : Type := list (string * V).

Section dict_ops.
Context {V : Type}.

(** [list(d.keys())] *)
Definition dict_keys (d : dict V) : list string := d.*1.

(** [list(d.values())] *)
Definition dict_values (d : dict V) : list V := d.*2.

(** [d.get(k)] *)
Fixpoint dict_get (d : dict V) (k : string) : option V :=
  match d with
  | [] => None
  | (k', v) :: d' => if String.eqb k' k then Some v else dict_get d' k
  end.

(** [k in d] *)
Definition dict_contains (d : dict V) (k : string) : bool :=
  existsb (String.eqb k) (dict_keys d).

(** The dictionary without the entry of [k], if it has one. *)
Fixpoint dict_remove (d : dict V) (k : string) : dict V :=
  match d with
  | [] => []
  | (k', v) :: d' => if String.eqb k' k then d' else (k', v) :: dict_remove d' k
  end.

(** [d.pop(k)]: the value and the dictionary without [k]; [KeyError]
    when [k] is absent. *)
Definition dict_pop (d : dict V) (k : string) : result (V * dict V) :=
  match dict_get d k with
  | Some v => Ok (v, dict_remove d k)
  | None => Raise (KeyError k)
  end.

(** [d[k] = v]: an existing key keeps its position and takes the new
    value, a new key goes to the end. *)
Fixpoint dict_setitem (d : dict V) (k : string) (v : V) : dict V :=
  match d with
  | [] => [(k, v)]
  | (k', v') :: d' =>
      if String.eqb k' k then (k', v) :: d' else (k', v') :: dict_setitem d' k v
  end.

(** [d[k]] *)
Definition dict_getitem (d : dict V) (k : string) : result V :=
  match dict_get d k with
  | Some v => Ok v
  | None => Raise (KeyError k)
  end.
End dict_ops.

(** ** [catalyst/loggers/neptune.py] *)

Section prepare_metrics.
Context {V : Type}.

(** The body of the first loop of [_prepare_metrics], for one key [k]
    of the snapshot [list(processed_metrics.keys())]. *)
Definition pair_std_step (processed_metrics : dict V) (k : string)
  : result (dict V) :=
  if endswith k "/std" then
    let k_stripped := drop_last 4 k in
    let k_val := k_stripped +:+ "/val" in
    if negb (dict_contains processed_metrics k_val) then
      '(v, popped) ← dict_pop processed_metrics k_stripped ;
      Ok (dict_setitem popped k_val v)
    else Ok processed_metrics
  else Ok processed_metrics.

(** The first loop: it runs over the keys the dictionary had on entry. *)
Definition pair_std_val (processed_metrics : dict V) : result (dict V) :=
  for_each pair_std_step (dict_keys processed_metrics) processed_metrics.

(** The body of the innermost [if] of the second loop. *)
Definition flag_step (k : string) (conflict_keys : list string) (j : string)
  : list string :=
  if startswith j k && negb (String.eqb j k)
     && negb (existsb (String.eqb k) conflict_keys)
  then conflict_keys ++ [k]
  else conflict_keys.

(** The second loop: [for k in d: for j in d: ...]. *)
Definition flag_conflicts (processed_metrics : dict V) : list string :=
  fold_left
    (fun conflict_keys k =>
       fold_left (flag_step k) (dict_keys processed_metrics) conflict_keys)
    (dict_keys processed_metrics) [].

(** The body of the third loop. *)
Definition rename_step (processed_metrics : dict V) (i : string)
  : result (dict V) :=
  '(v, popped) ← dict_pop processed_metrics i ;
  Ok (dict_setitem popped (i +:+ "_val") v).

Definition rename_conflicts (conflict_keys : list string)
    (processed_metrics : dict V) : result (dict V) :=
  for_each rename_step conflict_keys processed_metrics.

Definition _prepare_metrics (metrics : dict V) : result (dict V) :=
  processed_metrics ← pair_std_val metrics ;
  rename_conflicts (flag_conflicts processed_metrics) processed_metrics.
End prepare_metrics.

Section neptune_logger.
(** The types of a metric value ([float]), of an image ([np.ndarray]) and
    of an in-memory artifact ([object]) are left open. *)
Context {float image artifact : Type}.

(** What callers pass as a value of the [metrics] argument: a number, or,
    at epoch scope under the key ["_epoch_"], the mapping of the epoch's
    metrics. *)
Inductive metric_value : Type :=
  | MFloat (x : float)
  | MDict (d : dict float).

(** The calls made on the Neptune run [self.run], in the order made. *)
Inductive backend_op : Type :=
  | AppendSeries (neptune_path key : string) (value : float) (step : Z)
  | AppendImage (neptune_path : string) (img : image)
  | UploadPickle (neptune_path : string) (obj : artifact)
  | UploadFile (neptune_path : string) (path_to_artifact : string).

Record NeptuneLogger : Type := {
  base_namespace : string;
  log_batch_metrics : bool;
  log_epoch_metrics : bool
}.

Record IRunner : Type := {
  epoch_step : Z;
  loader_key : string;
  batch_step : Z;
  sample_step : Z
}.

(** A method of the logger runs over the calls made so far on the run. *)
Definition run_m (A : Type) : Type := stm (list backend_op) A.

Definition call (op : backend_op) : run_m () := λ run, (Ok (), run ++ [op]).

(** An expression statement that builds an exception object and drops it. *)
Definition construct_and_discard (e : exn) : run_m () := mret ().

(** [float(value)] *)
Definition to_float (value : metric_value) : result float :=
  match value with
  | MFloat x => Ok x
  | MDict _ => Raise TypeError
  end.

(** [dict(metrics)], the first statement of [_prepare_metrics], on a value
    taken out of the [metrics] argument. *)
Definition to_dict (value : metric_value) : result (dict float) :=
  match value with
  | MFloat _ => Raise TypeError
  | MDict d => Ok d
  end.

Fixpoint _log_metrics (metrics : dict metric_value) (neptune_path : string)
    (step : Z) : run_m () :=
  match metrics with
  | [] => mret ()
  | (key, value) :: rest =>
      x ← lift (to_float value) ;
      call (AppendSeries neptune_path key x step) ;;
      _log_metrics rest neptune_path step
  end.

Definition _log_image (img : image) (neptune_path : string) : run_m () :=
  call (AppendImage neptune_path img).

Definition _log_artifact (obj : option artifact)
    (path_to_artifact : option string) (neptune_path : string) : run_m () :=
  match obj, path_to_artifact with
  | Some a, _ => call (UploadPickle neptune_path a)
  | None, Some p => call (UploadFile neptune_path p)
  | None, None => mret ()
  end.

(** [scope == lit] for a [scope] that is a string or [None]. *)
Definition scope_eq (scope : option string) (lit : string) : bool :=
  match scope with
  | Some s => String.eqb s lit
  | None => false
  end.

(** [scope is None] *)
Definition scope_is_None (scope : option string) : bool :=
  match scope with
  | Some _ => false
  | None => true
  end.

(** The value of [scope] used as a path segment (it is a string there). *)
Definition scope_segment (scope : option string) : string := default "" scope.

(** The [if]/[elif] chain of [log_artifact]: the value bound to the local
    [neptune_path], [None] when no branch binds it. *)
Definition artifact_path (self : NeptuneLogger) (tag : string)
    (runner : IRunner) (scope : option string) : option string :=
  if scope_eq scope "batch" then
    Some (join "/" [base_namespace self; "_artifacts";
                    "epoch-" +:+ format_04d (epoch_step runner);
                    "loader-" +:+ loader_key runner;
                    "batch-" +:+ format_04d (batch_step runner);
                    tag])
  else if scope_eq scope "loader" then
    Some (join "/" [base_namespace self; "_artifacts";
                    "epoch-" +:+ format_04d (epoch_step runner);
                    "loader-" +:+ loader_key runner;
                    tag])
  else if scope_eq scope "epoch" then
    Some (join "/" [base_namespace self; "_artifacts";
                    "epoch-" +:+ format_04d (epoch_step runner);
                    tag])
  else if scope_eq scope "experiment" || scope_is_None scope then
    Some (join "/" [base_namespace self; "_artifacts"; tag])
  else None.

Definition log_artifact (self : NeptuneLogger) (tag : string)
    (runner : IRunner) (obj : option artifact)
    (path_to_artifact : option string) (scope : option string) : run_m () :=
  (if bool_decide (is_Some obj) && bool_decide (is_Some path_to_artifact)
   then construct_and_discard
          (ValueError "artifact and path_to_artifact are mutually exclusive")
   else mret ()) ;;
  match artifact_path self tag runner scope with
  | Some neptune_path => _log_artifact obj path_to_artifact neptune_path
  | None => lift (Raise (UnboundLocalError "neptune_path"))
  end.

(** The [if]/[elif] chain of [log_image]: the value bound to [log_path]. *)
Definition image_path (self : NeptuneLogger) (tag : string)
    (runner : IRunner) (scope : option string) : option string :=
  if scope_eq scope "batch" || scope_eq scope "loader" then
    Some (join "/" [base_namespace self; "_images";
                    "epoch-" +:+ format_04d (epoch_step runner);
                    "loader-" +:+ loader_key runner;
                    tag])
  else if scope_eq scope "epoch" then
    Some (join "/" [base_namespace self; "_images";
                    "epoch-" +:+ format_04d (epoch_step runner);
                    tag])
  else if scope_eq scope "experiment" || scope_is_None scope then
    Some (join "/" [base_namespace self; "_images"; tag])
  else None.

Definition log_image (self : NeptuneLogger) (tag : string) (img : image)
    (runner : IRunner) (scope : option string) : run_m () :=
  match image_path self tag runner scope with
  | Some log_path => _log_image img log_path
  | None => lift (Raise (UnboundLocalError "log_path"))
  end.

Definition log_metrics (self : NeptuneLogger) (metrics : dict metric_value)
    (scope : option string) (runner : IRunner) : run_m () :=
  if scope_eq scope "batch" && log_batch_metrics self then
    let neptune_path :=
      join "/" [base_namespace self; loader_key runner; scope_segment scope] in
    _log_metrics metrics neptune_path (sample_step runner)
  else if scope_eq scope "loader" && log_epoch_metrics self then
    let neptune_path :=
      join "/" [base_namespace self; loader_key runner; scope_segment scope] in
    prepared ← lift (_prepare_metrics metrics) ;
    _log_metrics prepared neptune_path (epoch_step runner)
  else if scope_eq scope "epoch" && log_epoch_metrics self then
    let loader_key := "_epoch_" in
    inner ← lift (dict_getitem metrics loader_key) ;
    processed ← lift (to_dict inner) ;
    prepared_metrics ← lift (_prepare_metrics processed) ;
    let neptune_path := join "/" [base_namespace self; scope_segment scope] in
    if bool_decide (prepared_metrics ≠ []) then
      _log_metrics (prod_map id MFloat <$> prepared_metrics) neptune_path
        (epoch_step runner)
    else mret ()
  else if scope_eq scope "experiment" || scope_is_None scope then
    _log_metrics metrics (base_namespace self) 0
  else mret ().
End neptune_logger.

Arguments metric_value : clear implicits.
Arguments backend_op : clear implicits.
Arguments run_m : clear implicits.

(** ** Python [bytes] and text builtins used by [catalyst/utils/sys.py] *)

(** A [bytes] value is the [string] of its bytes. *)
Definition byte_code (c : Ascii.ascii) : N := Ascii.N_of_ascii c.

(** The bytes [bytes.strip()] removes: space, tab, line feed, vertical tab,
    form feed, carriage return. *)
Definition is_bytes_space (c : Ascii.ascii) : bool :=
  let n := byte_code c in
  (n =? 32)%N || ((9 <=? n)%N && (n <=? 13)%N).

Fixpoint lstrip (b : list Ascii.ascii) : list Ascii.ascii :=
  match b with
  | [] => []
  | c :: b' => if is_bytes_space c then lstrip b' else b
  end.

(** [b.strip()] *)
Definition strip (b : string) : string :=
  String.string_of_list_ascii
    (rev (lstrip (rev (lstrip (String.list_ascii_of_string b))))).

(** The UTF-8 decoder of [bytes.decode("UTF-8")] as an automaton: [pending]
    continuation bytes are still due, the next of them in [lo..hi].
    Overlong forms, surrogates and code points above U+10FFFF are refused. *)
Fixpoint utf8_scan (bs : list N) (pending : nat) (lo hi : N) : bool :=
  match bs with
  | [] => bool_decide (pending = 0)
  | b :: rest =>
      match pending with
      | 0 =>
          if (b <=? 127)%N then utf8_scan rest 0 128 191
          else if (194 <=? b)%N && (b <=? 223)%N then utf8_scan rest 1 128 191
          else if (b =? 224)%N then utf8_scan rest 2 160 191
          else if ((225 <=? b)%N && (b <=? 236)%N)
                  || ((238 <=? b)%N && (b <=? 239)%N)
               then utf8_scan rest 2 128 191
          else if (b =? 237)%N then utf8_scan rest 2 128 159
          else if (b =? 240)%N then utf8_scan rest 3 144 191
          else if (241 <=? b)%N && (b <=? 243)%N then utf8_scan rest 3 128 191
          else if (b =? 244)%N then utf8_scan rest 3 128 143
          else false
      | S p => (lo <=? b)%N && (b <=? hi)%N && utf8_scan rest p 128 191
      end
  end.

Definition utf8_valid (b : string) : bool :=
  utf8_scan (byte_code <$> String.list_ascii_of_string b) 0 128 191.

(** [b.decode("UTF-8")]: the text keeps the bytes of its encoding. *)
Definition decode_utf8 (b : string) : result string :=
  if utf8_valid b then Ok b else Raise UnicodeDecodeError.

(** The number of bytes of the white-space character [str.split()] sees at
    the head of a text, [0] when the text starts with none: the ASCII
    ones (tab to carriage return, the separators 28 to 31, space), and
    U+0085, U+00A0, U+1680, U+2000 to U+200A, U+2028, U+2029, U+202F,
    U+205F and U+3000 in their UTF-8 encoding. *)
Definition whitespace_width (bs : list N) : nat :=
  match bs with
  | b :: rest =>
      if (b =? 32)%N || ((9 <=? b)%N && (b <=? 13)%N)
         || ((28 <=? b)%N && (b <=? 31)%N) then 1
      else
        match b, rest with
        | 194%N, c :: _ => if (c =? 133)%N || (c =? 160)%N then 2 else 0
        | 225%N, 154%N :: 128%N :: _ => 3
        | 226%N, 128%N :: c :: _ =>
            if ((128 <=? c)%N && (c <=? 138)%N)
               || (c =? 168)%N || (c =? 169)%N || (c =? 175)%N then 3 else 0
        | 226%N, 129%N :: 159%N :: _ => 3
        | 227%N, 128%N :: 128%N :: _ => 3
        | _, _ => 0
        end
  | [] => 0
  end.

(** The word collected so far (in reverse), closed if it is not empty. *)
Definition close_word (word : list Ascii.ascii) : list string :=
  match word with
  | [] => []
  | _ => [String.string_of_list_ascii (rev word)]
  end.

(** [skip] bytes of a white-space character are still to be passed. *)
Fixpoint split_scan (cs : list Ascii.ascii) (skip : nat) (word : list Ascii.ascii)
  : list string :=
  match cs with
  | [] => close_word word
  | c :: rest =>
      match skip with
      | S skip' => split_scan rest skip' word
      | 0 =>
          match whitespace_width (byte_code <$> cs) with
          | 0 => split_scan rest 0 (c :: word)
          | S w => close_word word ++ split_scan rest w []
          end
      end
  end.

(** [s.split()] *)
Definition split (s : string) : list string :=
  split_scan (String.list_ascii_of_string s) 0 [].

(** [s.replace("\n", "\n\n")] *)
Fixpoint double_newlines (s : string) : string :=
  match s with
  | EmptyString => EmptyString
  | String c s' =>
      if (byte_code c =? 10)%N then String c (String c (double_newlines s'))
      else String c (double_newlines s')
  end.

(** ** [catalyst/utils/sys.py] *)

(** The values the environment dictionaries hold. *)
#[warnings="-register-all"]
Inductive pyval : Type :=
  | PStr (s : string)
  | PBytes (b : string)
  | PDict (d : list (string * pyval)).

(** [platform.uname()], entries [0] to [4]. *)
Record uname_result : Type := {
  uname_system : string;
  uname_node : string;
  uname_release : string;
  uname_version : string;
  uname_machine : string
}.

(** What the functions read from the host.  [check_output args shell] is
    [subprocess.check_output(args, shell=shell, stderr=devnull)]: the bytes
    of the standard output, or the exception raised.  [utcnow_time] is the
    value of [get_utcnow_time()] and [is_hydra_available] the constant
    [IS_HYDRA_AVAILABLE], both imported from modules outside these files.
    [conda_meta_exists] is [(Path(sys.prefix) / "conda-meta").exists()]. *)
Record Host : Type := {
  sys_version : string;
  environ : gmap string string;
  utcnow_time : string;
  platform_uname : uname_result;
  check_output : list string → bool → result string;
  conda_meta_exists : bool;
  is_hydra_available : bool
}.

(** [os.environ.get(name, "")] *)
Definition environ_get (h : Host) (name : string) : string :=
  default "" (environ h !! name).

(** The value of one entry in the comprehension of [_decode_dict]. *)
Definition decode_value (v : pyval) : result pyval :=
  match v with
  | PBytes b => s ← decode_utf8 b ; Ok (PStr s)
  | _ => Ok v
  end.

Definition _decode_dict (dictionary : dict pyval) : result (dict pyval) :=
  mapM (λ '(k, v), v' ← decode_value v ; Ok (k, v')) dictionary.

(** The dictionary literal that opens [_get_environment_vars]. *)
Definition environment_literal (h : Host) : dict pyval :=
  [ ("python_version", PStr (sys_version h));
    ("conda_environment", PStr (environ_get h "CONDA_DEFAULT_ENV"));
    ("creation_time", PStr (utcnow_time h));
    ("sysname", PStr (uname_system (platform_uname h)));
    ("nodename", PStr (uname_node (platform_uname h)));
    ("release", PStr (uname_release (platform_uname h)));
    ("version", PStr (uname_version (platform_uname h)));
    ("architecture", PStr (uname_machine (platform_uname h)));
    ("user", PStr (environ_get h "USER"));
    ("path", PStr (environ_get h "PWD")) ].

(** The body of the [try] of [_get_environment_vars]: the dictionary
    [result] it leaves when no statement raises. *)
Definition git_block (h : Host) (result0 : dict pyval) : result (dict pyval) :=
  raw_branch ← check_output h (split "git rev-parse --abbrev-ref HEAD") true ;
  git_branch ← decode_utf8 (strip raw_branch) ;
  git_local_commit ← check_output h (split "git rev-parse HEAD") true ;
  git_origin_commit ←
    check_output h (split ("git rev-parse origin/" +:+ git_branch)) true ;
  let git := [ ("branch", PStr git_branch);
               ("local_commit", PBytes git_local_commit);
               ("origin_commit", PBytes git_origin_commit) ] in
  decoded ← _decode_dict git ;
  Ok (dict_setitem result0 "git" (PDict decoded)).

(** [try: body except (CalledProcessError, FileNotFoundError): pass] *)
Definition except_process_errors (body : result (dict pyval))
    (unchanged : dict pyval) : result (dict pyval) :=
  match body with
  | Ok r => Ok r
  | Raise CalledProcessError => Ok unchanged
  | Raise FileNotFoundError => Ok unchanged
  | Raise e => Raise e
  end.

Definition _get_environment_vars (h : Host) : result (dict pyval) :=
  let result0 := environment_literal h in
  result1 ← except_process_errors (git_block h result0) result0 ;
  _decode_dict result1.

(** [try: ... except Exception: warnings.warn(...)] of the two package
    listers: the listing and the warnings emitted. *)
Definition listing_or_warning (listing : result string) (warning : string)
  : string * list string :=
  match listing with
  | Ok text => (text, [])
  | Raise _ => ("", [warning])
  end.

Definition _list_pip_packages (h : Host) : string * list string :=
  listing_or_warning
    (out ← check_output h (split "pip freeze") false ; decode_utf8 (strip out))
    ("Failed to freeze pip packages. "
     +:+ "Continue run without pip packages dumping.").

Definition _list_conda_packages (h : Host) : string * list string :=
  if conda_meta_exists h then
    listing_or_warning
      (out ← check_output h (split "conda list --export") false ;
       decode_utf8 (strip out))
      ("Running from conda env, "
       +:+ "but failed to list conda packages. "
       +:+ "Continue run without conda packages dumping.")
  else ("", []).

(** A path is the list of its components; [p / name] adds one. *)
Definition path : Type := list string.

(** [p.name]: the last component, the empty text when there is none. *)
Definition path_name (p : path) : string := default "" (last p).

(** [p / name]; joining the empty text gives [p] back. *)
Definition path_join (p : path) (name : string) : path :=
  if String.eqb name "" then p else p ++ [name].

(** What [dump_environment] leaves behind: the regular files by path with
    their text (directories are not modelled: [mkdir] leaves the files as
    they are and a write to a path succeeds), the warnings emitted, and the
    [add_text] calls made on the summary writer.  The event file that the
    writer keeps in its directory is not among [files]. *)
Record world : Type := {
  files : gmap path string;
  warnings : list string;
  summary_texts : list (string * string * Z)
}.

Definition write_text (p : path) (text : string) : stm world () := λ w,
  (Ok (), {| files := <[p := text]> (files w);
             warnings := warnings w;
             summary_texts := summary_texts w |}).

Definition warn (ws : list string) : stm world () := λ w,
  (Ok (), {| files := files w;
             warnings := warnings w ++ ws;
             summary_texts := summary_texts w |}).

Definition add_text (tag text : string) (step : Z) : stm world () := λ w,
  (Ok (), {| files := files w;
             warnings := warnings w;
             summary_texts := summary_texts w ++ [(tag, text, step)] |}).

(** [shutil.copyfile(src, dst)]: [SameFileError] when both name the same
    existing file, [FileNotFoundError] when [src] is no file. *)
Definition copyfile (src dst : path) : stm world () := λ w,
  match files w !! src with
  | None => (Raise FileNotFoundError, w)
  | Some text =>
      if bool_decide (src = dst) then (Raise SameFileError, w)
      else write_text dst text w
  end.

(** An element of the [configs_path] argument: a text, kept as the path it
    names, or a value of another type, dropped by the [isinstance] test. *)
Inductive configs_path_item : Type :=
  | PathText (p : path)
  | NotText.

Definition text_paths (items : list configs_path_item) : list path :=
  omap (λ item, match item with PathText p => Some p | NotText => None end) items.

Section dump_environment.
(** The configuration data is left open, with the text that
    [save_config] (imported from [catalyst.utils.config]) writes for a
    value and the text [json.dumps(value, indent=2, ensure_ascii=False)]
    returns for it; both may raise. *)
Context {config_data : Type}.

(** The [config] argument: plain data, or an OmegaConf [DictConfig] with
    its [OmegaConf.to_yaml(config, resolve=True)] and its
    [OmegaConf.to_container(config, resolve=True)]. *)
Inductive config_arg : Type :=
  | Plain (data : config_data)
  | DictConfig (yaml : string) (container : config_data).

Inductive py_object : Type :=
  | EnvObject (environment : dict pyval)
  | ConfigObject (config : config_arg).

Variable save_config_text : py_object → result string.
Variable json_dumps : py_object → result string.

(** [save_config(value, p)] *)
Definition save_config (value : py_object) (p : path) : stm world () :=
  text ← lift (save_config_text value) ;
  write_text p text.

(** [for path in configs_path: shutil.copyfile(path, config_dir / path.name)] *)
Fixpoint copy_configs (config_dir : path) (configs_path : list path)
  : stm world () :=
  match configs_path with
  | [] => mret ()
  | p :: rest =>
      let name := path_name p in
      let outpath := path_join config_dir name in
      copyfile p outpath ;;
      copy_configs config_dir rest
  end.

Definition dump_environment (h : Host) (logdir : path)
    (config : option config_arg)
    (configs_path : option (list configs_path_item)) : stm world () :=
  let configs_path := default [] configs_path in
  let configs_path := text_paths configs_path in
  let config_dir := path_join logdir "configs" in
  config ←
    match config with
    | Some (DictConfig yaml container) =>
        if is_hydra_available h then
          write_text (path_join config_dir "config.yaml") yaml ;;
          mret (Some (Plain container))
        else mret config
    | _ => mret config
    end ;
  environment ← lift (_get_environment_vars h) ;
  save_config (EnvObject environment) (path_join config_dir "_environment.json") ;;
  match config with
  | Some c => save_config (ConfigObject c) (path_join config_dir "_config.json")
  | None => mret ()
  end ;;
  let '(pip_pkg, pip_warnings) := _list_pip_packages h in
  warn pip_warnings ;;
  write_text (path_join config_dir "pip-packages.txt") pip_pkg ;;
  let '(conda_pkg, conda_warnings) := _list_conda_packages h in
  warn conda_warnings ;;
  (if bool_decide (conda_pkg ≠ "")
   then write_text (path_join config_dir "conda-packages.txt") conda_pkg
   else mret ()) ;;
  copy_configs config_dir configs_path ;;
  let pip_pkg := double_newlines pip_pkg in
  let conda_pkg := double_newlines conda_pkg in
  match config with
  | Some c =>
      config_str ← lift (json_dumps (ConfigObject c)) ;
      let config_str := double_newlines config_str in
      add_text "_config" config_str 0
  | None => mret ()
  end ;;
  environment_str ← lift (json_dumps (EnvObject environment)) ;
  let environment_str := double_newlines environment_str in
  add_text "_environment" environment_str 0 ;;
  add_text "pip-packages" pip_pkg 0 ;;
  if bool_decide (conda_pkg ≠ "")
  then add_text "conda-packages" conda_pkg 0
  else mret ().
End dump_environment.

Arguments config_arg : clear implicits.
Arguments py_object : clear implicits.

(** * Statements *)

(** ** The conflict resolver *)

(** The characters of a text. *)
Abbreviation chars := String.list_ascii_of_string.

(** [k] is a strict prefix of some key of [ks]. *)
Definition flagged (ks : list string) (k : string) : bool :=
  existsb (λ j, startswith j k && negb (String.eqb j k)) ks.

(** No key is a strict prefix of another key. *)
Definition prefix_free (ks : list string) : Prop :=
  Forall (λ k, Forall (λ j, k ≠ j → startswith j k = false) ks) ks.

(** A key [k] that is renamed and a key [j] that its new name
    [k ++ "_val"] meets: [j] is one of [k ++ "_"], [k ++ "_v"], [k ++ "_va"] and
    is not renamed itself, or [j] goes on after [k ++ "_val"]. *)
Definition val_clash (ks : list string) (k j : string) : bool :=
  flagged ks k
  && ((negb (flagged ks j)
       && (String.eqb j (k +:+ "_") || String.eqb j (k +:+ "_v")
           || String.eqb j (k +:+ "_va")))
      || (startswith j (k +:+ "_val") && negb (String.eqb j (k +:+ "_val")))).

(** No renamed key meets a key in this way. *)
Definition val_clash_free (ks : list string) : Prop :=
  Forall (λ k, Forall (λ j, val_clash ks k j = false) ks) ks.

(** No key that is renamed has its new name among the keys that are
    renamed. *)
Definition no_val_chain (ks : list string) : Prop :=
  Forall (λ k, flagged ks k = true → k +:+ "_val" ∈ ks →
               flagged ks (k +:+ "_val") = false) ks.

(** No key is another key followed by ["_val"]. *)
Definition no_val_collision (ks : list string) : Prop :=
  Forall (λ k, k +:+ "_val" ∉ ks) ks.

(** Every key ending in ["/std"] has its ["/val"] sibling. *)
Definition std_paired (ks : list string) : Prop :=
  Forall (λ k, endswith k "/std" = true → drop_last 4 k +:+ "/val" ∈ ks) ks.

(** Two dictionaries hold the same value, or none, under every key. *)
Definition same_mapping {V : Type} (d1 d2 : dict V) : Prop :=
  ∀ k, dict_get d1 k = dict_get d2 k.

(** The sum of the lengths of the keys. *)
Fixpoint key_chars (ks : list string) : nat :=
  match ks with
  | [] => 0
  | k :: ks' => String.length k + key_chars ks'
  end.

(** The statements of the resolver's contract, for one input. *)
Section resolver_contract.
Context {V : Type}.

(** The output has no key that is a strict prefix of another. *)
Definition resolves_all_prefix_conflicts (metrics : dict V) : Prop :=
  ∀ out, _prepare_metrics metrics = Ok out → prefix_free (dict_keys out).

(** The output has as many entries as the input, and its values. *)
Definition keeps_all_entries (metrics : dict V) : Prop :=
  ∀ out, _prepare_metrics metrics = Ok out →
    length out = length metrics ∧ dict_values out ≡ₚ dict_values metrics.

(** A second application returns the mapping of the first. *)
Definition idempotent_on (metrics : dict V) : Prop :=
  ∀ r, _prepare_metrics metrics = Ok r →
    ∃ r2, _prepare_metrics r = Ok r2 ∧ same_mapping r2 r.
End resolver_contract.

(** Batches the statements are tried on. *)
Definition auc_batch : dict Z := [("loss", 23%Z); ("loss/auc", 9%Z)].
Definition std_batch : dict Z := [("loss/std", 1%Z); ("loss", 23%Z)].
Definition mixed_batch : dict Z :=
  [("loss/std", 1%Z); ("loss", 23%Z); ("loss/auc", 9%Z)].
Definition underscore_batch : dict Z := [("a", 1%Z); ("a_", 2%Z)].
Definition loss_batch : dict Z :=
  [("loss", 23%Z); ("loss/auc", 9%Z); ("loss_bce", 4%Z)].

(** ** The logger *)

(** The scopes the logger knows by name. *)
Definition known_scopes : list string :=
  ["batch"; "loader"; "epoch"; "experiment"].

(** ** The environment probe *)


(** The keys of the dictionary literal of [_get_environment_vars]. *)
Definition environment_keys : list string :=
  [ "python_version"; "conda_environment"; "creation_time"; "sysname";
    "nodename"; "release"; "version"; "architecture"; "user"; "path" ].

(** The three VCS queries return: the branch name, which decodes, the
    local commit, and the origin commit of that branch. *)
Definition vcs_queries_succeed (h : Host) : Prop :=
  ∃ raw_branch git_branch git_local_commit git_origin_commit,
    check_output h (split "git rev-parse --abbrev-ref HEAD") true = Ok raw_branch
    ∧ decode_utf8 (strip raw_branch) = Ok git_branch
    ∧ check_output h (split "git rev-parse HEAD") true = Ok git_local_commit
    ∧ check_output h (split ("git rev-parse origin/" +:+ git_branch)) true
      = Ok git_origin_commit.

(** The two errors the [except] clause of the probe names. *)
Definition caught_by_probe (e : exn) : Prop :=
  e = CalledProcessError ∨ e = FileNotFoundError.

(** The commands the probe runs, each with [shell=True] and as far as the
    probe gets, fail in one of these two ways or print UTF-8 text: the
    branch query, then the local commit, then the origin commit of that
    branch. *)
Definition probe_commands_behave (h : Host) : Prop :=
  match check_output h (split "git rev-parse --abbrev-ref HEAD") true with
  | Raise e => caught_by_probe e
  | Ok raw_branch =>
      utf8_valid (strip raw_branch) = true
      ∧ match check_output h (split "git rev-parse HEAD") true with
        | Raise e => caught_by_probe e
        | Ok git_local_commit =>
            match check_output h
                    (split ("git rev-parse origin/" +:+ strip raw_branch)) true
            with
            | Raise e => caught_by_probe e
            | Ok git_origin_commit =>
                utf8_valid git_local_commit = true
                ∧ utf8_valid git_origin_commit = true
            end
        end
  end.


(** A host without VCS, without conda and with no variable set. *)
Definition bare_host : Host := {|
  sys_version := "3.10.12 (main)";
  environ := ∅;
  utcnow_time := "240101.000000";
  platform_uname := {| uname_system := "Linux"; uname_node := "node";
                       uname_release := "6.1"; uname_version := "#1 SMP";
                       uname_machine := "x86_64" |};
  check_output := λ _ _, Raise FileNotFoundError;
  conda_meta_exists := false;
  is_hydra_available := false
|}.

(** A host inside a clone on branch [main], with pip. *)
Definition git_host : Host := {|
  sys_version := "3.10.12 (main)";
  environ := {[ "USER" := "alice" ]};
  utcnow_time := "240101.000000";
  platform_uname := {| uname_system := "Linux"; uname_node := "node";
                       uname_release := "6.1"; uname_version := "#1 SMP";
                       uname_machine := "x86_64" |};
  check_output := λ args _,
    if bool_decide (args = ["git"; "rev-parse"; "--abbrev-ref"; "HEAD"])
    then Ok "main "
    else if bool_decide (args = ["git"; "rev-parse"; "HEAD"]) then Ok "0a1b2c"
    else if bool_decide (args = ["git"; "rev-parse"; "origin/main"]) then Ok "0a1b2c"
    else if bool_decide (args = ["pip"; "freeze"]) then Ok "numpy==1.26.0"
    else Raise FileNotFoundError;
  conda_meta_exists := false;
  is_hydra_available := false
|}.

(** Values that hold no [bytes] at top level are left as they are. *)
Definition no_bytes (v : pyval) : Prop :=
  match v with
  | PBytes _ => False
  | _ => True
  end.

(** The VCS sub-mapping for a branch and two commits. *)
Definition git_mapping (branch local_commit origin_commit : string) : pyval :=
  PDict [ ("branch", PStr branch);
          ("local_commit", PStr local_commit);
          ("origin_commit", PStr origin_commit) ].


(** ** The environment dump *)

Definition config_dir (logdir : path) : path := path_join logdir "configs".

Definition pip_packages_txt (logdir : path) : path :=
  path_join (config_dir logdir) "pip-packages.txt".

Definition conda_packages_txt (logdir : path) : path :=
  path_join (config_dir logdir) "conda-packages.txt".

(** Where the copies of the given configuration files go. *)
Definition copy_targets (logdir : path)
    (configs_path : option (list configs_path_item)) : list path :=
  (λ p, path_join (config_dir logdir) (path_name p))
  <$> text_paths (default [] configs_path).

(** The files a completed dump has written. *)
Definition dump_targets {config_data : Type} (h : Host) (logdir : path)
    (config : option (config_arg config_data))
    (configs_path : option (list configs_path_item)) : list path :=
  match config with
  | Some (DictConfig _ _) =>
      if is_hydra_available h
      then [path_join (config_dir logdir) "config.yaml"] else []
  | _ => []
  end
  ++ [path_join (config_dir logdir) "_environment.json"]
  ++ match config with
     | Some _ => [path_join (config_dir logdir) "_config.json"]
     | None => []
     end
  ++ [pip_packages_txt logdir]
  ++ (if bool_decide ((_list_conda_packages h).1 ≠ "")
      then [conda_packages_txt logdir] else [])
  ++ copy_targets logdir configs_path.

(** The computation, when it returns, leaves the files that were there
    and those of [targets], and no other. *)
Definition writes {A : Type} (m : stm world A) (targets : list path) : Prop :=
  ∀ w a w', m w = (Ok a, w') →
    ∀ q, is_Some (files w' !! q) ↔ is_Some (files w !! q) ∨ q ∈ targets.

Section dump_environment_contract.
Context {config_data : Type}.
Variable save_config_text : py_object config_data → result string.
Variable json_dumps : py_object config_data → result string.

(** The package files as the specification has them: each is there
    exactly when its listing is not empty. *)
Definition package_files_iff_listings (h : Host) (logdir : path)
    (config : option (config_arg config_data))
    (configs_path : option (list configs_path_item)) (w : world) : Prop :=
  ∀ w', dump_environment save_config_text json_dumps h logdir config
          configs_path w = (Ok (), w') →
    (is_Some (files w' !! pip_packages_txt logdir)
     ↔ (_list_pip_packages h).1 ≠ "")
    ∧ (is_Some (files w' !! conda_packages_txt logdir)
       ↔ (_list_conda_packages h).1 ≠ "").

End dump_environment_contract.

(** A first run into an empty log directory on the bare host. *)
Definition empty_world : world :=
  {| files := ∅; warnings := []; summary_texts := [] |}.

Definition bare_dump : result () * world :=
  dump_environment (config_data:=()) (λ _, Ok "{}") (λ _, Ok "{}")
    bare_host ["logs"] None None empty_world.

(** ** Further statements *)

(** The dictionary with [f] applied to every value. *)
Definition map_values {A B : Type} (f : A → B) (d : dict A) : dict B :=
  prod_map id f <$> d.

(** What [_decode_dict] makes of a value whose bytes decode. *)
Definition decoded_value (v : pyval) : pyval :=
  match v with
  | PBytes b => PStr b
  | _ => v
  end.

(** The value is not [bytes] that fail to decode. *)
Definition decodable (v : pyval) : Prop :=
  match v with
  | PBytes b => utf8_valid b = true
  | _ => True
  end.

(** A function applied to what a computation returns. *)
#[global] Instance result_fmap : FMap result := λ A B f r,
  match r with
  | Ok a => Ok (f a)
  | Raise e => Raise e
  end.

(** The points [_log_metrics] appends for a mapping of numbers. *)
Definition series_points {float image artifact : Type} (neptune_path : string)
    (step : Z) (ms : dict float) : list (backend_op float image artifact) :=
  (λ '(key, x), AppendSeries neptune_path key x step) <$> ms.

(** A logger with the default toggles, one that logs batch metrics, and the
    coordinates of two batches of one loader pass. *)
Definition demo_logger : NeptuneLogger :=
  {| base_namespace := "experiment"; log_batch_metrics := false;
     log_epoch_metrics := true |}.

Definition batch_logger : NeptuneLogger :=
  {| base_namespace := "experiment"; log_batch_metrics := true;
     log_epoch_metrics := true |}.

Definition demo_runner : IRunner :=
  {| epoch_step := 3; loader_key := "train"; batch_step := 7;
     sample_step := 448 |}.

Definition later_runner : IRunner :=
  {| epoch_step := 3; loader_key := "train"; batch_step := 8;
     sample_step := 512 |}.

(** A host on which every command prints one byte that is no UTF-8. *)
Definition binary_host : Host := {|
  sys_version := "3.10.12 (main)";
  environ := ∅;
  utcnow_time := "240101.000000";
  platform_uname := {| uname_system := "Linux"; uname_node := "node";
                       uname_release := "6.1"; uname_version := "#1 SMP";
                       uname_machine := "x86_64" |};
  check_output := λ _ _, Ok (String (Ascii.ascii_of_nat 255) EmptyString);
  conda_meta_exists := false;
  is_hydra_available := false
|}.

Section dump_environment_log.
Context {config_data : Type}.
Variable json_dumps : py_object config_data → result string.

(** The value of [config] once a [DictConfig] has been turned into its
    container. *)
Definition resolved_config (h : Host) (config : option (config_arg config_data))
  : option (config_arg config_data) :=
  match config with
  | Some (DictConfig yaml container) =>
      if is_hydra_available h then Some (Plain container) else config
  | _ => config
  end.

(** The text [add_text] gets for a value that [json.dumps] accepts. *)
Definition dumped_text (tag : string) (value : py_object config_data)
  : list (string * string * Z) :=
  match json_dumps value with
  | Ok text => [(tag, double_newlines text, 0%Z)]
  | Raise _ => []
  end.

(** The texts a completed dump adds to the summary writer, in order. *)
Definition summary_of (h : Host) (config : option (config_arg config_data))
    (environment : dict pyval) : list (string * string * Z) :=
  match resolved_config h config with
  | Some c => dumped_text "_config" (ConfigObject c)
  | None => []
  end
  ++ dumped_text "_environment" (EnvObject environment)
  ++ [("pip-packages", double_newlines (_list_pip_packages h).1, 0%Z)]
  ++ (if bool_decide ((_list_conda_packages h).1 ≠ "")
      then [("conda-packages", double_newlines (_list_conda_packages h).1, 0%Z)]
      else []).
End dump_environment_log.

(** * Properties *)

(** ** Texts as lists of characters *)

Lemma chars_app (s t : string) : chars (s +:+ t) = chars s ++ chars t.
Proof. induction s as [|c s IH]; simpl; [done | by rewrite IH]. Qed.

Lemma chars_inj (s t : string) : chars s = chars t → s = t.
Proof.
  intros E.
  rewrite <- (String.string_of_list_ascii_of_string s),
          <- (String.string_of_list_ascii_of_string t).
  by rewrite E.
Qed.

Lemma chars_length (s : string) : String.length s = length (chars s).
Proof. induction s; simpl; congruence. Qed.

Lemma append_length (s t : string) :
  String.length (s +:+ t) = String.length s + String.length t.
Proof. by rewrite !chars_length, chars_app, length_app. Qed.

Lemma append_inj_l (s1 s2 t : string) : s1 +:+ t = s2 +:+ t → s1 = s2.
Proof.
  intros E. apply chars_inj.
  apply (f_equal chars) in E. rewrite !chars_app in E.
  by apply app_inv_tail in E.
Qed.

Lemma startswith_prefix (j k : string) :
  startswith j k = true ↔ chars k `prefix_of` chars j.
Proof.
  revert j. induction k as [|c k IH]; intros j; simpl.
  - split; [intros _; apply prefix_nil | done].
  - destruct j as [|d j]; simpl.
    + split; [done |]. intros H. exfalso. eapply prefix_nil_not, H.
    + rewrite andb_true_iff, IH. split.
      * intros [E%Ascii.eqb_eq H]. subst. by apply prefix_cons.
      * intros H. split.
        -- apply Ascii.eqb_eq. by apply prefix_cons_inv_1 in H.
        -- by apply prefix_cons_inv_2 in H.
Qed.

Lemma startswith_refl (k : string) : startswith k k = true.
Proof. by apply startswith_prefix. Qed.

Lemma startswith_append (k t : string) : startswith (k +:+ t) k = true.
Proof. apply startswith_prefix. rewrite chars_app. by apply prefix_app_r. Qed.

Lemma startswith_trans (a b c : string) :
  startswith a b = true → startswith b c = true → startswith a c = true.
Proof. rewrite !startswith_prefix. intros H1 H2. by etrans. Qed.

Lemma startswith_false (j k : string) :
  startswith j k = false ↔ ¬ chars k `prefix_of` chars j.
Proof.
  rewrite <- startswith_prefix. destruct (startswith j k); split; try done.
Qed.

(** A prefix of [c ++ s] is a prefix of [c], or [c] followed by a non-empty
    prefix of [s]. *)
Lemma prefix_app_cases {A : Type} (x c s : list A) :
  x `prefix_of` c ++ s →
  x `prefix_of` c ∨ ∃ t, t ≠ [] ∧ x = c ++ t ∧ t `prefix_of` s.
Proof.
  revert x. induction c as [|a c IH]; intros x H; simpl in *.
  - destruct x as [|b x]; [left; apply prefix_nil |].
    right. exists (b :: x). done.
  - destruct x as [|b x]; [left; apply prefix_nil |].
    pose proof (prefix_cons_inv_1 _ _ _ _ H) as ->.
    apply prefix_cons_inv_2, IH in H as [H | (t & Ht & -> & Hs)].
    + left. by apply prefix_cons.
    + right. by exists t.
Qed.

(** ** Dictionaries *)

Section dict_facts.
Context {V : Type}.
Implicit Types (d : dict V) (k : string) (v : V).

Lemma dict_get_None d k : dict_get d k = None ↔ k ∉ dict_keys d.
Proof.
  unfold dict_keys. induction d as [|[k' v'] d IH]; simpl.
  - split; [intros _; apply not_elem_of_nil | done].
  - rewrite not_elem_of_cons. destruct (String.eqb_spec k' k) as [->|Hne].
    + split; [done | by intros [? _]].
    + rewrite IH. split; [by intros ? | by intros [_ ?]].
Qed.

Lemma dict_get_is_Some d k : is_Some (dict_get d k) ↔ k ∈ dict_keys d.
Proof.
  rewrite <- not_eq_None_Some, dict_get_None.
  split; [apply dec_stable | by intros ? ?].
Qed.

Lemma dict_contains_true d k : dict_contains d k = true ↔ k ∈ dict_keys d.
Proof.
  unfold dict_contains. rewrite existsb_exists. split.
  - intros (x & Hin & ->%String.eqb_eq). by apply list_elem_of_In.
  - intros Hin. exists k. split; [by apply list_elem_of_In | apply String.eqb_refl].
Qed.

Lemma dict_contains_false d k : dict_contains d k = false ↔ k ∉ dict_keys d.
Proof.
  rewrite <- dict_contains_true. by destruct (dict_contains d k).
Qed.

(** A present entry can be brought to the front. *)
Lemma dict_remove_perm d k v :
  dict_get d k = Some v → d ≡ₚ (k, v) :: dict_remove d k.
Proof.
  induction d as [|[k' v'] d IH]; simpl; [done |].
  destruct (String.eqb_spec k' k) as [->|Hne].
  - by intros [= ->].
  - intros H. rewrite (IH H) at 1. apply Permutation_swap.
Qed.

Lemma dict_remove_absent d k : k ∉ dict_keys d → dict_remove d k = d.
Proof.
  unfold dict_keys. induction d as [|[k' v'] d IH]; simpl; [done |].
  rewrite not_elem_of_cons. intros [Hne Hnin].
  destruct (String.eqb_spec k' k) as [->|_]; [done | by rewrite IH].
Qed.

Lemma dict_keys_perm d1 d2 : d1 ≡ₚ d2 → dict_keys d1 ≡ₚ dict_keys d2.
Proof. unfold dict_keys. by intros ->. Qed.

Lemma dict_values_perm d1 d2 : d1 ≡ₚ d2 → dict_values d1 ≡ₚ dict_values d2.
Proof. unfold dict_values. by intros ->. Qed.

Lemma dict_setitem_new d k v :
  k ∉ dict_keys d → dict_setitem d k v = d ++ [(k, v)].
Proof.
  unfold dict_keys. induction d as [|[k' v'] d IH]; simpl; [done |].
  rewrite not_elem_of_cons. intros [Hne Hnin].
  destruct (String.eqb_spec k' k) as [->|_]; [done | by rewrite IH].
Qed.

Lemma dict_setitem_keys_old d k v :
  k ∈ dict_keys d → dict_keys (dict_setitem d k v) = dict_keys d.
Proof.
  unfold dict_keys. induction d as [|[k' v'] d IH]; simpl.
  - by intros ?%elem_of_nil.
  - destruct (String.eqb_spec k' k) as [->|Hne]; simpl; [done |].
    rewrite elem_of_cons. intros [->|Hin]; [done | f_equal; by apply IH].
Qed.

Lemma dict_keys_length d : length (dict_keys d) = length d.
Proof. unfold dict_keys. apply length_fmap. Qed.

Lemma dict_setitem_length_old d k v :
  k ∈ dict_keys d → length (dict_setitem d k v) = length d.
Proof.
  intros Hin.
  rewrite <- (dict_keys_length (dict_setitem d k v)), <- (dict_keys_length d).
  by rewrite dict_setitem_keys_old.
Qed.

Lemma dict_keys_app d1 d2 : dict_keys (d1 ++ d2) = dict_keys d1 ++ dict_keys d2.
Proof. unfold dict_keys. apply fmap_app. Qed.

(** [d.pop(k)] on a present key. *)
Lemma dict_pop_Some d k v d' :
  dict_pop d k = Ok (v, d') ↔ dict_get d k = Some v ∧ d' = dict_remove d k.
Proof.
  unfold dict_pop. destruct (dict_get d k) as [w|].
  - split; [by intros [= -> ->] | by intros [[= ->] ->]].
  - split; [done | by intros [? _]].
Qed.

Lemma dict_pop_present d k :
  k ∈ dict_keys d → ∃ v, dict_pop d k = Ok (v, dict_remove d k).
Proof.
  intros [v Hv]%dict_get_is_Some. exists v. unfold dict_pop. by rewrite Hv.
Qed.

Lemma dict_pop_absent d k : k ∉ dict_keys d → dict_pop d k = Raise (KeyError k).
Proof. intros H%dict_get_None. unfold dict_pop. by rewrite H. Qed.

(** The keys after [d[k2] = d.pop(k1)] when all keys are distinct. *)
Lemma dict_remove_keys d k v :
  NoDup (dict_keys d) → dict_get d k = Some v →
  NoDup (dict_keys (dict_remove d k)) ∧ (k ∉ dict_keys (dict_remove d k))
  ∧ (dict_keys d ≡ₚ k :: dict_keys (dict_remove d k)).
Proof.
  intros Hnd Hget.
  pose proof (dict_keys_perm _ _ (dict_remove_perm d k v Hget)) as Hp.
  change (dict_keys ((k, v) :: dict_remove d k))
    with (k :: dict_keys (dict_remove d k)) in Hp.
  rewrite Hp in Hnd. apply NoDup_cons in Hnd as [? ?]. done.
Qed.

Lemma dict_setitem_NoDup d k v :
  NoDup (dict_keys d) → NoDup (dict_keys (dict_setitem d k v)).
Proof.
  intros Hnd. destruct (decide (k ∈ dict_keys d)) as [Hin|Hnin].
  - by rewrite dict_setitem_keys_old.
  - rewrite dict_setitem_new, dict_keys_app by done.
    apply NoDup_app. split_and!; [done | | apply NoDup_singleton].
    intros x Hx ->%list_elem_of_singleton. done.
Qed.
End dict_facts.

(** ** The conflict resolver *)

Lemma flagged_true (ks : list string) (k : string) :
  flagged ks k = true ↔ ∃ j, j ∈ ks ∧ startswith j k = true ∧ j ≠ k.
Proof.
  unfold flagged. rewrite existsb_exists. split.
  - intros (j & Hin & [Hs Hne]%andb_true_iff). exists j.
    split_and!; [by apply list_elem_of_In | done |].
    intros ->. by rewrite String.eqb_refl in Hne.
  - intros (j & Hin & Hs & Hne). exists j.
    split; [by apply list_elem_of_In |].
    rewrite Hs. simpl. by apply negb_true_iff, String.eqb_neq.
Qed.

Lemma prefix_free_flagged (ks : list string) :
  prefix_free ks ↔ ∀ k, k ∈ ks → flagged ks k = false.
Proof.
  unfold prefix_free. rewrite Forall_forall. split.
  - intros H k Hk. apply not_true_iff_false. intros (j & Hj & Hs & Hne)%flagged_true.
    specialize (H k Hk). rewrite Forall_forall in H.
    rewrite (H j Hj) in Hs; [done | by intros ->].
  - intros H k Hk. apply Forall_forall. intros j Hj Hne.
    apply not_true_iff_false. intros Hs.
    specialize (H k Hk). apply not_true_iff_false in H. apply H.
    apply flagged_true. exists j. split_and!; [done | done | by intros ->].
Qed.

Section resolver_facts.
Context {V : Type}.
Implicit Types (d : dict V) (k : string) (ks cs : list string).

(** *** The second loop *)

Lemma flag_inner k js acc :
  fold_left (flag_step k) js acc =
  if flagged js k && negb (existsb (String.eqb k) acc) then acc ++ [k] else acc.
Proof.
  revert acc. induction js as [|j js IH]; intros acc; simpl.
  - done.
  - rewrite IH. unfold flag_step.
    destruct (startswith j k && negb (String.eqb j k)) eqn:Hj; simpl.
    + destruct (existsb (String.eqb k) acc) eqn:Hacc; simpl.
      * rewrite Hacc. by rewrite andb_false_r.
      * rewrite existsb_app, Hacc. simpl. rewrite String.eqb_refl. simpl.
        by rewrite andb_false_r.
    + done.
Qed.

Lemma existsb_eqb_true k acc : existsb (String.eqb k) acc = true ↔ k ∈ acc.
Proof.
  rewrite existsb_exists. split.
  - intros (x & Hin & ->%String.eqb_eq). by apply list_elem_of_In.
  - intros Hin. exists k. split; [by apply list_elem_of_In | apply String.eqb_refl].
Qed.

Lemma flag_outer ks ks' acc :
  NoDup acc →
  let out := fold_left (λ acc k, fold_left (flag_step k) ks acc) ks' acc in
  NoDup out ∧ ∀ x, x ∈ out ↔ x ∈ acc ∨ (x ∈ ks' ∧ flagged ks x = true).
Proof.
  revert acc. induction ks' as [|k ks' IH]; intros acc Hnd; simpl.
  - split; [done |]. intros x. rewrite elem_of_nil. tauto.
  - rewrite flag_inner.
    destruct (flagged ks k) eqn:Hf; simpl.
    + destruct (existsb (String.eqb k) acc) eqn:Hacc; simpl.
      * apply existsb_eqb_true in Hacc.
        destruct (IH acc Hnd) as [H1 H2]. split; [done |].
        intros x. rewrite H2, elem_of_cons. split; [tauto |].
        intros [?|[[->|?] ?]]; tauto.
      * apply not_true_iff_false in Hacc. rewrite existsb_eqb_true in Hacc.
        assert (NoDup (acc ++ [k])) as Hnd'.
        { apply NoDup_app. split_and!; [done | | apply NoDup_singleton].
          intros x Hx ->%list_elem_of_singleton. done. }
        destruct (IH _ Hnd') as [H1 H2]. split; [done |].
        intros x. rewrite H2, elem_of_app, list_elem_of_singleton, elem_of_cons.
        split; [intros [[?| ->]|[? ?]]; tauto | intros [?|[[->|?] ?]]; tauto].
    + destruct (IH acc Hnd) as [H1 H2]. split; [done |].
      intros x. rewrite H2, elem_of_cons. split; [tauto |].
      intros [?|[[->|?] ?]]; [tauto | congruence | tauto].
Qed.

Lemma flag_conflicts_NoDup d : NoDup (flag_conflicts d).
Proof. apply (flag_outer (dict_keys d) (dict_keys d) []). apply NoDup_nil_2. Qed.

Lemma flag_conflicts_elem d x :
  x ∈ flag_conflicts d ↔ x ∈ dict_keys d ∧ flagged (dict_keys d) x = true.
Proof.
  destruct (flag_outer (dict_keys d) (dict_keys d) [] (NoDup_nil_2)) as [_ H].
  unfold flag_conflicts. rewrite H, elem_of_nil. tauto.
Qed.

Lemma flag_conflicts_nil d :
  flag_conflicts d = [] ↔ prefix_free (dict_keys d).
Proof.
  rewrite prefix_free_flagged. split.
  - intros E k Hk. apply not_true_iff_false. intros Hf.
    assert (k ∈ flag_conflicts d) as Hin by by apply flag_conflicts_elem.
    rewrite E in Hin. by apply elem_of_nil in Hin.
  - intros H. destruct (flag_conflicts d) as [|c cs] eqn:E; [done |].
    assert (c ∈ flag_conflicts d) as Hin by (rewrite E; left).
    apply flag_conflicts_elem in Hin as [Hk Hf]. by rewrite (H c Hk) in Hf.
Qed.
End resolver_facts.

Lemma append_assoc (a b c : string) : (a +:+ b) +:+ c = a +:+ (b +:+ c).
Proof. apply chars_inj. by rewrite !chars_app, (assoc_L (++)). Qed.

(** A text that starts with [c ++ "_val"] starts with [c ++ "_"]. *)
Lemma startswith_val_underscore (j c : string) :
  startswith j (c +:+ "_val") = true → startswith j (c +:+ "_") = true.
Proof.
  intros H. apply (startswith_trans _ _ _ H).
  change "_val" with ("_" +:+ "val"). rewrite <- append_assoc.
  apply startswith_append.
Qed.

(** A prefix of [c ++ "_val"] is a prefix of [c] or starts with [c ++ "_"]. *)
Lemma prefix_of_val (x c : string) :
  startswith (c +:+ "_val") x = true →
  startswith c x = true ∨ startswith x (c +:+ "_") = true.
Proof.
  rewrite !startswith_prefix, !chars_app.
  intros [H | (t & Ht & -> & Hs)]%prefix_app_cases; [by left | right].
  destruct t as [|a t]; [done |].
  pose proof (prefix_cons_inv_1 _ _ _ _ Hs) as ->.
  apply prefix_app. simpl. apply prefix_cons, prefix_nil.
Qed.

(** When [c ++ "_val"] is a strict prefix of [c' ++ "_val"], [c'] starts
    with [c ++ "_"]. *)
Lemma val_prefix_of_val (c c' : string) :
  c ≠ c' → startswith (c' +:+ "_val") (c +:+ "_val") = true →
  startswith c' (c +:+ "_") = true.
Proof.
  intros Hne. rewrite !startswith_prefix, !chars_app. intros [r Hr].
  assert (chars c `prefix_of` chars c') as [w Hw].
  { destruct (prefix_weak_total (chars c) (chars c') (chars c' ++ chars "_val"))
      as [H | [w Hw]].
    - rewrite Hr, <- (assoc_L (++)). by apply prefix_app_r.
    - by apply prefix_app_r.
    - done.
    - apply (f_equal length) in Hr. rewrite Hw in Hr.
      rewrite !length_app in Hr.
      assert (length w = 0) as ->%nil_length_inv by lia.
      rewrite (right_id_L [] (++)) in Hw. by rewrite Hw. }
  rewrite Hw in Hr |- *. rewrite <- !(assoc_L (++)) in Hr.
  apply app_inv_head in Hr.
  destruct w as [|a w].
  - exfalso. apply Hne, chars_inj. by rewrite Hw, (right_id_L [] (++)).
  - simpl in Hr. injection Hr as -> _.
    apply prefix_app. simpl. apply prefix_cons, prefix_nil.
Qed.

Section prepare_metrics_facts.
Context {V : Type}.
Implicit Types (d : dict V) (k : string) (ks cs : list string).

Lemma for_each_inv {A S : Type} (P : S → Prop) (body : S → A → result S)
    (xs : list A) (s s' : S) :
  (∀ s x s', P s → body s x = Ok s' → P s') →
  P s → for_each body xs s = Ok s' → P s'.
Proof.
  intros Hstep. revert s. induction xs as [|x xs IH]; intros s Hs; simpl.
  - by intros [= <-].
  - destruct (body s x) as [s1|e] eqn:E; simpl; [|done].
    apply IH. by eapply Hstep.
Qed.

(** [d[k2] = d.pop(k1)] for a present [k1] and a [k2] that is new once
    [k1] is taken out: the keys stay distinct, [k1] is replaced by [k2],
    and the values are the same. *)
Lemma dict_move d k1 k2 v :
  NoDup (dict_keys d) → dict_get d k1 = Some v →
  k2 ∉ dict_keys (dict_remove d k1) →
  let d' := dict_setitem (dict_remove d k1) k2 v in
  NoDup (dict_keys d')
  ∧ (∀ x, x ∈ dict_keys d' ↔ x = k2 ∨ (x ∈ dict_keys d ∧ x ≠ k1))
  ∧ length d' = length d
  ∧ (dict_values d' ≡ₚ dict_values d).
Proof.
  intros Hnd Hget Hnew d'.
  destruct (dict_remove_keys d k1 v Hnd Hget) as (HndR & HninR & Hperm).
  pose proof (dict_remove_perm d k1 v Hget) as Hp.
  assert (d' = dict_remove d k1 ++ [(k2, v)]) as ->
    by by apply dict_setitem_new.
  split_and!.
  - rewrite dict_keys_app. apply NoDup_app. split_and!; [done | | apply NoDup_singleton].
    intros x Hx ->%list_elem_of_singleton. done.
  - intros x. rewrite dict_keys_app, elem_of_app, Hperm, elem_of_cons.
    change (dict_keys [(k2, v)]) with [k2]. rewrite list_elem_of_singleton.
    split.
    + intros [H| ->]; [right | by left].
      split; [by right | by intros ->].
    + intros [->|[[->|H] Hne]]; [by right | done | by left].
  - rewrite length_app, (Permutation_length Hp). simpl. lia.
  - etrans; [| symmetry; apply (dict_values_perm _ _ Hp)].
    unfold dict_values. rewrite fmap_app. simpl.
    symmetry. apply Permutation_cons_append.
Qed.

(** *** The first loop *)

Lemma pair_std_step_inv d k d' :
  NoDup (dict_keys d) → pair_std_step d k = Ok d' →
  NoDup (dict_keys d') ∧ length d' = length d
  ∧ (dict_values d' ≡ₚ dict_values d).
Proof.
  intros Hnd. unfold pair_std_step.
  destruct (endswith k "/std"); [|by intros [= <-]].
  destruct (dict_contains d (drop_last 4 k +:+ "/val")) eqn:Hc; simpl;
    [by intros [= <-] |].
  destruct (dict_pop d (drop_last 4 k)) as [[v R]|e] eqn:Hpop; simpl; [|done].
  apply dict_pop_Some in Hpop as [Hget ->]. intros [= <-].
  apply dict_contains_false in Hc.
  destruct (dict_remove_keys d _ v Hnd Hget) as (_ & _ & Hperm).
  destruct (dict_move d (drop_last 4 k) (drop_last 4 k +:+ "/val") v)
    as (H1 & _ & H2 & H3); try done.
  intros Hin. apply Hc. rewrite Hperm. by right.
Qed.

Lemma pair_std_val_inv d d' :
  NoDup (dict_keys d) → pair_std_val d = Ok d' →
  NoDup (dict_keys d') ∧ length d' = length d
  ∧ (dict_values d' ≡ₚ dict_values d).
Proof.
  intros Hnd. unfold pair_std_val.
  apply (for_each_inv
    (λ x, NoDup (dict_keys x) ∧ length x = length d
          ∧ (dict_values x ≡ₚ dict_values d))); [|done].
  intros s x s' (Hs1 & Hs2 & Hs3) Hstep.
  destruct (pair_std_step_inv s x s' Hs1 Hstep) as (? & ? & ?).
  split_and!; [done | congruence | by etrans].
Qed.

(** *** The third loop *)

(** Renaming a key that is present never raises. *)
Lemma rename_step_present d c :
  c ∈ dict_keys d →
  ∃ v, dict_get d c = Some v
       ∧ rename_step d c = Ok (dict_setitem (dict_remove d c) (c +:+ "_val") v).
Proof.
  intros [v Hv]%dict_get_is_Some. exists v. split; [done |].
  unfold rename_step, dict_pop. by rewrite Hv.
Qed.

(** The third loop when no renamed key meets a key already there. *)
Lemma rename_conflicts_spec cs d :
  NoDup (dict_keys d) → NoDup cs →
  (∀ c, c ∈ cs → c ∈ dict_keys d) →
  (∀ c, c ∈ cs → c +:+ "_val" ∉ dict_keys d) →
  ∃ out, rename_conflicts cs d = Ok out
    ∧ NoDup (dict_keys out)
    ∧ (∀ x, x ∈ dict_keys out ↔
            (x ∈ dict_keys d ∧ x ∉ cs) ∨ ∃ c, c ∈ cs ∧ x = c +:+ "_val")
    ∧ length out = length d
    ∧ (dict_values out ≡ₚ dict_values d).
Proof.
  revert d. induction cs as [|c cs IH]; intros d Hnd Hcs Hsub Hnew.
  - exists d. split_and!; try done.
    intros x. split.
    + intros H. left. split; [done | apply not_elem_of_nil].
    + intros [[H _] | (c & Hc & _)]; [done | by apply elem_of_nil in Hc].
  - apply NoDup_cons in Hcs as [Hc Hcs].
    destruct (rename_step_present d c) as (v & Hget & Hstep);
      [apply Hsub; left |].
    destruct (dict_remove_keys d c v Hnd Hget) as (HndR & HninR & Hperm).
    assert (c +:+ "_val" ∉ dict_keys (dict_remove d c)) as HnewR.
    { intros Hin. apply (Hnew c); [left |]. rewrite Hperm. by right. }
    destruct (dict_move d c (c +:+ "_val") v Hnd Hget HnewR)
      as (Hnd1 & Hkeys1 & Hlen1 & Hval1).
    set (d1 := dict_setitem (dict_remove d c) (c +:+ "_val") v) in *.
    destruct (IH d1) as (out & Hout & HndO & HkeysO & HlenO & HvalO);
      try done.
    { intros c' Hc'. apply Hkeys1. right. split; [apply Hsub; by right |].
      by intros ->. }
    { intros c' Hc'. rewrite Hkeys1. intros [E | [Hin _]].
      - apply append_inj_l in E. by subst.
      - by apply (Hnew c'); [right |]. }
    exists out. split_and!.
    + unfold rename_conflicts in *. simpl. rewrite Hstep. simpl. done.
    + done.
    + intros x. rewrite HkeysO, Hkeys1. split.
      * intros [[[->|[Hin Hne]] Hx] | (c' & Hc' & ->)].
        -- right. exists c. split; [left | done].
        -- left. split; [done |]. rewrite not_elem_of_cons. done.
        -- right. exists c'. split; [by right | done].
      * intros [[Hin [Hne Hx]%not_elem_of_cons] | (c' & [->|Hc']%elem_of_cons & ->)].
        -- left. split; [by right | done].
        -- left. split; [by left |]. intros Hin.
           by apply (Hnew c); [left | apply Hsub; right].
        -- right. by exists c'.
    + congruence.
    + by etrans.
Qed.
End prepare_metrics_facts.

(** The texts the first loop cuts and tests. *)
Lemma substring_all (s : string) : String.substring 0 (String.length s) s = s.
Proof. induction s as [|c s IH]; simpl; [done | by rewrite IH]. Qed.

Lemma take_chars_append (p s : string) : take_chars (String.length p) (p +:+ s) = p.
Proof.
  unfold take_chars. induction p as [|c p IH]; simpl.
  - by destruct s.
  - by rewrite IH.
Qed.

Lemma drop_chars_append (p s : string) : drop_chars (String.length p) (p +:+ s) = s.
Proof.
  unfold drop_chars. rewrite append_length.
  replace (String.length p + String.length s - String.length p)
    with (String.length s) by lia.
  induction p as [|c p IH]; simpl; [apply substring_all | done].
Qed.

Lemma endswith_append (p s : string) : endswith (p +:+ s) s = true.
Proof.
  unfold endswith. rewrite append_length.
  replace (String.length p + String.length s - String.length s)
    with (String.length p) by lia.
  rewrite drop_chars_append, String.eqb_refl, andb_true_r.
  apply Nat.leb_le. lia.
Qed.

Lemma drop_last_append (p s : string) :
  drop_last (String.length s) (p +:+ s) = p.
Proof.
  unfold drop_last. rewrite append_length.
  replace (String.length p + String.length s - String.length s)
    with (String.length p) by lia.
  apply take_chars_append.
Qed.

Lemma key_chars_perm (ks1 ks2 : list string) :
  ks1 ≡ₚ ks2 → key_chars ks1 = key_chars ks2.
Proof. induction 1; simpl; lia. Qed.

Lemma key_chars_app (ks1 ks2 : list string) :
  key_chars (ks1 ++ ks2) = key_chars ks1 + key_chars ks2.
Proof. induction ks1; simpl; lia. Qed.

Section resolver_theorems.
Context {V : Type}.
Implicit Types (d metrics processed r : dict V) (k : string).

Lemma flag_conflicts_rename_ok processed :
  NoDup (dict_keys processed) → no_val_collision (dict_keys processed) →
  let cs := flag_conflicts processed in
  ∃ out, rename_conflicts cs processed = Ok out
    ∧ NoDup (dict_keys out)
    ∧ (∀ x, x ∈ dict_keys out ↔
            (x ∈ dict_keys processed ∧ x ∉ cs)
            ∨ ∃ c, c ∈ cs ∧ x = c +:+ "_val")
    ∧ length out = length processed
    ∧ (dict_values out ≡ₚ dict_values processed).
Proof.
  intros Hnd Hcol cs. apply rename_conflicts_spec.
  - done.
  - apply flag_conflicts_NoDup.
  - intros c Hc. by apply flag_conflicts_elem in Hc as [? _].
  - intros c Hc. apply flag_conflicts_elem in Hc as [Hc _].
    unfold no_val_collision in Hcol. rewrite Forall_forall in Hcol. by apply Hcol.
Qed.

(** Where, after the std/val pairing pass, no key is another key followed
    by ["_val"], no renamed key meets a key that is there already:
    [_prepare_metrics] returns an output with distinct keys, as many
    entries as the input, and the values of the input. *)
Theorem prepare_metrics_keeps_entries metrics processed :
  NoDup (dict_keys metrics) →
  pair_std_val metrics = Ok processed →
  no_val_collision (dict_keys processed) →
  ∃ out, _prepare_metrics metrics = Ok out
    ∧ NoDup (dict_keys out)
    ∧ length out = length metrics
    ∧ (dict_values out ≡ₚ dict_values metrics).
Proof.
  intros Hnd Hpair Hcol.
  destruct (pair_std_val_inv _ _ Hnd Hpair) as (HndP & HlenP & HvalP).
  destruct (flag_conflicts_rename_ok processed HndP Hcol)
    as (out & Hout & HndO & _ & HlenO & HvalO).
  exists out. split_and!.
  - unfold _prepare_metrics. rewrite Hpair. exact Hout.
  - done.
  - congruence.
  - by etrans.
Qed.

(** C5.  With the keys ["loss"] and ["loss_val"] in the batch, the
    output has one entry: ["loss"], a prefix of ["loss_val"], is renamed
    to ["loss_val"] and takes the place of the entry that was there,
    whose value is lost.  The first loop tests that its target key is
    new before it writes; the third does not. *)
Theorem prepare_metrics_rename_overwrites (a b : V) :
  _prepare_metrics [("loss", a); ("loss_val", b)] = Ok [("loss_val", a)].
Proof. reflexivity. Qed.

(** C3.  A batch that holds only the key [p ++ "/std"] makes
    [_prepare_metrics] raise [KeyError]: the base key [p] is popped
    without a test of its presence. *)
Theorem prepare_metrics_std_without_base (p : string) (v : V) :
  _prepare_metrics [(p +:+ "/std", v)] = Raise (KeyError p).
Proof.
  unfold _prepare_metrics, pair_std_val. simpl.
  unfold pair_std_step. rewrite endswith_append.
  change 4 with (String.length "/std"). rewrite drop_last_append.
  assert (String.eqb (p +:+ "/val") (p +:+ "/std") = false) as Hne.
  { apply String.eqb_neq. intros E. by apply String.app_inj in E. }
  assert (String.eqb (p +:+ "/std") p = false) as Hne'.
  { apply String.eqb_neq. intros E. apply (f_equal String.length) in E.
    rewrite append_length in E. simpl in E. lia. }
  unfold dict_contains, dict_pop. simpl. rewrite Hne, Hne'. done.
Qed.
End resolver_theorems.

(** A batch that loses an entry: ["a"] is renamed onto the key ["a_val"]
    that is already there. *)
Lemma rename_overwrites_entry :
  ¬ keeps_all_entries [("a", 1%Z); ("a_val", 2%Z)].
Proof. intros H. by destruct (H _ eq_refl) as [? _]. Qed.

Example mixed_batch_keeps_entries :
  ∃ out, _prepare_metrics mixed_batch = Ok out
    ∧ NoDup (dict_keys out)
    ∧ length out = length mixed_batch
    ∧ (dict_values out ≡ₚ dict_values mixed_batch).
Proof.
  apply (prepare_metrics_keeps_entries mixed_batch
           [("loss/std", 1%Z); ("loss/auc", 9%Z); ("loss/val", 23%Z)]).
  - unfold dict_keys, mixed_batch. compute_done.
  - reflexivity.
  - unfold no_val_collision, dict_keys. compute_done.
Qed.

Section resolver_fixpoint.
Context {V : Type}.
Implicit Types (d metrics processed r : dict V) (k : string).

(** *** What the loops do to the number of entries and of key characters *)

(** A step of the first loop leaves the dictionary as it is, the key
    being paired already or no ["/std"] key, or adds four characters. *)
Lemma pair_std_step_measure d k d' :
  NoDup (dict_keys d) → pair_std_step d k = Ok d' →
  (d' = d ∧ (endswith k "/std" = true → drop_last 4 k +:+ "/val" ∈ dict_keys d))
  ∨ key_chars (dict_keys d') = key_chars (dict_keys d) + 4.
Proof.
  intros Hnd. unfold pair_std_step.
  destruct (endswith k "/std"); [|intros [= <-]; by left].
  destruct (dict_contains d (drop_last 4 k +:+ "/val")) eqn:Hc; simpl.
  { intros [= <-]. left. split; [done |]. intros _. by apply dict_contains_true. }
  destruct (dict_pop d (drop_last 4 k)) as [[v R]|e] eqn:Hpop; simpl; [|done].
  apply dict_pop_Some in Hpop as [Hget ->]. intros [= <-]. right.
  apply dict_contains_false in Hc.
  destruct (dict_remove_keys d _ v Hnd Hget) as (_ & _ & Hperm).
  rewrite dict_setitem_new.
  - rewrite dict_keys_app, key_chars_app, (key_chars_perm _ _ Hperm). simpl.
    rewrite append_length. simpl. lia.
  - intros Hin. apply Hc. rewrite Hperm. by right.
Qed.

Lemma pair_std_loop_measure (ks : list string) d d' :
  NoDup (dict_keys d) → for_each pair_std_step ks d = Ok d' →
  key_chars (dict_keys d) ≤ key_chars (dict_keys d')
  ∧ (key_chars (dict_keys d') = key_chars (dict_keys d) →
     d' = d ∧ ∀ k, k ∈ ks → endswith k "/std" = true →
                   drop_last 4 k +:+ "/val" ∈ dict_keys d).
Proof.
  revert d. induction ks as [|k ks IH]; intros d Hnd; simpl.
  - intros [= <-]. split; [done |]. intros _. split; [done |].
    intros k Hk. by apply elem_of_nil in Hk.
  - destruct (pair_std_step d k) as [d1|e] eqn:Hstep; simpl; [|done].
    intros Hrest.
    destruct (pair_std_step_inv d k d1 Hnd Hstep) as (Hnd1 & _ & _).
    destruct (IH d1 Hnd1 Hrest) as [Hle Heq].
    destruct (pair_std_step_measure d k d1 Hnd Hstep) as [[-> Hk] | Hgrow].
    + split; [done |]. intros E. destruct (Heq E) as [-> Hks].
      split; [done |]. intros k' [->|Hk']%elem_of_cons; [done | by apply Hks].
    + split; [lia |]. intros E. lia.
Qed.

(** No step of the first loop changes a dictionary whose ["/std"] keys
    are paired. *)
Lemma pair_std_loop_paired (ks : list string) d :
  (∀ k, k ∈ ks → endswith k "/std" = true →
        drop_last 4 k +:+ "/val" ∈ dict_keys d) →
  for_each pair_std_step ks d = Ok d.
Proof.
  induction ks as [|k ks IH]; intros H; simpl; [done |].
  assert (pair_std_step d k = Ok d) as ->.
  { unfold pair_std_step. destruct (endswith k "/std") eqn:E; [|done].
    assert (dict_contains d (drop_last 4 k +:+ "/val") = true) as ->; [|done].
    apply dict_contains_true, H; [left | done]. }
  simpl. apply IH. intros k' Hk'. apply H. by right.
Qed.

(** A step of the third loop never raises on a present key; it loses an
    entry, or keeps them all and adds four characters. *)
Lemma rename_step_measure d c :
  NoDup (dict_keys d) → c ∈ dict_keys d →
  ∃ d', rename_step d c = Ok d' ∧ NoDup (dict_keys d')
    ∧ (∀ x, x ∈ dict_keys d → x ≠ c → x ∈ dict_keys d')
    ∧ (length d' < length d
       ∨ (length d' = length d
          ∧ key_chars (dict_keys d') = key_chars (dict_keys d) + 4)).
Proof.
  intros Hnd Hc.
  destruct (rename_step_present d c Hc) as (v & Hget & Hstep).
  destruct (dict_remove_keys d c v Hnd Hget) as (HndR & HninR & Hperm).
  pose proof (dict_remove_perm d c v Hget) as Hp.
  eexists. split; [exact Hstep |].
  destruct (decide (c +:+ "_val" ∈ dict_keys (dict_remove d c))) as [Hin|Hnin].
  - split_and!.
    + by rewrite dict_setitem_keys_old.
    + intros x Hx Hne. rewrite dict_setitem_keys_old by done.
      rewrite Hperm in Hx. by apply elem_of_cons in Hx as [->|?].
    + left. rewrite dict_setitem_length_old by done.
      rewrite (Permutation_length Hp). simpl. lia.
  - destruct (dict_move d c (c +:+ "_val") v Hnd Hget Hnin)
      as (Hnd1 & Hkeys1 & Hlen1 & _).
    split_and!; [done | | ].
    + intros x Hx Hne. apply Hkeys1. by right.
    + right. split; [done |].
      rewrite dict_setitem_new, dict_keys_app, key_chars_app by done.
      rewrite (key_chars_perm _ _ Hperm). simpl.
      rewrite append_length. simpl. lia.
Qed.

Lemma rename_conflicts_measure (cs : list string) d :
  NoDup (dict_keys d) → NoDup cs → (∀ c, c ∈ cs → c ∈ dict_keys d) →
  ∃ d', rename_conflicts cs d = Ok d' ∧ NoDup (dict_keys d')
    ∧ length d' ≤ length d
    ∧ (length d' = length d →
       key_chars (dict_keys d') = key_chars (dict_keys d) + 4 * length cs).
Proof.
  revert d. induction cs as [|c cs IH]; intros d Hnd Hcs Hsub.
  - exists d. split_and!; [done | done | done |]. intros _. simpl. lia.
  - apply NoDup_cons in Hcs as [Hc Hcs].
    destruct (rename_step_measure d c Hnd) as (d1 & Hstep & Hnd1 & Hkeep & Hm);
      [apply Hsub; left |].
    destruct (IH d1 Hnd1 Hcs) as (d' & Hrest & Hnd' & Hle & Heq).
    { intros c' Hc'. apply Hkeep; [apply Hsub; by right | by intros ->]. }
    exists d'. split_and!.
    + unfold rename_conflicts in *. simpl. rewrite Hstep. exact Hrest.
    + done.
    + lia.
    + intros E. destruct Hm as [Hlt | [Hlen Hch]]; [lia |].
      rewrite Heq by lia. rewrite Hch. simpl. lia.
Qed.

(** [_prepare_metrics] raises in the first loop only, and keeps the keys
    distinct. *)
Lemma prepare_metrics_after_pairing metrics processed :
  NoDup (dict_keys metrics) → pair_std_val metrics = Ok processed →
  ∃ out, _prepare_metrics metrics = Ok out ∧ NoDup (dict_keys out)
    ∧ rename_conflicts (flag_conflicts processed) processed = Ok out.
Proof.
  intros Hnd Hpair.
  destruct (pair_std_val_inv _ _ Hnd Hpair) as (HndP & _ & _).
  destruct (rename_conflicts_measure (flag_conflicts processed) processed)
    as (out & Hout & HndO & _); [done | apply flag_conflicts_NoDup | |].
  { intros c Hc. by apply flag_conflicts_elem in Hc as [? _]. }
  exists out. split_and!; [| done | done].
  unfold _prepare_metrics. rewrite Hpair. exact Hout.
Qed.

Lemma prepare_metrics_NoDup metrics out :
  NoDup (dict_keys metrics) → _prepare_metrics metrics = Ok out →
  NoDup (dict_keys out).
Proof.
  intros Hnd Hout. unfold _prepare_metrics in Hout.
  destruct (pair_std_val metrics) as [processed|e] eqn:Hpair; [|done].
  destruct (prepare_metrics_after_pairing _ _ Hnd Hpair) as (out' & H1 & H2 & H3).
  simpl in Hout. rewrite H3 in Hout. by injection Hout as <-.
Qed.

Lemma same_mapping_keys d1 d2 :
  NoDup (dict_keys d1) → NoDup (dict_keys d2) → same_mapping d1 d2 →
  dict_keys d1 ≡ₚ dict_keys d2.
Proof.
  intros H1 H2 Hsame. apply NoDup_Permutation; [done | done |].
  intros x. by rewrite <- !dict_get_is_Some, (Hsame x).
Qed.

(** A dictionary that [_prepare_metrics] maps to itself. *)
Lemma prepare_metrics_fixed r :
  std_paired (dict_keys r) → prefix_free (dict_keys r) →
  _prepare_metrics r = Ok r.
Proof.
  intros Hpaired Hfree. unfold _prepare_metrics, pair_std_val.
  rewrite pair_std_loop_paired.
  - simpl. apply flag_conflicts_nil in Hfree. by rewrite Hfree.
  - unfold std_paired in Hpaired. rewrite Forall_forall in Hpaired. done.
Qed.

Lemma prepare_metrics_fixed_inv r r2 :
  NoDup (dict_keys r) → _prepare_metrics r = Ok r2 → same_mapping r2 r →
  std_paired (dict_keys r) ∧ prefix_free (dict_keys r).
Proof.
  intros Hnd Hout Hsame.
  pose proof (prepare_metrics_NoDup _ _ Hnd Hout) as Hnd2.
  pose proof (same_mapping_keys _ _ Hnd2 Hnd Hsame) as Hperm.
  unfold _prepare_metrics in Hout.
  destruct (pair_std_val r) as [processed|e] eqn:Hpair; [|done].
  simpl in Hout.
  destruct (pair_std_val_inv _ _ Hnd Hpair) as (HndP & HlenP & _).
  destruct (pair_std_loop_measure _ _ _ Hnd Hpair) as [Hle Heq].
  destruct (rename_conflicts_measure (flag_conflicts processed) processed)
    as (out & Hout' & _ & _ & Hgrow); [done | apply flag_conflicts_NoDup | |].
  { intros c Hc. by apply flag_conflicts_elem in Hc as [? _]. }
  rewrite Hout in Hout'. injection Hout' as <-.
  pose proof (Permutation_length Hperm) as Hlen.
  rewrite !dict_keys_length in Hlen.
  pose proof (key_chars_perm _ _ Hperm) as Hch.
  rewrite Hgrow in Hch by lia.
  assert (length (flag_conflicts processed) = 0) as Hnil%nil_length_inv by lia.
  destruct Heq as [-> Hks]; [lia |].
  split.
  - apply Forall_forall. intros k Hk. by apply Hks.
  - by apply flag_conflicts_nil.
Qed.

(** C6 (amended).  For every flat MetricBatch on which [_prepare_metrics]
    returns [r] and the second application, to [r], returns as well: the
    second application returns the mapping [r] again if and only if in
    [r] every key ending in ["/std"] has its ["/val"] sibling and no key is
    a strict prefix of another; it then returns [r] itself, in the same
    order.  A second application that raises is not spoken of. *)
Theorem prepare_metrics_twice metrics r r2 :
  NoDup (dict_keys metrics) → _prepare_metrics metrics = Ok r →
  _prepare_metrics r = Ok r2 →
  (same_mapping r2 r ↔ std_paired (dict_keys r) ∧ prefix_free (dict_keys r))
  ∧ (same_mapping r2 r → r2 = r).
Proof.
  intros Hnd Hr Hr2. pose proof (prepare_metrics_NoDup _ _ Hnd Hr) as HndR.
  assert (same_mapping r2 r →
          std_paired (dict_keys r) ∧ prefix_free (dict_keys r)) as Honly
    by (by apply prepare_metrics_fixed_inv).
  assert (std_paired (dict_keys r) ∧ prefix_free (dict_keys r) → r2 = r) as Hif.
  { intros [Hp Hf]. rewrite (prepare_metrics_fixed r Hp Hf) in Hr2.
    by injection Hr2. }
  split; [split; [done |] |].
  - intros ->%Hif. done.
  - intros H. by apply Hif, Honly.
Qed.
End resolver_fixpoint.

(** ** The keys of the output *)

(** A strict prefix of [c ++ "_val"] that starts with [c ++ "_"]. *)
Lemma between_key_and_val (x c : string) :
  startswith (c +:+ "_val") x = true → startswith x (c +:+ "_") = true →
  x = c +:+ "_" ∨ x = c +:+ "_v" ∨ x = c +:+ "_va" ∨ x = c +:+ "_val".
Proof.
  rewrite !startswith_prefix, !chars_app. intros H1 [t Ht].
  rewrite Ht, <- (assoc_L (++)) in H1. apply prefix_app_inv in H1.
  assert (∀ s : string, chars x = chars c ++ chars s → x = c +:+ s) as Hx.
  { intros s E. apply chars_inj. by rewrite chars_app. }
  simpl in H1. apply prefix_cons_inv_2 in H1.
  destruct t as [|a1 t].
  { left. apply Hx. by rewrite Ht, <- (assoc_L (++)). }
  pose proof (prefix_cons_inv_1 _ _ _ _ H1) as ->.
  apply prefix_cons_inv_2 in H1. destruct t as [|a2 t].
  { right; left. apply Hx. by rewrite Ht, <- (assoc_L (++)). }
  pose proof (prefix_cons_inv_1 _ _ _ _ H1) as ->.
  apply prefix_cons_inv_2 in H1. destruct t as [|a3 t].
  { right; right; left. apply Hx. by rewrite Ht, <- (assoc_L (++)). }
  pose proof (prefix_cons_inv_1 _ _ _ _ H1) as ->.
  apply prefix_cons_inv_2 in H1. destruct t as [|a4 t].
  { right; right; right. apply Hx. by rewrite Ht, <- (assoc_L (++)). }
  exfalso. by eapply prefix_nil_not.
Qed.

(** When [c ++ "_val"] is a strict prefix of [c' ++ "_val"], [c'] starts
    with [c ++ "_val"]. *)
Lemma val_prefix_of_val_key (c c' : string) :
  c ≠ c' → startswith (c' +:+ "_val") (c +:+ "_val") = true →
  startswith c' (c +:+ "_val") = true.
Proof.
  intros Hne. rewrite !startswith_prefix, !chars_app. intros [r Hr].
  assert (chars c `prefix_of` chars c') as [w Hw].
  { destruct (prefix_weak_total (chars c) (chars c') (chars c' ++ chars "_val"))
      as [H | [w Hw]].
    - rewrite Hr, <- (assoc_L (++)). by apply prefix_app_r.
    - by apply prefix_app_r.
    - done.
    - apply (f_equal length) in Hr. rewrite Hw in Hr.
      rewrite !length_app in Hr.
      assert (length w = 0) as ->%nil_length_inv by lia.
      rewrite (right_id_L [] (++)) in Hw. by rewrite Hw. }
  rewrite Hw in Hr |- *. rewrite <- !(assoc_L (++)) in Hr.
  apply app_inv_head in Hr. apply prefix_app.
  destruct w as [|a1 w].
  { exfalso. apply Hne, chars_inj. by rewrite Hw, (right_id_L [] (++)). }
  destruct w as [|a2 w]; [by simplify_eq/= |].
  destruct w as [|a3 w]; [by simplify_eq/= |].
  destruct w as [|a4 w]; [by simplify_eq/= |].
  simpl in Hr. injection Hr as -> -> -> -> _.
  by exists w.
Qed.

Lemma startswith_longer (j k : string) :
  startswith j k = true → String.length k ≤ String.length j.
Proof.
  rewrite startswith_prefix, !chars_length. apply prefix_length.
Qed.

Section resolver_renamed_keys.
Context {V : Type}.
Implicit Types (d metrics processed : dict V) (k c : string).

(** The keys after a step of the third loop: [c] is gone and
    [c ++ "_val"] is there, new or not. *)
Lemma rename_step_keys d c :
  NoDup (dict_keys d) → c ∈ dict_keys d →
  ∃ d', rename_step d c = Ok d' ∧ NoDup (dict_keys d')
    ∧ ∀ x, x ∈ dict_keys d' ↔ x = c +:+ "_val" ∨ (x ∈ dict_keys d ∧ x ≠ c).
Proof.
  intros Hnd Hc.
  destruct (rename_step_present d c Hc) as (v & Hget & Hstep).
  destruct (dict_remove_keys d c v Hnd Hget) as (HndR & HninR & Hperm).
  eexists. split; [exact Hstep |]. split; [by apply dict_setitem_NoDup |].
  assert (∀ x, x ∈ dict_keys (dict_remove d c) ↔ x ∈ dict_keys d ∧ x ≠ c)
    as Hrem.
  { intros x. rewrite Hperm, elem_of_cons. split.
    - intros H. split; [by right | by intros ->].
    - by intros [[->|?] ?]. }
  intros x.
  destruct (decide (c +:+ "_val" ∈ dict_keys (dict_remove d c))) as [Hin|Hnin].
  - rewrite dict_setitem_keys_old by done. rewrite Hrem. split; [tauto |].
    intros [->|?]; [by apply Hrem | done].
  - rewrite dict_setitem_new, dict_keys_app by done.
    rewrite elem_of_app, Hrem. simpl. rewrite list_elem_of_singleton. tauto.
Qed.

(** The keys after the third loop, when no renamed key is renamed onto a
    key that is renamed as well. *)
Lemma rename_conflicts_keys cs d :
  NoDup (dict_keys d) → NoDup cs →
  (∀ c, c ∈ cs → c ∈ dict_keys d) →
  (∀ c, c ∈ cs → c +:+ "_val" ∉ cs) →
  ∃ out, rename_conflicts cs d = Ok out
    ∧ NoDup (dict_keys out)
    ∧ (∀ x, x ∈ dict_keys out ↔
            (x ∈ dict_keys d ∧ x ∉ cs) ∨ ∃ c, c ∈ cs ∧ x = c +:+ "_val").
Proof.
  revert d. induction cs as [|c cs IH]; intros d Hnd Hcs Hsub Hchain.
  - exists d. split_and!; try done.
    intros x. split.
    + intros H. left. split; [done | apply not_elem_of_nil].
    + intros [[H _] | (c & Hc & _)]; [done | by apply elem_of_nil in Hc].
  - apply NoDup_cons in Hcs as [Hc Hcs].
    destruct (rename_step_keys d c Hnd) as (d1 & Hstep & Hnd1 & Hkeys1);
      [apply Hsub; left |].
    destruct (IH d1) as (out & Hout & HndO & HkeysO); try done.
    { intros c' Hc'. apply Hkeys1. right. split; [apply Hsub; by right |].
      by intros ->. }
    { intros c' Hc' Hin. apply (Hchain c'); by right. }
    exists out. split_and!.
    + unfold rename_conflicts in *. simpl. rewrite Hstep. simpl. done.
    + done.
    + intros x. rewrite HkeysO, Hkeys1. split.
      * intros [[[->|[Hin Hne]] Hx] | (c' & Hc' & ->)].
        -- right. exists c. split; [left | done].
        -- left. split; [done |]. rewrite not_elem_of_cons. done.
        -- right. exists c'. split; [by right | done].
      * intros [[Hin [Hne Hx]%not_elem_of_cons]
               | (c' & [->|Hc']%elem_of_cons & ->)].
        -- left. split; [by right | done].
        -- left. split; [by left |]. intros Hin.
           apply (Hchain c); [left | by right].
        -- right. by exists c'.
Qed.

Lemma val_clash_free_elim (ks : list string) (k j : string) :
  val_clash_free ks → k ∈ ks → j ∈ ks → val_clash ks k j = false.
Proof.
  unfold val_clash_free. rewrite Forall_forall. intros H Hk Hj.
  specialize (H k Hk). rewrite Forall_forall in H. by apply H.
Qed.

(** A renamed key whose new name a longer key goes on after. *)
Lemma val_clash_extension (ks : list string) (k j : string) :
  flagged ks k = true → startswith j (k +:+ "_val") = true →
  j ≠ k +:+ "_val" → val_clash ks k j = true.
Proof.
  intros Hf Hs Hne. unfold val_clash. rewrite Hf, Hs. simpl.
  apply String.eqb_neq in Hne. rewrite Hne. simpl. apply orb_true_r.
Qed.

Lemma val_clash_free_no_chain (ks : list string) :
  val_clash_free ks → no_val_chain ks.
Proof.
  intros Hfree. apply Forall_forall. intros k Hk Hf Hin.
  apply not_true_iff_false. intros (j & Hj & Hs & Hne)%flagged_true.
  pose proof (val_clash_free_elim ks k j Hfree Hk Hj) as Hc.
  by rewrite (val_clash_extension ks k j) in Hc.
Qed.

Lemma flag_conflicts_rename_keys processed :
  NoDup (dict_keys processed) → no_val_chain (dict_keys processed) →
  let cs := flag_conflicts processed in
  ∃ out, rename_conflicts cs processed = Ok out
    ∧ (∀ x, x ∈ dict_keys out ↔
            (x ∈ dict_keys processed ∧ x ∉ cs)
            ∨ ∃ c, c ∈ cs ∧ x = c +:+ "_val").
Proof.
  intros Hnd Hchain cs.
  destruct (rename_conflicts_keys cs processed) as (out & Hout & _ & Hkeys).
  - done.
  - apply flag_conflicts_NoDup.
  - intros c Hc. by apply flag_conflicts_elem in Hc as [? _].
  - intros c [Hc Hf]%flag_conflicts_elem [Hv Hfv]%flag_conflicts_elem.
    unfold no_val_chain in Hchain. rewrite Forall_forall in Hchain.
    by rewrite (Hchain c Hc Hf Hv) in Hfv.
  - by exists out.
Qed.

(** Without such a meeting the output is prefix-free. *)
Lemma rename_conflicts_prefix_free processed out :
  NoDup (dict_keys processed) →
  rename_conflicts (flag_conflicts processed) processed = Ok out →
  val_clash_free (dict_keys processed) → prefix_free (dict_keys out).
Proof.
  intros Hnd Hout Hfree.
  destruct (flag_conflicts_rename_keys processed Hnd
              (val_clash_free_no_chain _ Hfree)) as (out' & Hout' & Hkeys).
  rewrite Hout in Hout'. injection Hout' as <-.
  assert (∀ x, x ∈ dict_keys processed → x ∉ flag_conflicts processed → flagged (dict_keys processed) x = false)
    as Hunflagged.
  { intros x Hx Hnc. apply not_true_iff_false. intros Hf.
    apply Hnc. by apply flag_conflicts_elem. }
  assert (∀ k j, k ∈ flag_conflicts processed → j ∈ dict_keys processed →
                 startswith j (k +:+ "_val") = true → j = k +:+ "_val")
    as Hext.
  { intros k j [Hk Hf]%flag_conflicts_elem Hj Hs.
    destruct (decide (j = k +:+ "_val")) as [|Hne]; [done |].
    pose proof (val_clash_free_elim (dict_keys processed) k j Hfree Hk Hj) as Hc.
    by rewrite (val_clash_extension (dict_keys processed) k j) in Hc. }
  apply Forall_forall. intros x Hx. apply Forall_forall. intros y Hy Hne.
  apply not_true_iff_false. intros Hs.
  apply Hkeys in Hx as [[Hx Hxc] | (c & Hc & ->)];
    apply Hkeys in Hy as [[Hy Hyc] | (c' & Hc' & ->)].
  - pose proof (Hunflagged x Hx Hxc) as Hf. apply not_true_iff_false in Hf.
    apply Hf, flagged_true. exists y. split_and!; [done | done | by intros ->].
  - pose proof Hc' as [Hc'P Hc'f]%flag_conflicts_elem.
    pose proof (Hunflagged x Hx Hxc) as Hxf.
    destruct (prefix_of_val _ _ Hs) as [Hp | Hp].
    + destruct (decide (x = c')) as [->|Hxc']; [done |].
      apply not_true_iff_false in Hxf. apply Hxf, flagged_true.
      exists c'. split_and!; [done | done | by intros ->].
    + pose proof (val_clash_free_elim _ c' x Hfree Hc'P Hx) as Hc.
      unfold val_clash in Hc. rewrite Hc'f, Hxf in Hc. simpl in Hc.
      destruct (between_key_and_val x c' Hs Hp) as [-> | [-> | [-> | ->]]];
        [| | | done];
        rewrite String.eqb_refl, ?orb_true_r in Hc; done.
  - apply Hne. symmetry. by apply Hext.
  - pose proof Hc' as [Hc'P Hc'f]%flag_conflicts_elem.
    assert (c ≠ c') as Hcc by (by intros ->).
    pose proof (val_prefix_of_val_key c c' Hcc Hs) as Hs'.
    pose proof (Hext c c' Hc Hc'P Hs') as ->.
    apply flagged_true in Hc'f as (j & Hj & Hsj & Hnej).
    by apply Hnej, Hext.
Qed.

(** When no renamed key is renamed onto a key that is renamed as well,
    such a meeting leaves a prefix pair in the output. *)
Lemma rename_conflicts_prefix_free_inv processed out :
  NoDup (dict_keys processed) →
  rename_conflicts (flag_conflicts processed) processed = Ok out →
  no_val_chain (dict_keys processed) →
  prefix_free (dict_keys out) → val_clash_free (dict_keys processed).
Proof.
  intros Hnd Hout Hchain Hfree.
  destruct (flag_conflicts_rename_keys processed Hnd Hchain)
    as (out' & Hout' & Hkeys).
  rewrite Hout in Hout'. injection Hout' as <-.
  assert (∀ x y, x ∈ dict_keys out → y ∈ dict_keys out →
                 startswith y x = true → x = y) as Hpf.
  { intros x y Hx Hy Hs. destruct (decide (x = y)) as [|Hne]; [done |].
    unfold prefix_free in Hfree. rewrite Forall_forall in Hfree.
    specialize (Hfree x Hx). rewrite Forall_forall in Hfree.
    by rewrite (Hfree y Hy Hne) in Hs. }
  assert (∀ k, k ∈ dict_keys processed → flagged (dict_keys processed) k = true → k +:+ "_val" ∈ dict_keys out)
    as Hren.
  { intros k Hk Hf. apply Hkeys. right. exists k.
    split; [by apply flag_conflicts_elem | done]. }
  assert (∀ j, j ∈ dict_keys processed → flagged (dict_keys processed) j = false → j ∈ dict_keys out) as Hstay.
  { intros j Hj Hf. apply Hkeys. left. split; [done |].
    intros [_ Hf']%flag_conflicts_elem. congruence. }
  apply Forall_forall. intros k Hk. apply Forall_forall. intros j Hj.
  apply not_true_iff_false. unfold val_clash.
  intros [Hkf [[Hjf Hbetween]%andb_true_iff
              | [Hs Hne%negb_true_iff%String.eqb_neq]%andb_true_iff
              ]%orb_true_iff]%andb_true_iff.
  - apply negb_true_iff in Hjf.
    assert (∃ t, k +:+ "_val" = j +:+ t ∧ t ≠ "") as (t & Ht & Hne).
    { apply orb_true_iff in Hbetween as [Hb | ->%String.eqb_eq].
      - apply orb_true_iff in Hb as [->%String.eqb_eq | ->%String.eqb_eq].
        + exists "val". by rewrite append_assoc.
        + exists "al". by rewrite append_assoc.
      - exists "l". by rewrite append_assoc. }
    assert (j = k +:+ "_val") as E.
    { apply Hpf; [by apply Hstay | by apply Hren |].
      rewrite Ht. apply startswith_append. }
    rewrite E in Ht. apply (f_equal String.length) in Ht.
    rewrite !append_length in Ht. destruct t; [done | simpl in Ht; lia].
  - destruct (flagged (dict_keys processed) j) eqn:Hjf.
    + assert (k +:+ "_val" = j +:+ "_val") as E.
      { apply Hpf; [by apply Hren | by apply Hren |].
        apply (startswith_trans _ j); [apply startswith_append | done]. }
      apply append_inj_l in E. subst j.
      apply startswith_longer in Hs. rewrite append_length in Hs.
      simpl in Hs. lia.
    + apply Hne. symmetry. apply Hpf; [by apply Hren | by apply Hstay | done].
Qed.

(** C1 (amended).  For every flat MetricBatch on which the std/val pairing
    pass returns, [_prepare_metrics] returns.  Its output has no two
    distinct keys of which one is a prefix of the other whenever, after
    that pass, no key [k] that is a strict prefix of another key meets a
    key at its new name: none of [k ++ "_"], [k ++ "_v"], [k ++ "_va"] is a key
    that is not renamed itself, and no key goes on after [k ++ "_val"].
    When no renamed key is renamed onto a key that is renamed as well,
    the output is prefix-free in this case only. *)
Theorem prepare_metrics_prefix_free metrics processed :
  NoDup (dict_keys metrics) →
  pair_std_val metrics = Ok processed →
  ∃ out, _prepare_metrics metrics = Ok out
    ∧ (val_clash_free (dict_keys processed) → prefix_free (dict_keys out))
    ∧ (no_val_chain (dict_keys processed) → prefix_free (dict_keys out) →
       val_clash_free (dict_keys processed)).
Proof.
  intros Hnd Hpair.
  destruct (pair_std_val_inv _ _ Hnd Hpair) as (HndP & _ & _).
  destruct (prepare_metrics_after_pairing _ _ Hnd Hpair)
    as (out & Hout & _ & Hren).
  exists out. split_and!; [done | |].
  - by apply rename_conflicts_prefix_free.
  - by apply rename_conflicts_prefix_free_inv.
Qed.
End resolver_renamed_keys.

(** Counterexample to C1: a batch whose output keeps a prefix pair.  The key
    ["a"] is renamed to ["a_val"], of which the untouched key ["a_"] is a
    prefix. *)
Lemma prefix_pair_survives : ¬ resolves_all_prefix_conflicts underscore_batch.
Proof.
  intros H. specialize (H _ eq_refl). revert H.
  unfold prefix_free, dict_keys. compute_done.
Qed.

Lemma prepare_metrics_prefix_free_witness :
  (NoDup (dict_keys loss_batch) ∧ pair_std_val loss_batch = Ok loss_batch)
  ∧ val_clash_free (dict_keys loss_batch)
  ∧ ∃ out, _prepare_metrics loss_batch = Ok out
      ∧ (val_clash_free (dict_keys loss_batch) → prefix_free (dict_keys out))
      ∧ (no_val_chain (dict_keys loss_batch) → prefix_free (dict_keys out) →
         val_clash_free (dict_keys loss_batch)).
Proof.
  assert (NoDup (dict_keys loss_batch)) as H1
    by (unfold dict_keys, loss_batch; compute_done).
  split; [split; [exact H1 | reflexivity] |].
  split; [unfold val_clash_free, dict_keys, loss_batch; compute_done |].
  exact (prepare_metrics_prefix_free loss_batch loss_batch H1 eq_refl).
Defined.

(** The batches with an underscore in a key: [loss_bce] beside [loss] is
    no meeting, [a_] beside [a] is one. *)
Example loss_batch_resolved :
  _prepare_metrics loss_batch
  = Ok [("loss/auc", 9%Z); ("loss_bce", 4%Z); ("loss_val", 23%Z)]
  ∧ ¬ val_clash_free (dict_keys underscore_batch).
Proof.
  split; [reflexivity |].
  unfold val_clash_free, dict_keys, underscore_batch. compute_done.
Qed.


(** Counterexample to C6: a batch on which a second application renames
    again.  The first gives ["a_"] and ["a_val"], the second renames ["a_"]
    to ["a__val"]. *)
Lemma second_application_renames_again : ¬ idempotent_on underscore_batch.
Proof.
  intros H. destruct (H _ eq_refl) as (r2 & Hr2 & Hsame).
  vm_compute in Hr2. injection Hr2 as <-.
  specialize (Hsame "a_"). vm_compute in Hsame. done.
Qed.

(** A batch on which a second application raises: the first moves ["p"] to
    ["p/val"] and on to ["p/val/val"], the second finds ["p/std"] without
    ["p/val"] and pops the absent ["p"]. *)
Lemma second_application_raises :
  ∃ r, _prepare_metrics [("p/std", 1%Z); ("p", 2%Z); ("p/val/std", 3%Z)] = Ok r
       ∧ _prepare_metrics r = Raise (KeyError "p").
Proof. eexists. split; reflexivity. Qed.

Lemma prepare_metrics_twice_witness :
  (NoDup (dict_keys std_batch)
   ∧ _prepare_metrics std_batch = Ok [("loss/std", 1%Z); ("loss/val", 23%Z)]
   ∧ _prepare_metrics [("loss/std", 1%Z); ("loss/val", 23%Z)]
     = Ok [("loss/std", 1%Z); ("loss/val", 23%Z)])
  ∧ (same_mapping [("loss/std", 1%Z); ("loss/val", 23%Z)]
       [("loss/std", 1%Z); ("loss/val", 23%Z)]
     ↔ std_paired (dict_keys [("loss/std", 1%Z); ("loss/val", 23%Z)])
       ∧ prefix_free (dict_keys [("loss/std", 1%Z); ("loss/val", 23%Z)]))
    ∧ (same_mapping [("loss/std", 1%Z); ("loss/val", 23%Z)]
         [("loss/std", 1%Z); ("loss/val", 23%Z)] →
       [("loss/std", 1%Z); ("loss/val", 23%Z)]
       = [("loss/std", 1%Z); ("loss/val", 23%Z)]).
Proof.
  assert (NoDup (dict_keys std_batch)) as H1
    by (unfold dict_keys, std_batch; compute_done).
  split; [split_and!; [exact H1 | reflexivity | reflexivity] |].
  exact (prepare_metrics_twice std_batch _ _ H1 eq_refl eq_refl).
Defined.

(** A second application that returns another mapping: the first gives
    ["a_"] and ["a_val"], which is not prefix-free, and the second renames
    ["a_"] to ["a__val"]. *)
Example second_application_on_underscore_batch :
  _prepare_metrics underscore_batch = Ok [("a_", 2%Z); ("a_val", 1%Z)]
  ∧ _prepare_metrics [("a_", 2%Z); ("a_val", 1%Z)]
    = Ok [("a_val", 1%Z); ("a__val", 2%Z)]
  ∧ ¬ prefix_free (dict_keys [("a_", 2%Z); ("a_val", 1%Z)]).
Proof.
  split_and!; [reflexivity | reflexivity |].
  unfold prefix_free, dict_keys. compute_done.
Qed.

(** ** The logger *)

Section logger_theorems.
Context {float image artifact : Type}.
Implicit Types (self : NeptuneLogger) (runner : IRunner)
  (metrics : dict (metric_value float)) (img : image)
  (obj : option artifact) (path_to_artifact : option string)
  (run : list (backend_op float image artifact)).

(** A mapping of numbers is written entry by entry, in order. *)
Lemma log_metrics_floats (ms : dict float) (neptune_path : string) (step : Z) run :
  _log_metrics (image:=image) (artifact:=artifact)
    (prod_map id MFloat <$> ms) neptune_path step run
  = (Ok (), run ++ ((λ '(key, x), AppendSeries neptune_path key x step) <$> ms)).
Proof.
  revert run. induction ms as [|[key x] ms IH]; intros run.
  - simpl. by rewrite (right_id_L [] (++)).
  - change (_log_metrics (prod_map id MFloat <$> (key, x) :: ms) neptune_path step run)
      with (_log_metrics (image:=image) (artifact:=artifact)
              (prod_map id MFloat <$> ms) neptune_path step
              (run ++ [AppendSeries neptune_path key x step])).
    rewrite IH. by rewrite <- (assoc_L (++)).
Qed.

Lemma unknown_scope_eq (s : string) :
  s ∉ known_scopes →
  scope_eq (Some s) "batch" = false ∧ scope_eq (Some s) "loader" = false
  ∧ scope_eq (Some s) "epoch" = false ∧ scope_eq (Some s) "experiment" = false.
Proof.
  unfold known_scopes. rewrite !not_elem_of_cons. intros (? & ? & ? & ? & _).
  simpl. by rewrite !String.eqb_neq.
Qed.

(** C2.  For a scope that is a text other than ["batch"], ["loader"],
    ["epoch"] and ["experiment"], no call reaches the backend; [log_metrics]
    returns, but [log_image] and [log_artifact] raise [UnboundLocalError]:
    no branch has bound the path they pass on. *)
Theorem unknown_scope_calls self metrics (tag : string) img obj
    path_to_artifact runner (s : string) run :
  s ∉ known_scopes →
  log_metrics self metrics (Some s) runner run = (Ok (), run)
  ∧ log_image self tag img runner (Some s) run
    = (Raise (UnboundLocalError "log_path"), run)
  ∧ log_artifact self tag runner obj path_to_artifact (Some s) run
    = (Raise (UnboundLocalError "neptune_path"), run).
Proof.
  intros (Hb & Hl & He & Hx)%unknown_scope_eq. split_and!.
  - unfold log_metrics. by rewrite Hb, Hl, He, Hx.
  - unfold log_image, image_path. by rewrite Hb, Hl, He, Hx.
  - unfold log_artifact, artifact_path. rewrite Hb, Hl, He, Hx. simpl.
    by destruct (bool_decide (is_Some obj) && bool_decide (is_Some path_to_artifact)).
Qed.

(** C4.  With both an in-memory artifact and a path given, [log_artifact]
    raises no validation error: the [ValueError] is built and dropped,
    and the in-memory artifact is uploaded whenever the scope binds a
    path. *)
Theorem log_artifact_both_given self (tag : string) runner (a : artifact)
    (p : string) (scope : option string) run :
  log_artifact self tag runner (Some a) (Some p) scope run =
  match artifact_path self tag runner scope with
  | Some neptune_path => (Ok (), run ++ [UploadPickle neptune_path a])
  | None => (Raise (UnboundLocalError "neptune_path"), run)
  end.
Proof. unfold log_artifact. by destruct (artifact_path self tag runner scope). Qed.

(** C9.  The path of an artifact logged at batch scope under the base
    namespace ["experiment"], at epoch 3, loader ["train"], batch 7, with
    tag ["sample"]; the upload goes there. *)
Theorem artifact_path_batch_example (log_batch log_epoch : bool)
    (sample : Z) (a : artifact) run :
  let self := {| base_namespace := "experiment";
                 log_batch_metrics := log_batch;
                 log_epoch_metrics := log_epoch |} in
  let runner := {| epoch_step := 3; loader_key := "train";
                   batch_step := 7; sample_step := sample |} in
  artifact_path self "sample" runner (Some "batch")
  = Some "experiment/_artifacts/epoch-0003/loader-train/batch-0007/sample"
  ∧ log_artifact self "sample" runner (Some a) None (Some "batch") run
    = (Ok (),
       run ++ [UploadPickle
                 "experiment/_artifacts/epoch-0003/loader-train/batch-0007/sample"
                 a]).
Proof. done. Qed.

(** C10.  A call with [scope=None] is the call with
    [scope="experiment"]: [log_metrics] appends every metric to its
    series under the base namespace at step 0 whatever the two toggles
    are, [log_image] appends the image at [base/_images/tag], and
    [log_artifact] uploads the pickled object, or else the file, at
    [base/_artifacts/tag].  The last four equations are the calls on a
    logger with the base namespace ["experiment"]. *)
Theorem scope_None_is_experiment self metrics (ms : dict float)
    (tag : string) img (a : artifact) (file : string) (x : float)
    obj path_to_artifact runner run :
  log_metrics self metrics None runner run
  = log_metrics self metrics (Some "experiment") runner run
  ∧ log_metrics self (prod_map id MFloat <$> ms) None runner run
    = (Ok (), run ++ ((λ '(key, x), AppendSeries (base_namespace self) key x 0)
                      <$> ms))
  ∧ log_image self tag img runner None run
    = log_image self tag img runner (Some "experiment") run
  ∧ log_image self tag img runner None run
    = (Ok (), run ++ [AppendImage
                        (base_namespace self +:+ "/_images/" +:+ tag) img])
  ∧ log_artifact self tag runner obj path_to_artifact None run
    = log_artifact self tag runner obj path_to_artifact (Some "experiment") run
  ∧ log_artifact self tag runner (Some a) path_to_artifact None run
    = (Ok (), run ++ [UploadPickle
                        (base_namespace self +:+ "/_artifacts/" +:+ tag) a])
  ∧ log_artifact self tag runner None (Some file) None run
    = (Ok (), run ++ [UploadFile
                        (base_namespace self +:+ "/_artifacts/" +:+ tag) file])
  ∧ log_artifact self tag runner None None None run = (Ok (), run)
  ∧ log_metrics demo_logger [("loss", MFloat x)] None runner run
    = (Ok (), run ++ [AppendSeries "experiment" "loss" x 0])
  ∧ log_image demo_logger "sample" img runner None run
    = (Ok (), run ++ [AppendImage "experiment/_images/sample" img])
  ∧ log_artifact demo_logger "model" runner (Some a) None None run
    = (Ok (), run ++ [UploadPickle "experiment/_artifacts/model" a])
  ∧ log_artifact demo_logger "model" runner None (Some "model.pth") None run
    = (Ok (), run ++ [UploadFile "experiment/_artifacts/model" "model.pth"]).
Proof.
  split_and!; try reflexivity.
  - apply log_metrics_floats.
  - by destruct path_to_artifact.
Qed.
End logger_theorems.

(** A coordinate below ten thousand is written with four digits. *)
Lemma format_04d_width (z : Z) :
  (0 ≤ z < 10000)%Z → String.length (format_04d z) = 4.
Proof.
  intros Hz.
  assert (Forall (λ z, String.length (format_04d z) = 4) (seqZ 0 10000)) as H
    by compute_done.
  rewrite Forall_forall in H. apply H, elem_of_seqZ. lia.
Qed.

Lemma unknown_scope_calls_witness :
  ("step" ∉ known_scopes)
  ∧ log_metrics (float:=Z) (image:=()) (artifact:=())
      {| base_namespace := "experiment"; log_batch_metrics := true;
         log_epoch_metrics := true |}
      [("loss", MFloat 1%Z)] (Some "step")
      {| epoch_step := 3; loader_key := "train"; batch_step := 7;
         sample_step := 0 |} [] = (Ok (), [])
  ∧ log_image (float:=Z) (artifact:=())
      {| base_namespace := "experiment"; log_batch_metrics := true;
         log_epoch_metrics := true |}
      "sample" () {| epoch_step := 3; loader_key := "train"; batch_step := 7;
         sample_step := 0 |} (Some "step") []
    = (Raise (UnboundLocalError "log_path"), [])
  ∧ log_artifact (float:=Z) (image:=())
      {| base_namespace := "experiment"; log_batch_metrics := true;
         log_epoch_metrics := true |}
      "sample" {| epoch_step := 3; loader_key := "train"; batch_step := 7;
         sample_step := 0 |} (Some ()) None (Some "step") []
    = (Raise (UnboundLocalError "neptune_path"), []).
Proof.
  assert ("step" ∉ known_scopes) as H by (unfold known_scopes; compute_done).
  split; [exact H |].
  exact (unknown_scope_calls _ _ _ _ _ _ _ _ _ H).
Defined.

(** The failing call of C4, at experiment scope. *)
Example log_artifact_both_given_uploads :
  log_artifact (float:=Z) (image:=())
    {| base_namespace := "experiment"; log_batch_metrics := false;
       log_epoch_metrics := true |}
    "model" {| epoch_step := 1; loader_key := "valid"; batch_step := 0;
               sample_step := 0 |}
    (Some "weights") (Some "/tmp/model.pth") (Some "experiment") []
  = (Ok (), [UploadPickle "experiment/_artifacts/model" "weights"]).
Proof. reflexivity. Qed.

(** ** The environment probe *)

Lemma utf8_scan_start (bs : list N) (lo hi lo' hi' : N) :
  utf8_scan bs 0 lo hi = utf8_scan bs 0 lo' hi'.
Proof. by destruct bs. Qed.

(** Cutting ASCII bytes off the end of UTF-8 text leaves UTF-8 text. *)
Lemma utf8_scan_app_ascii (l1 l2 : list N) (pending : nat) (lo hi : N) :
  (128 ≤ lo)%N → Forall (λ b, (b < 128)%N) l2 →
  utf8_scan (l1 ++ l2) pending lo hi = true → utf8_scan l1 pending lo hi = true.
Proof.
  intros Hlo Hascii. revert pending lo hi Hlo.
  induction l1 as [|b l1 IH]; intros pending lo hi Hlo; simpl.
  - destruct pending as [|p]; [done |].
    destruct Hascii as [|c l2 Hc _]; simpl; [done |].
    intros [[Hle _]%andb_true_iff _]%andb_true_iff.
    apply N.leb_le in Hle. lia.
  - destruct pending as [|p].
    + repeat case_match; try done; apply IH; lia.
    + intros [H1 H2]%andb_true_iff. rewrite H1. simpl. apply IH; [lia | done].
Qed.

Lemma lstrip_split (l : list Ascii.ascii) :
  ∃ sp, l = sp ++ lstrip l ∧ Forall (λ c, is_bytes_space c = true) sp.
Proof.
  induction l as [|c l (sp & IH1 & IH2)]; simpl.
  - by exists [].
  - destruct (is_bytes_space c) eqn:Hc.
    + exists (c :: sp). split; [simpl; congruence | by constructor].
    + by exists [].
Qed.

Lemma is_bytes_space_ascii (c : Ascii.ascii) :
  is_bytes_space c = true → (byte_code c < 128)%N.
Proof.
  unfold is_bytes_space.
  intros [H%N.eqb_eq | [_ H%N.leb_le]%andb_true_iff]%orb_true_iff; lia.
Qed.

Lemma utf8_valid_strip (b : string) : utf8_valid b = true → utf8_valid (strip b) = true.
Proof.
  unfold utf8_valid, strip.
  rewrite String.list_ascii_of_string_of_list_ascii.
  generalize (chars b). clear b. intros l Hl.
  destruct (lstrip_split l) as (sp1 & E1 & Hsp1).
  assert (utf8_scan (byte_code <$> lstrip l) 0 128 191 = true) as Hfront.
  { rewrite E1 in Hl. clear E1. induction Hsp1 as [|c sp1 Hc _ IH]; [done |].
    apply IH. simpl in Hl. apply is_bytes_space_ascii in Hc.
    assert ((byte_code c <=? 127)%N = true) as E by (apply N.leb_le; lia).
    by rewrite E in Hl. }
  destruct (lstrip_split (rev (lstrip l))) as (sp2 & E2 & Hsp2).
  apply (f_equal (λ x, rev x)) in E2. simpl in E2.
  rewrite rev_involutive, rev_app_distr in E2.
  rewrite E2, fmap_app in Hfront.
  apply utf8_scan_app_ascii in Hfront; [done | lia |].
  apply Forall_fmap, Forall_rev.
  eapply Forall_impl; [exact Hsp2 |]. intros c. apply is_bytes_space_ascii.
Qed.

(** *** [_decode_dict] *)

Lemma decode_dict_cons (k : string) (v : pyval) (d : dict pyval) :
  _decode_dict ((k, v) :: d) =
  v' ← decode_value v ; d' ← _decode_dict d ; Ok ((k, v') :: d').
Proof.
  unfold _decode_dict. simpl. by destruct (decode_value v).
Qed.

Lemma decode_dict_keys (d d' : dict pyval) :
  _decode_dict d = Ok d' → dict_keys d' = dict_keys d.
Proof.
  revert d'. induction d as [|[k v] d IH]; intros d'.
  - by intros [= <-].
  - rewrite decode_dict_cons.
    destruct (decode_value v) as [v'|]; simpl; [|done].
    destruct (_decode_dict d) as [d1|]; simpl; [|done].
    intros [= <-]. unfold dict_keys in *. simpl. f_equal. by apply IH.
Qed.

Lemma decode_dict_no_bytes (d : dict pyval) :
  Forall no_bytes (dict_values d) → _decode_dict d = Ok d.
Proof.
  unfold dict_values. induction d as [|[k v] d IH]; [done |].
  intros [Hv Hd]%Forall_cons. rewrite decode_dict_cons, (IH Hd).
  by destruct v.
Qed.

Lemma environment_literal_no_bytes (h : Host) :
  Forall no_bytes (dict_values (environment_literal h)).
Proof. unfold environment_literal, dict_values. simpl. by repeat constructor. Qed.

Lemma environment_literal_keys (h : Host) :
  dict_keys (environment_literal h) = environment_keys.
Proof. done. Qed.

(** *** The [try] block *)

Ltac result_simpl := cbn [mbind result_bind mret result_ret].

Lemma decode_utf8_Ok (b s : string) :
  decode_utf8 b = Ok s ↔ utf8_valid b = true ∧ s = b.
Proof.
  unfold decode_utf8. destruct (utf8_valid b); split; try done.
  - by intros [= <-].
  - by intros [_ ->].
  - by intros [? _].
Qed.

Lemma decode_utf8_Raise (b : string) (e : exn) :
  decode_utf8 b = Raise e ↔ utf8_valid b = false ∧ e = UnicodeDecodeError.
Proof.
  unfold decode_utf8. destruct (utf8_valid b); split; try done.
  - by intros [? _].
  - by intros [= <-].
  - by intros [_ ->].
Qed.

(** The block returns exactly when the three queries return and their
    outputs decode; it raises what a query raised, or [UnicodeDecodeError]
    on an output that is not UTF-8. *)
Lemma git_block_spec (h : Host) (result0 : dict pyval) :
  match git_block h result0 with
  | Ok r =>
      vcs_queries_succeed h
      ∧ ∃ b l o, r = dict_setitem result0 "git" (git_mapping b l o)
  | Raise e =>
      (∃ args, check_output h args true = Raise e ∧ ¬ vcs_queries_succeed h)
      ∨ (e = UnicodeDecodeError
         ∧ ∃ args out, check_output h args true = Ok out
                       ∧ (utf8_valid out = false ∨ utf8_valid (strip out) = false))
  end.
Proof.
  unfold git_block.
  destruct (check_output h (split "git rev-parse --abbrev-ref HEAD") true)
    as [raw|e1] eqn:Q1; result_simpl.
  2:{ left. eexists. split; [exact Q1 |].
      intros (? & ? & ? & ? & H1 & _). congruence. }
  destruct (decode_utf8 (strip raw)) as [branch|e] eqn:D1; result_simpl.
  2:{ apply decode_utf8_Raise in D1 as [U1 ->].
      right. split; [done |]. eexists _, _. split; [exact Q1 | by right]. }
  apply decode_utf8_Ok in D1 as [U1 ->].
  destruct (check_output h (split "git rev-parse HEAD") true) as [lc|e2] eqn:Q2;
    result_simpl.
  2:{ left. eexists. split; [exact Q2 |].
      intros (? & ? & ? & ? & _ & _ & H3 & _). congruence. }
  destruct (check_output h (split ("git rev-parse origin/" +:+ strip raw)) true)
    as [oc|e3] eqn:Q3; result_simpl.
  2:{ left. eexists. split; [exact Q3 |].
      intros (rb & gb & ? & ? & H1 & H2 & _ & H4).
      rewrite Q1 in H1. injection H1 as <-.
      apply decode_utf8_Ok in H2 as [_ ->]. congruence. }
  assert (vcs_queries_succeed h) as Hsucc.
  { exists raw, (strip raw), lc, oc. split_and!; try done.
    by apply decode_utf8_Ok. }
  rewrite !decode_dict_cons. unfold decode_value. result_simpl.
  destruct (decode_utf8 lc) as [lc'|e] eqn:D2; result_simpl.
  2:{ apply decode_utf8_Raise in D2 as [U2 ->].
      right. split; [done |]. eexists _, _. split; [exact Q2 | by left]. }
  destruct (decode_utf8 oc) as [oc'|e] eqn:D3; result_simpl.
  2:{ apply decode_utf8_Raise in D3 as [U3 ->].
      right. split; [done |]. eexists _, _. split; [exact Q3 | by left]. }
  split; [done |]. by eexists _, _, _.
Qed.


Lemma except_process_errors_Raise (e : exn) (unchanged : dict pyval) :
  match except_process_errors (Raise e) unchanged with
  | Ok r => r = unchanged ∧ caught_by_probe e
  | Raise e' => e' = e ∧ ¬ caught_by_probe e
  end.
Proof.
  unfold caught_by_probe.
  destruct e; simpl; (split; [done |]); try (by left); try (by right);
    by intros [?|?].
Qed.

(** What the probe does, command by command. *)
Lemma environment_vars_cases (h : Host) :
  match _get_environment_vars h with
  | Ok snapshot =>
      probe_commands_behave h
      ∧ (¬ vcs_queries_succeed h → snapshot = environment_literal h)
  | Raise _ => ¬ probe_commands_behave h
  end.
Proof.
  unfold _get_environment_vars, git_block, probe_commands_behave.
  assert (_decode_dict (environment_literal h) = Ok (environment_literal h))
    as Hplain by apply decode_dict_no_bytes, environment_literal_no_bytes.
  destruct (check_output h (split "git rev-parse --abbrev-ref HEAD") true)
    as [raw|e1] eqn:Q1; result_simpl.
  2:{ pose proof (except_process_errors_Raise e1 (environment_literal h)) as H.
      destruct (except_process_errors (Raise e1) (environment_literal h));
        result_simpl; [| by destruct H].
      destruct H as [-> H]. by rewrite Hplain. }
  unfold decode_utf8 at 1.
  destruct (utf8_valid (strip raw)) eqn:U1; result_simpl; [| by intros [? _]].
  destruct (check_output h (split "git rev-parse HEAD") true) as [lc|e2] eqn:Q2;
    result_simpl.
  2:{ pose proof (except_process_errors_Raise e2 (environment_literal h)) as H.
      destruct (except_process_errors (Raise e2) (environment_literal h));
        result_simpl; [| intros [_ ?]; by destruct H].
      destruct H as [-> H]. by rewrite Hplain. }
  destruct (check_output h (split ("git rev-parse origin/" +:+ strip raw)) true)
    as [oc|e3] eqn:Q3; result_simpl.
  2:{ pose proof (except_process_errors_Raise e3 (environment_literal h)) as H.
      destruct (except_process_errors (Raise e3) (environment_literal h));
        result_simpl; [| intros [_ ?]; by destruct H].
      destruct H as [-> H]. by rewrite Hplain. }
  assert (vcs_queries_succeed h) as Hsucc.
  { exists raw, (strip raw), lc, oc. split_and!; try done.
    by apply decode_utf8_Ok. }
  rewrite !decode_dict_cons. unfold decode_value, decode_utf8.
  destruct (utf8_valid lc); result_simpl; [| by intros [_ [? _]]].
  destruct (utf8_valid oc); result_simpl; [| by intros [_ [_ ?]]].
  unfold except_process_errors. result_simpl.
  rewrite decode_dict_no_bytes.
  2:{ unfold dict_values. simpl. by repeat constructor. }
  done.
Qed.



Lemma git_host_commands_behave : probe_commands_behave git_host.
Proof. unfold probe_commands_behave. simpl. done. Defined.

Lemma bare_host_commands_behave : probe_commands_behave bare_host.
Proof. unfold probe_commands_behave. simpl. by right. Defined.


(** On that host the key is there, on the bare host it is not. *)
Example git_host_snapshot :
  _get_environment_vars git_host
  = Ok (environment_literal git_host
        ++ [("git", git_mapping "main" "0a1b2c" "0a1b2c")]).
Proof. vm_compute. reflexivity. Qed.

Example bare_host_snapshot :
  _get_environment_vars bare_host = Ok (environment_literal bare_host).
Proof. vm_compute. reflexivity. Qed.

(** ** The environment dump *)

Section dump_environment_facts.
Context {config_data : Type}.
Variable save_config_text : py_object config_data → result string.
Variable json_dumps : py_object config_data → result string.

Lemma writes_bind {A B : Type} (m : stm world A) (f : A → stm world B)
    (T1 T2 : list path) :
  writes m T1 → (∀ a, writes (f a) T2) → writes (m ≫= f) (T1 ++ T2).
Proof.
  intros H1 H2 w b w'. unfold mbind, stm_bind.
  destruct (m w) as [[a|e] w1] eqn:E; [|done].
  intros Hf q. rewrite (H2 a _ _ _ Hf q), (H1 _ _ _ E q), elem_of_app. tauto.
Qed.

Lemma writes_ret {A : Type} (a : A) : writes (mret a) [].
Proof.
  intros w b w'. unfold mret, stm_ret. intros [= _ <-] q.
  rewrite elem_of_nil. tauto.
Qed.

Lemma writes_lift {A : Type} (r : result A) : writes (lift r) [].
Proof.
  intros w b w'. unfold lift. intros [= _ <-] q. rewrite elem_of_nil. tauto.
Qed.

Lemma writes_write_text (p : path) (text : string) : writes (write_text p text) [p].
Proof.
  intros w b w'. unfold write_text. intros [= _ <-] q. simpl.
  rewrite lookup_insert_is_Some, list_elem_of_singleton.
  destruct (decide (p = q)) as [->|Hne].
  - split; [by right | by left].
  - split.
    + intros [?|[_ ?]]; [done | by left].
    + intros [?|?]; [by right | done].
Qed.

Lemma writes_warn (ws : list string) : writes (warn ws) [].
Proof.
  intros w b w'. unfold warn. intros [= _ <-] q. simpl.
  rewrite elem_of_nil. tauto.
Qed.

Lemma writes_add_text (tag text : string) (step : Z) :
  writes (add_text tag text step) [].
Proof.
  intros w b w'. unfold add_text. intros [= _ <-] q. simpl.
  rewrite elem_of_nil. tauto.
Qed.

Lemma writes_save_config (value : py_object config_data) (p : path) :
  writes (save_config save_config_text value p) [p].
Proof.
  unfold save_config. apply (writes_bind _ _ [] [p]).
  - apply writes_lift.
  - intros text. apply writes_write_text.
Qed.

Lemma writes_copyfile (src dst : path) : writes (copyfile src dst) [dst].
Proof.
  intros w b w'. unfold copyfile.
  destruct (files w !! src) as [text|]; [|done].
  case_bool_decide; [done |]. apply writes_write_text.
Qed.

Lemma writes_copy_configs (dir : path) (ps : list path) :
  writes (copy_configs dir ps) ((λ p, path_join dir (path_name p)) <$> ps).
Proof.
  induction ps as [|p ps IH]; simpl.
  - apply writes_ret.
  - apply (writes_bind _ _ [_] _); [apply writes_copyfile | by intros _].
Qed.

Lemma writes_bind_ret {A B : Type} (a : A) (f : A → stm world B)
    (T : list path) :
  writes (f a) T → writes (mret a ≫= f) T.
Proof. done. Qed.

Lemma writes_bind_then_ret {A B C : Type} (m : stm world C) (a : A)
    (f : A → stm world B) (T1 T2 : list path) :
  writes m T1 → writes (f a) T2 → writes ((m ;; mret a) ≫= f) (T1 ++ T2).
Proof.
  intros H1 H2 w b w'. unfold mbind, stm_bind, mret, stm_ret.
  destruct (m w) as [[c|e] w1] eqn:E; [|done].
  intros Hf q. rewrite (H2 _ _ _ Hf q), (H1 _ _ _ E q), elem_of_app. tauto.
Qed.

Lemma writes_equiv {A : Type} (m : stm world A) (T1 T2 : list path) :
  (∀ q, q ∈ T1 ↔ q ∈ T2) → writes m T1 → writes m T2.
Proof. intros HT H w a w' Hm q. rewrite (H w a w' Hm q), HT. done. Qed.

Ltac writes_step :=
  first
    [ apply writes_ret | apply writes_lift | apply writes_write_text
    | apply writes_warn | apply writes_add_text | apply writes_save_config
    | apply writes_copy_configs
    | eapply writes_bind; [| intros ?] ].

(** The files after a completed dump: those there before and the
    targets of the dump. *)
Lemma dump_environment_writes (h : Host) (logdir : path)
    (config : option (config_arg config_data))
    (configs_path : option (list configs_path_item)) :
  writes (dump_environment save_config_text json_dumps h logdir config configs_path)
         (dump_targets h logdir config configs_path).
Proof.
  unfold dump_environment, dump_targets, copy_targets, pip_packages_txt,
    conda_packages_txt, config_dir.
  destruct (_list_pip_packages h) as [pip_pkg pip_warnings].
  destruct (_list_conda_packages h) as [conda_pkg conda_warnings].
  cbn [fst].
  set (dir := path_join logdir "configs").
  destruct (bool_decide (conda_pkg ≠ ""));
    destruct (bool_decide (double_newlines conda_pkg ≠ ""));
    destruct config as [[data|yaml container]|];
    try destruct (is_hydra_available h);
    (eapply writes_equiv; cycle 1;
     [ first [ apply writes_bind_ret | apply writes_bind_then_ret; [writes_step |] ];
       repeat writes_step
     | intros q; cbn [app];
       rewrite ?app_nil_r, ?elem_of_app, ?elem_of_cons, ?elem_of_nil; tauto ]).
Qed.
End dump_environment_facts.

Section dump_environment_theorems.
Context {config_data : Type}.
Variable save_config_text : py_object config_data → result string.
Variable json_dumps : py_object config_data → result string.

Lemma path_join_literal_inj (dir : path) (a b : string) :
  a ≠ "" → b ≠ "" → path_join dir a = path_join dir b → a = b.
Proof.
  unfold path_join. intros Ha%String.eqb_neq Hb%String.eqb_neq.
  rewrite Ha, Hb. intros E%app_inv_head. by injection E.
Qed.

(** C8 (amended).  After [dump_environment] completes,
    [configs/pip-packages.txt] exists, the pip listing being empty or
    not; [configs/conda-packages.txt] exists if and only if the conda
    listing was not empty, or the file was there before the call, or one
    of the copied configuration files has that name. *)
Theorem dump_environment_package_files (h : Host) (logdir : path)
    (config : option (config_arg config_data))
    (configs_path : option (list configs_path_item)) (w w' : world) :
  dump_environment save_config_text json_dumps h logdir config configs_path w
  = (Ok (), w') →
  is_Some (files w' !! pip_packages_txt logdir)
  ∧ (is_Some (files w' !! conda_packages_txt logdir)
     ↔ (_list_conda_packages h).1 ≠ ""
       ∨ is_Some (files w !! conda_packages_txt logdir)
       ∨ conda_packages_txt logdir ∈ copy_targets logdir configs_path).
Proof.
  intros Hdump.
  pose proof (dump_environment_writes save_config_text json_dumps h logdir
                config configs_path w () w' Hdump) as Hfiles.
  split.
  - apply Hfiles. right. unfold dump_targets.
    rewrite !elem_of_app, !elem_of_cons. tauto.
  - rewrite Hfiles. unfold dump_targets.
    rewrite !elem_of_app, !elem_of_cons, elem_of_nil.
    assert (∀ name, name ≠ "" → name ≠ "conda-packages.txt" →
              conda_packages_txt logdir ≠ path_join (config_dir logdir) name)
      as Hother.
    { intros name H1 H2 E. apply path_join_literal_inj in E; done. }
    assert (conda_packages_txt logdir ∈
              (if bool_decide ((_list_conda_packages h).1 ≠ "")
               then [conda_packages_txt logdir] else [])
            ↔ (_list_conda_packages h).1 ≠ "") as ->.
    { case_bool_decide.
      - rewrite list_elem_of_singleton. tauto.
      - rewrite elem_of_nil. tauto. }
    assert (conda_packages_txt logdir ∈
              match config with
              | Some (DictConfig _ _) =>
                  if is_hydra_available h
                  then [path_join (config_dir logdir) "config.yaml"] else []
              | _ => []
              end ↔ False) as ->.
    { split; [|done]. destruct config as [[?|? ?]|]; try by intros ?%elem_of_nil.
      destruct (is_hydra_available h); [|by intros ?%elem_of_nil].
      intros E%list_elem_of_singleton. by apply Hother in E. }
    assert (conda_packages_txt logdir ∈
              match config with
              | Some _ => [path_join (config_dir logdir) "_config.json"]
              | None => []
              end ↔ False) as ->.
    { split; [|done]. destruct config; [|by intros ?%elem_of_nil].
      intros E%list_elem_of_singleton. by apply Hother in E. }
    pose proof (Hother "_environment.json" ltac:(done) ltac:(done)) as H1.
    pose proof (Hother "pip-packages.txt" ltac:(done) ltac:(done)) as H2.
    unfold pip_packages_txt. tauto.
Qed.
End dump_environment_theorems.

Example bare_dump_files :
  bare_dump.1 = Ok ()
  ∧ files bare_dump.2
    = <[ ["logs"; "configs"; "pip-packages.txt"] := "" ]>
        (<[ ["logs"; "configs"; "_environment.json"] := "{}" ]> ∅).
Proof. split; reflexivity. Qed.

Lemma returned_state {S : Type} (x : result () * S) :
  x.1 = Ok () → x = (Ok (), x.2).
Proof. destruct x as [[[]|e] s]; simpl; by intros [= ]. Qed.

(** Counterexample to C8: a run whose pip listing is empty and that leaves
    [configs/pip-packages.txt] all the same. *)
Lemma pip_file_written_when_empty :
  ¬ package_files_iff_listings (config_data:=()) (λ _, Ok "{}") (λ _, Ok "{}")
      bare_host ["logs"] None None empty_world.
Proof.
  intros H. destruct (H bare_dump.2) as [Hpip _].
  { apply (returned_state bare_dump). reflexivity. }
  assert (is_Some (files bare_dump.2 !! pip_packages_txt ["logs"])) as Hthere.
  { unfold bare_dump, dump_environment. simpl.
    unfold pip_packages_txt, config_dir. by rewrite lookup_insert_eq. }
  apply Hpip in Hthere. by apply Hthere.
Qed.

Lemma dump_environment_package_files_witness :
  dump_environment (config_data:=()) (λ _, Ok "{}") (λ _, Ok "{}")
    bare_host ["logs"] None None empty_world = (Ok (), bare_dump.2)
  ∧ is_Some (files bare_dump.2 !! pip_packages_txt ["logs"])
  ∧ (is_Some (files bare_dump.2 !! conda_packages_txt ["logs"])
     ↔ (_list_conda_packages bare_host).1 ≠ ""
       ∨ is_Some (files empty_world !! conda_packages_txt ["logs"])
       ∨ conda_packages_txt ["logs"] ∈ copy_targets ["logs"] None).
Proof.
  assert (dump_environment (config_data:=()) (λ _, Ok "{}") (λ _, Ok "{}")
            bare_host ["logs"] None None empty_world = (Ok (), bare_dump.2))
    as H by (apply (returned_state bare_dump); reflexivity).
  split; [exact H |].
  exact (dump_environment_package_files _ _ _ _ _ _ _ _ H).
Defined.

(** * Further properties *)

(** ** The conflict resolver, key by key *)

Section dict_lookup_facts.
Context {V : Type}.
Implicit Types (d : dict V) (k : string) (v : V).

Lemma dict_get_setitem d k v k' :
  dict_get (dict_setitem d k v) k' = if String.eqb k k' then Some v else dict_get d k'.
Proof.
  induction d as [|[k0 v0] d IH]; simpl.
  - by destruct (String.eqb k k').
  - destruct (String.eqb_spec k0 k) as [->|Hne]; simpl.
    + by destruct (String.eqb k k').
    + destruct (String.eqb_spec k0 k') as [->|Hne'].
      * destruct (String.eqb_spec k k') as [->|_]; done.
      * apply IH.
Qed.

Lemma dict_get_remove d k k' :
  NoDup (dict_keys d) →
  dict_get (dict_remove d k) k' = if String.eqb k k' then None else dict_get d k'.
Proof.
  unfold dict_keys. induction d as [|[k0 v0] d IH]; simpl.
  - by destruct (String.eqb k k').
  - intros [Hnin Hnd]%NoDup_cons.
    destruct (String.eqb_spec k0 k) as [->|Hne]; simpl.
    + destruct (String.eqb_spec k k') as [->|Hne'].
      * by apply dict_get_None.
      * done.
    + destruct (String.eqb_spec k0 k') as [->|Hne'].
      * destruct (String.eqb_spec k k') as [->|_]; done.
      * by apply IH.
Qed.

Lemma append_val_neq k : k +:+ "_val" ≠ k.
Proof.
  intros E. apply (f_equal String.length) in E.
  rewrite append_length in E. simpl in E. lia.
Qed.

(** The third loop, value by value, when no renamed key meets a key that is
    there already. *)
Lemma rename_conflicts_lookup (cs : list string) d :
  NoDup (dict_keys d) → NoDup cs →
  (∀ c, c ∈ cs → c ∈ dict_keys d) →
  (∀ c, c ∈ cs → c +:+ "_val" ∉ dict_keys d) →
  ∃ out, rename_conflicts cs d = Ok out
    ∧ (∀ c, c ∈ cs →
         dict_get out (c +:+ "_val") = dict_get d c ∧ dict_get out c = None)
    ∧ (∀ x, x ∉ cs → (∀ c, c ∈ cs → x ≠ c +:+ "_val") →
         dict_get out x = dict_get d x).
Proof.
  revert d. induction cs as [|c cs IH]; intros d Hnd Hcs Hsub Hnew.
  - exists d. split_and!; [done | by intros c ?%elem_of_nil | done].
  - apply NoDup_cons in Hcs as [Hc Hcs].
    destruct (rename_step_present d c) as (v & Hget & Hstep); [apply Hsub; left |].
    destruct (dict_remove_keys d c v Hnd Hget) as (HndR & HninR & Hperm).
    assert (c +:+ "_val" ∉ dict_keys (dict_remove d c)) as HnewR.
    { intros Hin. apply (Hnew c); [left |]. rewrite Hperm. by right. }
    destruct (dict_move d c (c +:+ "_val") v Hnd Hget HnewR)
      as (Hnd1 & Hkeys1 & _ & _).
    set (d1 := dict_setitem (dict_remove d c) (c +:+ "_val") v) in *.
    assert (∀ x, x ≠ c → x ≠ c +:+ "_val" → dict_get d1 x = dict_get d x) as Hframe.
    { intros x H1 H2. unfold d1. rewrite dict_get_setitem, dict_get_remove by done.
      destruct (String.eqb_spec (c +:+ "_val") x) as [E|_]; [by subst |].
      destruct (String.eqb_spec c x) as [E|_]; [by subst | done]. }
    assert (dict_get d1 (c +:+ "_val") = Some v) as Hval.
    { unfold d1. by rewrite dict_get_setitem, String.eqb_refl. }
    assert (dict_get d1 c = None) as Hgone.
    { unfold d1. rewrite dict_get_setitem, dict_get_remove by done.
      destruct (String.eqb_spec (c +:+ "_val") c) as [E|_];
        [by apply append_val_neq in E |].
      by rewrite String.eqb_refl. }
    assert (∀ c', c' ∈ cs → c' ≠ c ∧ c' ≠ c +:+ "_val"
                             ∧ c ≠ c' +:+ "_val") as Hapart.
    { intros c' Hc'. split_and!.
      - by intros ->.
      - intros ->. apply (Hnew c); [left | apply Hsub; by right].
      - intros E. apply (Hnew c'); [by right |]. rewrite <- E. apply Hsub. left. }
    destruct (IH d1) as (out & Hout & Hmoved & Hkept); try done.
    { intros c' Hc'. apply Hkeys1. right. split; [apply Hsub; by right |].
      by apply Hapart. }
    { intros c' Hc'. rewrite Hkeys1. intros [E | [Hin _]].
      - apply append_inj_l in E. by subst.
      - by apply (Hnew c'); [right |]. }
    exists out. split_and!.
    + unfold rename_conflicts in *. simpl. rewrite Hstep. exact Hout.
    + intros c' [->|Hc']%elem_of_cons.
      * split.
        -- rewrite Hkept, Hval; [done | |].
           ++ intros Hin. by apply Hapart in Hin as (_ & ? & _).
           ++ intros c' Hc' E%append_inj_l. by subst.
        -- rewrite Hkept, Hgone; [done | done |].
           intros c' Hc'. by apply Hapart in Hc' as (_ & _ & ?).
      * destruct (Hmoved c' Hc') as [H1 H2]. split; [|done].
        rewrite H1. apply Hframe; by apply Hapart.
    + intros x [Hxc Hx]%not_elem_of_cons Hfresh.
      rewrite Hkept; [| done | intros c' Hc'; apply Hfresh; by right].
      apply Hframe; [done | apply Hfresh; left].
Qed.
End dict_lookup_facts.

Section resolver_moves.
Context {V : Type}.
Implicit Types (d metrics processed : dict V) (k : string).

(** X1.  Where, after the std/val pairing pass, no key is another key
    followed by ["_val"], [_prepare_metrics] moves each value with its
    key: a key that is a strict prefix of another key is gone from the
    output and its value is found under the key followed by ["_val"]; every
    other key holds its value as before. *)
Theorem prepare_metrics_moves_values metrics processed :
  NoDup (dict_keys metrics) →
  pair_std_val metrics = Ok processed →
  no_val_collision (dict_keys processed) →
  ∃ out, _prepare_metrics metrics = Ok out
    ∧ ∀ k v, dict_get processed k = Some v →
        if flagged (dict_keys processed) k
        then dict_get out (k +:+ "_val") = Some v ∧ dict_get out k = None
        else dict_get out k = Some v.
Proof.
  intros Hnd Hpair Hcol.
  destruct (pair_std_val_inv _ _ Hnd Hpair) as (HndP & _ & _).
  assert (∀ c, c ∈ dict_keys processed → c +:+ "_val" ∉ dict_keys processed)
    as Hcol'.
  { unfold no_val_collision in Hcol. by rewrite Forall_forall in Hcol. }
  destruct (rename_conflicts_lookup (flag_conflicts processed) processed)
    as (out & Hout & Hmoved & Hkept).
  - done.
  - apply flag_conflicts_NoDup.
  - intros c Hc. by apply flag_conflicts_elem in Hc as [? _].
  - intros c Hc. apply Hcol'. by apply flag_conflicts_elem in Hc as [? _].
  - exists out. split.
    { unfold _prepare_metrics. rewrite Hpair. exact Hout. }
    intros k v Hget.
    assert (k ∈ dict_keys processed) as Hk by (apply dict_get_is_Some; eauto).
    destruct (flagged (dict_keys processed) k) eqn:Hf.
    + destruct (Hmoved k) as [H1 H2]; [by apply flag_conflicts_elem |].
      by rewrite H1.
    + rewrite Hkept; [done | |].
      * intros [_ Hf']%flag_conflicts_elem. congruence.
      * intros c [Hc _]%flag_conflicts_elem ->. by apply (Hcol' c).
Qed.
End resolver_moves.

Lemma prepare_metrics_moves_values_witness :
  (NoDup (dict_keys auc_batch)
   ∧ pair_std_val auc_batch = Ok auc_batch
   ∧ no_val_collision (dict_keys auc_batch))
  ∧ ∃ out, _prepare_metrics auc_batch = Ok out
    ∧ ∀ k v,
        dict_get auc_batch k = Some v →
        if flagged (dict_keys auc_batch) k
        then dict_get out (k +:+ "_val") = Some v ∧ dict_get out k = None
        else dict_get out k = Some v.
Proof.
  assert (NoDup (dict_keys auc_batch)) as H1
    by (unfold dict_keys, auc_batch; compute_done).
  assert (no_val_collision (dict_keys auc_batch)) as H3
    by (unfold no_val_collision; compute_done).
  split; [split_and!; [exact H1 | reflexivity | exact H3] |].
  exact (prepare_metrics_moves_values auc_batch auc_batch H1 eq_refl H3).
Defined.

Section resolver_flags.
Context {V : Type}.
Implicit Types (d metrics processed : dict V) (k : string).

Lemma flag_outer_filter (ks ks' acc : list string) :
  NoDup (acc ++ ks') →
  fold_left (λ acc k, fold_left (flag_step k) ks acc) ks' acc
  = acc ++ filter (λ k, flagged ks k = true) ks'.
Proof.
  revert acc. induction ks' as [|k ks' IH]; intros acc Hnd; simpl.
  - by rewrite filter_nil, (right_id_L [] (++)).
  - rewrite flag_inner.
    assert (k ∉ acc) as Hk.
    { apply NoDup_app in Hnd as (_ & Hdisj & _). intros Hin.
      apply (Hdisj k Hin). left. }
    assert (existsb (String.eqb k) acc = false) as ->.
    { apply not_true_iff_false. by rewrite existsb_eqb_true. }
    rewrite andb_true_r, filter_cons.
    destruct (flagged ks k) eqn:Hf.
    + rewrite decide_True by done. rewrite IH.
      * by rewrite <- (assoc_L (++)).
      * rewrite <- (assoc_L (++)). exact Hnd.
    + rewrite decide_False by done. apply IH.
      apply NoDup_app in Hnd as (H1 & H2 & [_ H3]%NoDup_cons).
      apply NoDup_app. split_and!; [done | | done].
      intros x Hx Hin. apply (H2 x Hx). by right.
Qed.

(** X2.  The keys the second loop collects are the keys that are a strict
    prefix of another key, each once, in the order of the dictionary. *)
Theorem flag_conflicts_filter d :
  NoDup (dict_keys d) →
  flag_conflicts d
  = filter (λ k, flagged (dict_keys d) k = true) (dict_keys d).
Proof.
  intros Hnd. unfold flag_conflicts.
  by rewrite (flag_outer_filter (dict_keys d) (dict_keys d) []).
Qed.

(** *** When the resolver raises *)

Lemma pair_std_step_Raise d k e :
  pair_std_step d k = Raise e →
  endswith k "/std" = true ∧ e = KeyError (drop_last 4 k)
  ∧ drop_last 4 k ∉ dict_keys d.
Proof.
  unfold pair_std_step. destruct (endswith k "/std"); [|done].
  destruct (dict_contains d (drop_last 4 k +:+ "/val")); simpl; [done |].
  unfold dict_pop.
  destruct (dict_get d (drop_last 4 k)) as [v|] eqn:Hget; simpl; [done |].
  intros [= <-]. split_and!; [done | done |]. by apply dict_get_None.
Qed.

Lemma pair_std_loop_Raise (ks : list string) d e :
  for_each pair_std_step ks d = Raise e →
  ∃ k, k ∈ ks ∧ endswith k "/std" = true ∧ e = KeyError (drop_last 4 k).
Proof.
  revert d. induction ks as [|k ks IH]; intros d; simpl; [done |].
  destruct (pair_std_step d k) as [d1|e1] eqn:Hstep; simpl.
  - intros (k' & Hk' & H)%IH. exists k'. split; [by right | done].
  - intros [= <-]. apply pair_std_step_Raise in Hstep as (H1 & H2 & _).
    exists k. split; [left | done].
Qed.

Lemma prepare_metrics_Raise metrics (e : exn) :
  NoDup (dict_keys metrics) →
  _prepare_metrics metrics = Raise e →
  ∃ k, k ∈ dict_keys metrics ∧ endswith k "/std" = true
       ∧ e = KeyError (drop_last 4 k).
Proof.
  intros Hnd Hraise. unfold _prepare_metrics in Hraise.
  destruct (pair_std_val metrics) as [processed|e1] eqn:Hpair.
  - destruct (prepare_metrics_after_pairing _ _ Hnd Hpair) as (out & _ & _ & Hout).
    simpl in Hraise. congruence.
  - simpl in Hraise. injection Hraise as <-.
    by apply pair_std_loop_Raise in Hpair.
Qed.

(** X3.  [_prepare_metrics] raises nothing but [KeyError], and only for
    the base of a key of the batch that ends in ["/std"]: the renaming
    loop never raises. *)
Theorem prepare_metrics_raises_for_std_base metrics (e : exn) :
  NoDup (dict_keys metrics) →
  _prepare_metrics metrics = Raise e →
  ∃ k, k ∈ dict_keys metrics ∧ endswith k "/std" = true
       ∧ e = KeyError (drop_last 4 k).
Proof. apply prepare_metrics_Raise. Qed.

(** X4.  A batch without a key ending in ["/std"] is always resolved: the
    call returns, with at most as many entries as the batch has. *)
Theorem prepare_metrics_without_std metrics :
  NoDup (dict_keys metrics) →
  Forall (λ k, endswith k "/std" = false) (dict_keys metrics) →
  ∃ out, _prepare_metrics metrics = Ok out ∧ length out ≤ length metrics.
Proof.
  intros Hnd Hstd.
  destruct (_prepare_metrics metrics) as [out|e] eqn:Hout.
  - exists out. split; [done |]. unfold _prepare_metrics in Hout.
    destruct (pair_std_val metrics) as [processed|e1] eqn:Hpair; [|done].
    simpl in Hout.
    destruct (pair_std_val_inv _ _ Hnd Hpair) as (HndP & HlenP & _).
    destruct (rename_conflicts_measure (flag_conflicts processed) processed)
      as (out' & Hout' & _ & Hle & _); [done | apply flag_conflicts_NoDup | |].
    { intros c Hc. by apply flag_conflicts_elem in Hc as [? _]. }
    rewrite Hout in Hout'. injection Hout' as <-. lia.
  - apply prepare_metrics_Raise in Hout as (k & Hk & Hend & _);
      [|done].
    rewrite Forall_forall in Hstd. rewrite (Hstd k Hk) in Hend. done.
Qed.

(** X5.  A batch in which every key ending in ["/std"] has its ["/val"]
    sibling and no key is a strict prefix of another comes back as it is,
    in the same order. *)
Theorem prepare_metrics_no_conflict_unchanged metrics :
  std_paired (dict_keys metrics) → prefix_free (dict_keys metrics) →
  _prepare_metrics metrics = Ok metrics.
Proof. apply prepare_metrics_fixed. Qed.
End resolver_flags.

Lemma flag_conflicts_filter_witness :
  NoDup (dict_keys auc_batch)
  ∧ flag_conflicts auc_batch
    = filter (λ k, flagged (dict_keys auc_batch) k = true) (dict_keys auc_batch).
Proof.
  assert (NoDup (dict_keys auc_batch)) as H by compute_done.
  split; [exact H |]. exact (flag_conflicts_filter auc_batch H).
Defined.

Lemma prepare_metrics_raises_for_std_base_witness :
  (NoDup (dict_keys [("p/std", 1%Z)])
   ∧ _prepare_metrics [("p/std", 1%Z)] = Raise (KeyError "p"))
  ∧ ∃ k, k ∈ dict_keys [("p/std", 1%Z)] ∧ endswith k "/std" = true
         ∧ KeyError "p" = KeyError (drop_last 4 k).
Proof.
  assert (NoDup (dict_keys [("p/std", 1%Z)])) as H by compute_done.
  split; [split; [exact H | reflexivity] |].
  exact (prepare_metrics_raises_for_std_base [("p/std", 1%Z)] _ H eq_refl).
Defined.

Lemma prepare_metrics_without_std_witness :
  (NoDup (dict_keys auc_batch)
   ∧ Forall (λ k, endswith k "/std" = false) (dict_keys auc_batch))
  ∧ ∃ out, _prepare_metrics auc_batch = Ok out ∧ length out ≤ length auc_batch.
Proof.
  assert (NoDup (dict_keys auc_batch)) as H1 by compute_done.
  assert (Forall (λ k, endswith k "/std" = false) (dict_keys auc_batch)) as H2
    by compute_done.
  split; [by split |]. exact (prepare_metrics_without_std auc_batch H1 H2).
Defined.

Lemma prepare_metrics_no_conflict_unchanged_witness :
  (std_paired (dict_keys [("loss/std", 1%Z); ("loss/val", 23%Z); ("lr", 3%Z)])
   ∧ prefix_free (dict_keys [("loss/std", 1%Z); ("loss/val", 23%Z); ("lr", 3%Z)]))
  ∧ _prepare_metrics [("loss/std", 1%Z); ("loss/val", 23%Z); ("lr", 3%Z)]
    = Ok [("loss/std", 1%Z); ("loss/val", 23%Z); ("lr", 3%Z)].
Proof.
  assert (std_paired
            (dict_keys [("loss/std", 1%Z); ("loss/val", 23%Z); ("lr", 3%Z)]))
    as H1 by (unfold std_paired; compute_done).
  assert (prefix_free
            (dict_keys [("loss/std", 1%Z); ("loss/val", 23%Z); ("lr", 3%Z)]))
    as H2 by (unfold prefix_free; compute_done).
  split; [by split |].
  exact (prepare_metrics_no_conflict_unchanged _ H1 H2).
Defined.

Section resolver_values.
Context {V : Type}.
Implicit Types (d metrics processed : dict V) (k : string).

Lemma dict_setitem_values d k (v x : V) :
  x ∈ dict_values (dict_setitem d k v) → x = v ∨ x ∈ dict_values d.
Proof.
  unfold dict_values. induction d as [|[k0 v0] d IH]; simpl.
  - intros ->%list_elem_of_singleton. by left.
  - destruct (String.eqb k0 k); simpl; rewrite !elem_of_cons.
    + intros [->|?]; [by left | right; by right].
    + intros [->|H]; [right; by left |].
      destruct (IH H) as [->|?]; [by left | right; by right].
Qed.

Lemma rename_step_values d c d' (x : V) :
  rename_step d c = Ok d' → x ∈ dict_values d' → x ∈ dict_values d.
Proof.
  unfold rename_step.
  destruct (dict_pop d c) as [[v R]|e] eqn:Hpop; simpl; [|done].
  apply dict_pop_Some in Hpop as [Hget ->]. intros [= <-] Hx.
  pose proof (dict_values_perm _ _ (dict_remove_perm d c v Hget)) as Hp.
  change (dict_values ((c, v) :: dict_remove d c))
    with (v :: dict_values (dict_remove d c)) in Hp.
  rewrite Hp. apply dict_setitem_values in Hx as [->|Hx]; [left | by right].
Qed.

(** X6.  [_prepare_metrics] never adds to a batch: the output has at most
    as many entries as the input, and every value of the output is a value
    of the input. *)
Theorem prepare_metrics_never_adds metrics out :
  NoDup (dict_keys metrics) →
  _prepare_metrics metrics = Ok out →
  length out ≤ length metrics
  ∧ ∀ v, v ∈ dict_values out → v ∈ dict_values metrics.
Proof.
  intros Hnd Hout. unfold _prepare_metrics in Hout.
  destruct (pair_std_val metrics) as [processed|e1] eqn:Hpair; [|done].
  simpl in Hout.
  destruct (pair_std_val_inv _ _ Hnd Hpair) as (HndP & HlenP & HvalP).
  split.
  - destruct (rename_conflicts_measure (flag_conflicts processed) processed)
      as (out' & Hout' & _ & Hle & _); [done | apply flag_conflicts_NoDup | |].
    { intros c Hc. by apply flag_conflicts_elem in Hc as [? _]. }
    rewrite Hout in Hout'. injection Hout' as <-. lia.
  - intros v Hv. rewrite <- HvalP. revert v Hv.
    apply (for_each_inv
             (λ d, ∀ v, v ∈ dict_values d → v ∈ dict_values processed)
             rename_step (flag_conflicts processed) processed out);
      [| done | exact Hout].
    intros s c s' Hs Hstep v Hv. apply Hs. by eapply rename_step_values.
Qed.

(** X7.  A metric and its ["/std"] companion are grouped: the batch with
    the keys [p] and [p ++ "/std"] comes back with [p ++ "/std"] and
    [p ++ "/val"], the value of [p] under the latter. *)
Theorem prepare_metrics_pairs_std (p : string) (a b : V) :
  endswith p "/std" = false →
  _prepare_metrics [(p, a); (p +:+ "/std", b)]
  = Ok [(p +:+ "/std", b); (p +:+ "/val", a)].
Proof.
  intros Hp.
  assert (String.eqb (p +:+ "/val") p = false) as Hne2.
  { apply String.eqb_neq. intros E. apply (f_equal String.length) in E.
    rewrite append_length in E. simpl in E. lia. }
  assert (String.eqb (p +:+ "/val") (p +:+ "/std") = false) as Hne3.
  { apply String.eqb_neq. intros E. by apply String.app_inj in E. }
  assert (String.eqb (p +:+ "/std") (p +:+ "/val") = false) as Hne4.
  { apply String.eqb_neq. intros E. by apply String.app_inj in E. }
  assert (∀ s t, s ≠ t → String.length s = String.length t →
                 startswith (p +:+ s) (p +:+ t) = false) as Hsame.
  { intros s t Hst Hlen. apply startswith_false. rewrite !chars_app.
    intros [r Hr]%prefix_app_inv. apply Hst, chars_inj.
    assert (r = []) as ->.
    { apply (f_equal length) in Hr. rewrite length_app, <- !chars_length in Hr.
      apply nil_length_inv. lia. }
    by rewrite (right_id_L [] (++)) in Hr. }
  assert (pair_std_step [(p, a); (p +:+ "/std", b)] p
          = Ok [(p, a); (p +:+ "/std", b)]) as Hstep1.
  { unfold pair_std_step. by rewrite Hp. }
  assert (pair_std_step [(p, a); (p +:+ "/std", b)] (p +:+ "/std")
          = Ok [(p +:+ "/std", b); (p +:+ "/val", a)]) as Hstep2.
  { unfold pair_std_step. rewrite endswith_append.
    change 4 with (String.length "/std"). rewrite drop_last_append.
    unfold dict_contains, dict_pop. simpl.
    rewrite Hne2, Hne3, String.eqb_refl. simpl. by rewrite Hne4. }
  assert (flag_conflicts [(p +:+ "/std", b); (p +:+ "/val", a)] = []) as Hflag.
  { unfold flag_conflicts. simpl. unfold flag_step.
    rewrite !startswith_refl, !String.eqb_refl.
    by rewrite (Hsame "/val" "/std"), (Hsame "/std" "/val"). }
  unfold _prepare_metrics, pair_std_val.
  change (dict_keys [(p, a); (p +:+ "/std", b)]) with [p; p +:+ "/std"].
  cbn [for_each]. rewrite Hstep1. result_simpl. rewrite Hstep2. result_simpl.
  by rewrite Hflag.
Qed.
End resolver_values.

Lemma prepare_metrics_never_adds_witness :
  (NoDup (dict_keys [("loss", 5%Z); ("loss_val", 7%Z)])
   ∧ _prepare_metrics [("loss", 5%Z); ("loss_val", 7%Z)] = Ok [("loss_val", 5%Z)])
  ∧ length [("loss_val", 5%Z)] ≤ length [("loss", 5%Z); ("loss_val", 7%Z)]
  ∧ ∀ v, v ∈ dict_values [("loss_val", 5%Z)] →
         v ∈ dict_values [("loss", 5%Z); ("loss_val", 7%Z)].
Proof.
  assert (NoDup (dict_keys [("loss", 5%Z); ("loss_val", 7%Z)])) as H
    by compute_done.
  split; [split; [exact H | reflexivity] |].
  exact (prepare_metrics_never_adds [("loss", 5%Z); ("loss_val", 7%Z)] _ H eq_refl).
Defined.

Lemma prepare_metrics_pairs_std_witness :
  endswith "loss" "/std" = false
  ∧ _prepare_metrics [("loss", 23%Z); ("loss" +:+ "/std", 1%Z)]
    = Ok [("loss" +:+ "/std", 1%Z); ("loss" +:+ "/val", 23%Z)].
Proof.
  split; [reflexivity |].
  exact (prepare_metrics_pairs_std "loss" 23%Z 1%Z eq_refl).
Defined.

(** ** The resolver looks at keys only *)

Section resolver_natural.
Context {A B : Type} (f : A → B).
Implicit Types (d : dict A) (k : string).

Lemma map_values_keys d : dict_keys (map_values f d) = dict_keys d.
Proof.
  unfold dict_keys, map_values. rewrite <- list_fmap_compose.
  by apply list_fmap_ext; intros ? [].
Qed.

Lemma map_values_get d k : dict_get (map_values f d) k = f <$> dict_get d k.
Proof.
  unfold map_values. induction d as [|[k0 v0] d IH]; simpl; [done |].
  by destruct (String.eqb k0 k).
Qed.

Lemma map_values_contains d k :
  dict_contains (map_values f d) k = dict_contains d k.
Proof. unfold dict_contains. by rewrite map_values_keys. Qed.

Lemma map_values_remove d k :
  dict_remove (map_values f d) k = map_values f (dict_remove d k).
Proof.
  unfold map_values. induction d as [|[k0 v0] d IH]; simpl; [done |].
  destruct (String.eqb k0 k); [done |]. simpl. f_equal. apply IH.
Qed.

Lemma map_values_setitem d k (v : A) :
  dict_setitem (map_values f d) k (f v) = map_values f (dict_setitem d k v).
Proof.
  unfold map_values. induction d as [|[k0 v0] d IH]; simpl; [done |].
  destruct (String.eqb k0 k); [done |]. simpl. f_equal. apply IH.
Qed.

Lemma map_values_pair_std_step d k :
  pair_std_step (map_values f d) k = map_values f <$> pair_std_step d k.
Proof.
  unfold pair_std_step. destruct (endswith k "/std"); [|done].
  rewrite map_values_contains.
  destruct (dict_contains d (drop_last 4 k +:+ "/val")); [done |].
  unfold dict_pop. rewrite map_values_get.
  destruct (dict_get d (drop_last 4 k)) as [v|]; [|done].
  cbn [negb fmap option_fmap option_map mbind result_bind result_fmap].
  by rewrite map_values_remove, map_values_setitem.
Qed.

Lemma map_values_rename_step d k :
  rename_step (map_values f d) k = map_values f <$> rename_step d k.
Proof.
  unfold rename_step, dict_pop. rewrite map_values_get.
  destruct (dict_get d k) as [v|]; [|done].
  cbn [fmap option_fmap option_map mbind result_bind result_fmap].
  by rewrite map_values_remove, map_values_setitem.
Qed.

Lemma map_values_for_each
    (body : ∀ V : Type, dict V → string → result (dict V)) (ks : list string) d :
  (∀ d k, body B (map_values f d) k = map_values f <$> body A d k) →
  for_each (body B) ks (map_values f d) = map_values f <$> for_each (body A) ks d.
Proof.
  intros Hbody. revert d. induction ks as [|k ks IH]; intros d; simpl; [done |].
  rewrite Hbody. destruct (body A d k) as [d1|e]; [apply IH | done].
Qed.

Lemma map_values_flag_conflicts d :
  flag_conflicts (map_values f d) = flag_conflicts d.
Proof. unfold flag_conflicts. by rewrite map_values_keys. Qed.

Lemma map_values_prepare_metrics d :
  _prepare_metrics (map_values f d) = map_values f <$> _prepare_metrics d.
Proof.
  unfold _prepare_metrics, pair_std_val, rename_conflicts.
  rewrite map_values_keys.
  rewrite (map_values_for_each (@pair_std_step)) by apply map_values_pair_std_step.
  destruct (for_each pair_std_step (dict_keys d) d) as [processed|e]; [|done].
  cbn [fmap mbind result_bind result_fmap].
  rewrite map_values_flag_conflicts.
  apply (map_values_for_each (@rename_step)), map_values_rename_step.
Qed.

End resolver_natural.

(** ** The logger, scope by scope *)

Section logger_writes.
Context {float image artifact : Type}.
Implicit Types (self : NeptuneLogger) (runner : IRunner)
  (metrics : dict (metric_value float)) (ms : dict float) (img : image)
  (path_to_artifact : option string)
  (run : list (backend_op float image artifact)).

Lemma log_metrics_numbers ms (neptune_path : string) (step : Z) run :
  _log_metrics (map_values MFloat ms) neptune_path step run
  = (Ok (), run ++ series_points neptune_path step ms).
Proof. apply log_metrics_floats. Qed.

(** X9.  With the toggle of its scope off, [log_metrics] writes nothing
    and returns, whatever the metrics are: [log_batch_metrics] gates the
    scope ["batch"], [log_epoch_metrics] the scopes ["loader"] and
    ["epoch"]. *)
Theorem log_metrics_toggled_off self metrics (scope : string) runner run :
  (scope = "batch" ∧ log_batch_metrics self = false)
  ∨ ((scope = "loader" ∨ scope = "epoch") ∧ log_epoch_metrics self = false) →
  log_metrics self metrics (Some scope) runner run = (Ok (), run).
Proof.
  unfold log_metrics.
  intros [[-> ->] | [[-> | ->] ->]]; reflexivity.
Qed.

(** X10.  At batch scope with [log_batch_metrics] on, every metric is
    appended under [base/loader_key/batch] at step [sample_step], in the
    order of the batch and under its own key: the conflict resolver is not
    applied. *)
Theorem log_metrics_batch_writes self ms runner run :
  log_batch_metrics self = true →
  log_metrics self (map_values MFloat ms) (Some "batch") runner run
  = (Ok (),
     run ++ series_points
              (join "/" [base_namespace self; loader_key runner; "batch"])
              (sample_step runner) ms).
Proof.
  intros Hon. unfold log_metrics. rewrite Hon. simpl.
  apply log_metrics_numbers.
Qed.

(** X11.  At loader scope with [log_epoch_metrics] on, the metrics go
    through the conflict resolver first: what it returns is appended under
    [base/loader_key/loader] at step [epoch_step]; when it raises, the call
    raises the same error and nothing is written. *)
Theorem log_metrics_loader_writes self ms runner run :
  log_epoch_metrics self = true →
  log_metrics self (map_values MFloat ms) (Some "loader") runner run
  = match _prepare_metrics ms with
    | Ok prepared =>
        (Ok (),
         run ++ series_points
                  (join "/" [base_namespace self; loader_key runner; "loader"])
                  (epoch_step runner) prepared)
    | Raise e => (Raise e, run)
    end.
Proof.
  intros Hon. unfold log_metrics. rewrite Hon. simpl.
  rewrite map_values_prepare_metrics.
  destruct (_prepare_metrics ms) as [prepared|e]; [|done].
  unfold mbind, stm_bind, lift. simpl. apply log_metrics_numbers.
Qed.

(** X12.  At epoch scope with [log_epoch_metrics] on, the mapping under
    the key ["_epoch_"] is resolved and appended under [base/epoch] at step
    [epoch_step]; the other keys of the argument are not read.  Without
    that key the call raises [KeyError], with a number under it
    [TypeError], and when the resolver raises, its error; in each of these
    cases nothing is written. *)
Theorem log_metrics_epoch_writes self metrics runner run :
  log_epoch_metrics self = true →
  log_metrics self metrics (Some "epoch") runner run
  = match dict_get metrics "_epoch_" with
    | None => (Raise (KeyError "_epoch_"), run)
    | Some (MFloat _) => (Raise TypeError, run)
    | Some (MDict d) =>
        match _prepare_metrics d with
        | Ok prepared =>
            (Ok (),
             run ++ series_points (join "/" [base_namespace self; "epoch"])
                      (epoch_step runner) prepared)
        | Raise e => (Raise e, run)
        end
    end.
Proof.
  intros Hon. unfold log_metrics. rewrite Hon. simpl.
  unfold dict_getitem.
  destruct (dict_get metrics "_epoch_") as [[x|d]|]; [done | | done].
  unfold mbind at 1, stm_bind at 1, lift at 1.
  unfold mbind at 1, stm_bind at 1, lift at 1, to_dict.
  unfold mbind at 1, stm_bind at 1, lift at 1.
  destruct (_prepare_metrics d) as [prepared|e]; [|done].
  case_bool_decide as Hne.
  - apply log_metrics_numbers.
  - subst prepared.
    unfold series_points. simpl. by rewrite (right_id_L [] (++)).
Qed.

(** X13.  [_log_metrics] stops at the first value that is a mapping, for
    which [float] raises [TypeError]: the numbers before it are appended
    already, the call raises that error, and the entries after it are not
    written. *)
Theorem log_metrics_stops_at_mapping ms (key : string) (d : dict float)
    (rest : dict (metric_value float)) (neptune_path : string) (step : Z) run :
  _log_metrics (map_values MFloat ms ++ (key, MDict d) :: rest)
    neptune_path step run
  = (Raise TypeError, run ++ series_points neptune_path step ms).
Proof.
  revert run. induction ms as [|[k x] ms IH]; intros run.
  - simpl. by rewrite (right_id_L [] (++)).
  - change (_log_metrics (map_values MFloat ((k, x) :: ms) ++ (key, MDict d) :: rest)
              neptune_path step run)
      with (_log_metrics (map_values MFloat ms ++ (key, MDict d) :: rest)
              neptune_path step (run ++ [AppendSeries neptune_path k x step])).
    rewrite IH. unfold series_points. simpl. by rewrite <- (assoc_L (++)).
Qed.

(** X14.  An image logged at batch scope goes where an image logged at
    loader scope goes, for the same epoch and loader: the batch step is
    not part of the path. *)
Theorem log_image_batch_is_loader self (tag : string) img (r1 r2 : IRunner) run :
  epoch_step r1 = epoch_step r2 → loader_key r1 = loader_key r2 →
  log_image self tag img r1 (Some "batch") run
  = log_image self tag img r2 (Some "loader") run.
Proof.
  intros He Hl. unfold log_image, image_path. simpl. by rewrite He, Hl.
Qed.

(** X15.  Without an in-memory artifact, [log_artifact] uploads the file
    at [path_to_artifact] when one is given, and nothing at all, without
    an error, when none is. *)
Theorem log_artifact_without_object self (tag : string) runner
    path_to_artifact (scope : option string) run :
  log_artifact self tag runner None path_to_artifact scope run
  = match artifact_path self tag runner scope with
    | Some neptune_path =>
        (Ok (),
         run ++ match path_to_artifact with
                | Some file => [UploadFile neptune_path file]
                | None => []
                end)
    | None => (Raise (UnboundLocalError "neptune_path"), run)
    end.
Proof.
  unfold log_artifact.
  destruct (artifact_path self tag runner scope) as [np|];
    destruct path_to_artifact as [file|]; try done.
  simpl. unfold mbind, stm_bind, mret, stm_ret. simpl.
  by rewrite (right_id_L [] (++)).
Qed.

(** X16.  [log_image] and [log_artifact] have a path to write to exactly
    for the scopes ["batch"], ["loader"], ["epoch"], ["experiment"] and
    [None]. *)
Theorem path_bound_iff_known_scope self (tag : string) runner
    (scope : option string) :
  (is_Some (artifact_path self tag runner scope)
   ↔ scope = None ∨ ∃ s, scope = Some s ∧ s ∈ known_scopes)
  ∧ (is_Some (image_path self tag runner scope)
     ↔ scope = None ∨ ∃ s, scope = Some s ∧ s ∈ known_scopes).
Proof.
  assert (∀ s, s ∈ known_scopes ↔
               String.eqb s "batch" || String.eqb s "loader"
               || String.eqb s "epoch" || String.eqb s "experiment" = true)
    as Hknown.
  { intros s. unfold known_scopes.
    rewrite !elem_of_cons, elem_of_nil, !orb_true_iff, !String.eqb_eq. tauto. }
  destruct scope as [s|].
  - assert ((scope_eq (Some s) "batch" || scope_eq (Some s) "loader"
             || scope_eq (Some s) "epoch" || scope_eq (Some s) "experiment"
             = true)
            ↔ (Some s = None ∨ ∃ s', Some s = Some s' ∧ s' ∈ known_scopes))
      as Hiff.
    { simpl. rewrite <- Hknown. split.
      - intros H. right. by exists s.
      - intros [?|(s' & [= <-] & H)]; done. }
    rewrite <- Hiff. unfold artifact_path, image_path. simpl.
    assert (∀ p : string, is_Some (Some p) ↔ true = true) as Hyes
      by (intros p; split; [done | by eexists]).
    assert (is_Some (@None string) ↔ false = true) as Hno
      by (split; [by intros [? ?] | done]).
    destruct (String.eqb s "batch"), (String.eqb s "loader"),
      (String.eqb s "epoch"), (String.eqb s "experiment"); simpl;
      split; (apply Hyes || apply Hno).
  - split; (split; [by left | by eauto]).
Qed.
End logger_writes.

(** X17.  A coordinate between -999 and 9999 takes exactly four
    characters, the sign included. *)
Theorem format_04d_four_chars (z : Z) :
  (-1000 < z < 10000)%Z → String.length (format_04d z) = 4.
Proof.
  intros Hz.
  assert (Forall (λ z, String.length (format_04d z) = 4) (seqZ (-999) 10999))
    as H by compute_done.
  rewrite Forall_forall in H. apply H, elem_of_seqZ. lia.
Qed.

Lemma format_04d_four_chars_witness :
  (-1000 < -42 < 10000)%Z ∧ String.length (format_04d (-42)) = 4.
Proof. split; [lia |]. exact (format_04d_four_chars (-42) ltac:(lia)). Defined.

Lemma log_metrics_toggled_off_witness :
  (("batch" = "batch" ∧ log_batch_metrics demo_logger = false)
   ∨ (("batch" = "loader" ∨ "batch" = "epoch")
      ∧ log_epoch_metrics demo_logger = false))
  ∧ log_metrics (float:=Z) (image:=()) (artifact:=()) demo_logger
      [("loss", MFloat 1%Z)] (Some "batch") demo_runner []
    = (Ok (), []).
Proof.
  assert (("batch" = "batch" ∧ log_batch_metrics demo_logger = false)
          ∨ (("batch" = "loader" ∨ "batch" = "epoch")
             ∧ log_epoch_metrics demo_logger = false)) as H
    by (left; split; reflexivity).
  split; [exact H |].
  exact (log_metrics_toggled_off demo_logger _ "batch" demo_runner [] H).
Defined.

Lemma log_metrics_batch_writes_witness :
  log_batch_metrics batch_logger = true
  ∧ log_metrics (image:=()) (artifact:=()) batch_logger
      (map_values MFloat auc_batch) (Some "batch") demo_runner []
    = (Ok (),
       [] ++ series_points
               (join "/" [base_namespace batch_logger; loader_key demo_runner;
                          "batch"])
               (sample_step demo_runner) auc_batch).
Proof.
  split; [reflexivity |].
  exact (log_metrics_batch_writes batch_logger auc_batch demo_runner [] eq_refl).
Defined.

Lemma log_metrics_loader_writes_witness :
  log_epoch_metrics demo_logger = true
  ∧ log_metrics (image:=()) (artifact:=()) demo_logger
      (map_values MFloat std_batch) (Some "loader") demo_runner []
    = match _prepare_metrics std_batch with
      | Ok prepared =>
          (Ok (),
           [] ++ series_points
                   (join "/" [base_namespace demo_logger; loader_key demo_runner;
                              "loader"])
                   (epoch_step demo_runner) prepared)
      | Raise e => (Raise e, [])
      end.
Proof.
  split; [reflexivity |].
  exact (log_metrics_loader_writes demo_logger std_batch demo_runner [] eq_refl).
Defined.

Lemma log_metrics_epoch_writes_witness :
  log_epoch_metrics demo_logger = true
  ∧ log_metrics (image:=()) (artifact:=()) demo_logger
      [("_epoch_", MDict auc_batch)] (Some "epoch") demo_runner []
    = match dict_get [("_epoch_", MDict auc_batch)] "_epoch_" with
      | None => (Raise (KeyError "_epoch_"), [])
      | Some (MFloat _) => (Raise TypeError, [])
      | Some (MDict d) =>
          match _prepare_metrics d with
          | Ok prepared =>
              (Ok (),
               [] ++ series_points
                       (join "/" [base_namespace demo_logger; "epoch"])
                       (epoch_step demo_runner) prepared)
          | Raise e => (Raise e, [])
          end
      end.
Proof.
  split; [reflexivity |].
  exact (log_metrics_epoch_writes demo_logger _ demo_runner [] eq_refl).
Defined.

Lemma log_image_batch_is_loader_witness :
  (epoch_step demo_runner = epoch_step later_runner
   ∧ loader_key demo_runner = loader_key later_runner)
  ∧ log_image (float:=Z) (artifact:=()) demo_logger "sample" () demo_runner
      (Some "batch") []
    = log_image demo_logger "sample" () later_runner (Some "loader") [].
Proof.
  split; [split; reflexivity |].
  exact (log_image_batch_is_loader demo_logger "sample" () demo_runner
           later_runner [] eq_refl eq_refl).
Defined.

(** The calls of the witnesses, evaluated. *)
Example epoch_metrics_resolved :
  log_metrics (image:=()) (artifact:=()) demo_logger
    [("_epoch_", MDict auc_batch)] (Some "epoch") demo_runner []
  = (Ok (), [AppendSeries "experiment/epoch" "loss/auc" 9%Z 3;
             AppendSeries "experiment/epoch" "loss_val" 23%Z 3]).
Proof. reflexivity. Qed.

(** ** [_decode_dict] and the probe, value by value *)

Lemma decode_value_spec (v : pyval) :
  match decode_value v with
  | Ok v' => v' = decoded_value v ∧ decodable v
  | Raise e => e = UnicodeDecodeError ∧ ¬ decodable v
  end.
Proof.
  destruct v as [s|b|d]; simpl; try done.
  unfold decode_utf8. destruct (utf8_valid b); simpl; [done |].
  split; [done | by intros ?].
Qed.

Lemma decode_dict_cases (d : dict pyval) :
  match _decode_dict d with
  | Ok d' => d' = map_values decoded_value d ∧ Forall decodable (dict_values d)
  | Raise e => e = UnicodeDecodeError ∧ ¬ Forall decodable (dict_values d)
  end.
Proof.
  unfold dict_values. induction d as [|[k v] d IH]; [done |].
  rewrite decode_dict_cons. pose proof (decode_value_spec v) as Hv.
  destruct (decode_value v) as [v'|e]; result_simpl.
  - destruct Hv as [-> Hv].
    destruct (_decode_dict d) as [d'|e]; result_simpl.
    + destruct IH as [-> IH]. split; [done | by constructor].
    + destruct IH as [-> IH]. split; [done |].
      intros [_ H]%Forall_cons. by apply IH.
  - destruct Hv as [-> Hv]. split; [done |].
    intros [H _]%Forall_cons. by apply Hv.
Qed.

(** X18.  [_decode_dict] returns exactly when every value that is [bytes]
    is valid UTF-8; it then returns the dictionary with the same keys in
    the same order, those values decoded and every other value, a nested
    dictionary included, as it was.  Otherwise it raises
    [UnicodeDecodeError]. *)
Theorem decode_dict_spec (d : dict pyval) :
  match _decode_dict d with
  | Ok d' => d' = map_values decoded_value d ∧ Forall decodable (dict_values d)
  | Raise e => e = UnicodeDecodeError ∧ ¬ Forall decodable (dict_values d)
  end.
Proof. apply decode_dict_cases. Qed.

(** X19.  Decoding is idempotent: a dictionary that [_decode_dict] returned
    is returned as it is by a second call. *)
Theorem decode_dict_idempotent (d d' : dict pyval) :
  _decode_dict d = Ok d' → _decode_dict d' = Ok d'.
Proof.
  intros Hd. pose proof (decode_dict_cases d) as Hspec. rewrite Hd in Hspec.
  destruct Hspec as [-> _]. apply decode_dict_no_bytes.
  unfold dict_values, map_values. rewrite <- list_fmap_compose.
  apply Forall_fmap, Forall_forall. intros [k v] _. by destruct v.
Qed.

Lemma decode_dict_idempotent_witness :
  _decode_dict [("branch", PStr "main"); ("local_commit", PBytes "0a1b2c")]
  = Ok [("branch", PStr "main"); ("local_commit", PStr "0a1b2c")]
  ∧ _decode_dict [("branch", PStr "main"); ("local_commit", PStr "0a1b2c")]
    = Ok [("branch", PStr "main"); ("local_commit", PStr "0a1b2c")].
Proof.
  split; [reflexivity |].
  exact (decode_dict_idempotent
           [("branch", PStr "main"); ("local_commit", PBytes "0a1b2c")] _
           eq_refl).
Defined.

(** X20.  The probe never fails because git is missing or a git command
    fails: what it raises is never [CalledProcessError] nor
    [FileNotFoundError].  It raises what a command raised beside these
    two, or [UnicodeDecodeError] on an output that is not UTF-8. *)
Theorem environment_vars_raises (h : Host) (e : exn) :
  _get_environment_vars h = Raise e →
  e ≠ CalledProcessError ∧ e ≠ FileNotFoundError
  ∧ ((∃ args, check_output h args true = Raise e)
     ∨ (e = UnicodeDecodeError
        ∧ ∃ args out, check_output h args true = Ok out
            ∧ (utf8_valid out = false ∨ utf8_valid (strip out) = false))).
Proof.
  unfold _get_environment_vars.
  pose proof (git_block_spec h (environment_literal h)) as Hspec.
  destruct (git_block h (environment_literal h)) as [r|e1] eqn:G.
  - destruct Hspec as (_ & b & l & o & ->).
    unfold except_process_errors. result_simpl.
    rewrite decode_dict_no_bytes; [done |].
    unfold dict_values. simpl. by repeat constructor.
  - unfold except_process_errors.
    destruct e1; result_simpl;
      rewrite ?decode_dict_no_bytes by apply environment_literal_no_bytes;
      try done; intros [= <-];
      (split_and!; [done | done |]);
      (destruct Hspec as [(args & Hq & _) | (He & Hbad)];
       [left; by exists args | right; done]).
Qed.

Lemma environment_vars_raises_witness :
  _get_environment_vars binary_host = Raise UnicodeDecodeError
  ∧ UnicodeDecodeError ≠ CalledProcessError
  ∧ UnicodeDecodeError ≠ FileNotFoundError
  ∧ ((∃ args, check_output binary_host args true = Raise UnicodeDecodeError)
     ∨ (UnicodeDecodeError = UnicodeDecodeError
        ∧ ∃ args out, check_output binary_host args true = Ok out
            ∧ (utf8_valid out = false ∨ utf8_valid (strip out) = false))).
Proof.
  split; [reflexivity |].
  exact (environment_vars_raises binary_host UnicodeDecodeError eq_refl).
Defined.

(** X21.  When the three VCS queries return UTF-8 text, the probe returns
    the ten entries of its literal followed by the entry ["git"], which
    holds the branch name with the white space around it stripped and the
    two commits as the commands printed them, their line ends included. *)
Theorem environment_vars_with_git (h : Host) (raw lc oc : string) :
  check_output h (split "git rev-parse --abbrev-ref HEAD") true = Ok raw →
  check_output h (split "git rev-parse HEAD") true = Ok lc →
  check_output h (split ("git rev-parse origin/" +:+ strip raw)) true = Ok oc →
  utf8_valid (strip raw) = true → utf8_valid lc = true → utf8_valid oc = true →
  _get_environment_vars h
  = Ok (environment_literal h ++ [("git", git_mapping (strip raw) lc oc)]).
Proof.
  intros Q1 Q2 Q3 U1 U2 U3.
  unfold _get_environment_vars, git_block. rewrite Q1. result_simpl.
  unfold decode_utf8 at 1. rewrite U1. result_simpl.
  rewrite Q2. result_simpl. rewrite Q3. result_simpl.
  rewrite !decode_dict_cons. unfold decode_value, decode_utf8.
  rewrite U2, U3. result_simpl.
  unfold except_process_errors. result_simpl.
  apply decode_dict_no_bytes. unfold dict_values. simpl. by repeat constructor.
Qed.

Lemma environment_vars_with_git_witness :
  (check_output git_host (split "git rev-parse --abbrev-ref HEAD") true
   = Ok "main "
   ∧ check_output git_host (split "git rev-parse HEAD") true = Ok "0a1b2c"
   ∧ check_output git_host (split ("git rev-parse origin/" +:+ strip "main "))
       true = Ok "0a1b2c"
   ∧ utf8_valid (strip "main ") = true ∧ utf8_valid "0a1b2c" = true)
  ∧ _get_environment_vars git_host
    = Ok (environment_literal git_host
          ++ [("git", git_mapping (strip "main ") "0a1b2c" "0a1b2c")]).
Proof.
  split; [by vm_compute |].
  exact (environment_vars_with_git git_host "main " "0a1b2c" "0a1b2c"
           eq_refl eq_refl eq_refl eq_refl eq_refl eq_refl).
Defined.

(** X22.  When each of the three commands the probe runs, as far as it
    gets, fails with [CalledProcessError] or [FileNotFoundError] or prints
    UTF-8 text, and the three do not all return, the probe returns the ten
    entries of its literal and nothing else. *)
Theorem environment_vars_without_git (h : Host) :
  probe_commands_behave h → ¬ vcs_queries_succeed h →
  _get_environment_vars h = Ok (environment_literal h).
Proof.
  intros Hb Hfail. pose proof (environment_vars_cases h) as H.
  destruct (_get_environment_vars h) as [snapshot|e]; [| done].
  destruct H as [_ H]. by rewrite (H Hfail).
Qed.

Lemma bare_host_without_vcs : ¬ vcs_queries_succeed bare_host.
Proof. intros (? & ? & ? & ? & H & _). simpl in H. done. Defined.

Lemma environment_vars_without_git_witness :
  (probe_commands_behave bare_host ∧ ¬ vcs_queries_succeed bare_host)
  ∧ _get_environment_vars bare_host = Ok (environment_literal bare_host).
Proof.
  split; [split; [exact bare_host_commands_behave | exact bare_host_without_vcs] |].
  exact (environment_vars_without_git bare_host bare_host_commands_behave
           bare_host_without_vcs).
Defined.

(** ** The environment dump, file by file *)

Lemma double_newlines_empty (s : string) : double_newlines s = "" ↔ s = "".
Proof.
  destruct s as [|c s]; simpl; [done |].
  destruct (byte_code c =? 10)%N; split; done.
Qed.

Section dump_environment_effects.
Context {config_data : Type}.
Variable save_config_text : py_object config_data → result string.
Variable json_dumps : py_object config_data → result string.

(** The copies change no warning and no summary text. *)
Lemma copy_configs_log (dir : path) (ps : list path) (w w' : world)
    (r : result ()) :
  copy_configs dir ps w = (r, w') →
  warnings w' = warnings w ∧ summary_texts w' = summary_texts w.
Proof.
  revert w. induction ps as [|p ps IH]; intros w; simpl.
  - by intros [= _ <-].
  - unfold mbind, stm_bind, copyfile.
    destruct (files w !! p) as [text|]; [|by intros [= _ <-]].
    case_bool_decide; [by intros [= _ <-] |].
    unfold write_text. intros Hrest. by apply IH in Hrest.
Qed.

(** X23.  After a completed dump every file that was there before is
    still there, and each of these is there, all under [logdir/configs]:
    [config.yaml] (for a [DictConfig] with hydra available),
    [_environment.json], [_config.json] (when a config was given),
    [pip-packages.txt], [conda-packages.txt] (when the conda listing is
    not empty), and the copies of the given config files under their own
    names. *)
Theorem dump_environment_layout (h : Host) (logdir : path)
    (config : option (config_arg config_data))
    (configs_path : option (list configs_path_item)) (w w' : world) :
  dump_environment save_config_text json_dumps h logdir config configs_path w
  = (Ok (), w') →
  ∀ q, is_Some (files w !! q) ∨ q ∈ dump_targets h logdir config configs_path →
       is_Some (files w' !! q).
Proof.
  intros Hdump q.
  apply (dump_environment_writes save_config_text json_dumps
           h logdir config configs_path w () w' Hdump q).
Qed.

(** X24.  A completed dump has added to the summary writer, in this order
    and all at step 0, the text of the config (when one was given), the
    text of the environment, the pip listing and, when it is not empty,
    the conda listing, each with its line ends doubled; and it has emitted
    the warnings of the two package listers and no other. *)
Theorem dump_environment_summary (h : Host) (logdir : path)
    (config : option (config_arg config_data))
    (configs_path : option (list configs_path_item)) (w w' : world) :
  dump_environment save_config_text json_dumps h logdir config configs_path w
  = (Ok (), w') →
  ∃ environment, _get_environment_vars h = Ok environment
    ∧ summary_texts w'
      = summary_texts w ++ summary_of json_dumps h config environment
    ∧ warnings w'
      = warnings w ++ (_list_pip_packages h).2 ++ (_list_conda_packages h).2.
Proof.
  unfold dump_environment, summary_of, resolved_config, dumped_text.
  destruct (_list_pip_packages h) as [pip_pkg pip_warnings].
  destruct (_list_conda_packages h) as [conda_pkg conda_warnings].
  cbn [fst snd].
  destruct (_get_environment_vars h) as [environment|e] eqn:Henv.
  2:{ destruct config as [[data|yaml container]|];
        try destruct (is_hydra_available h); by intros [= ]. }
  intros Hrun. exists environment. split; [done |].
  assert (bool_decide (double_newlines conda_pkg ≠ "")
          = bool_decide (conda_pkg ≠ "")) as Hconda.
  { apply bool_decide_ext. by rewrite double_newlines_empty. }
  rewrite Hconda in Hrun. revert Hrun.
  unfold save_config.
  unfold mbind, stm_bind, mret, stm_ret, lift, write_text, warn, add_text.
  destruct config as [[data|yaml container]|];
    try destruct (is_hydra_available h);
    repeat (cbn [fst snd files warnings summary_texts];
            match goal with
            | |- context [copy_configs ?d ?ps ?s] =>
                let H := fresh "Hcopy" in
                destruct (copy_configs d ps s) as [[[]|?] ?] eqn:H;
                [apply copy_configs_log in H as [Hwarn Hsum] | cbn beta iota; by intros [= ]]
            | |- context [save_config_text ?x] =>
                destruct (save_config_text x); [| cbn beta iota; by intros [= ]]
            | |- context [json_dumps ?x] =>
                destruct (json_dumps x); [| cbn beta iota; by intros [= ]]
            | |- context [bool_decide (conda_pkg ≠ "")] =>
                destruct (bool_decide (conda_pkg ≠ ""))
            end);
    intros [= <-]; cbn [fst snd files warnings summary_texts] in *;
    split; rewrite ?Hwarn, ?Hsum, <- ?(assoc_L (++)); done.
Qed.
End dump_environment_effects.

Section dump_environment_files.
Context {config_data : Type}.
Variable save_config_text : py_object config_data → result string.
Variable json_dumps : py_object config_data → result string.

(** The copies leave every file that is no target of a copy as it is. *)
Lemma copy_configs_frame (dir : path) (ps : list path) (w w' : world)
    (r : result ()) (q : path) :
  copy_configs dir ps w = (r, w') →
  q ∉ (λ p, path_join dir (path_name p)) <$> ps →
  files w' !! q = files w !! q.
Proof.
  revert w. induction ps as [|p ps IH]; intros w; simpl.
  - by intros [= _ <-].
  - rewrite not_elem_of_cons. unfold mbind, stm_bind, copyfile.
    destruct (files w !! p) as [text|]; [|by intros [= _ <-]].
    case_bool_decide; [by intros [= _ <-] |].
    unfold write_text. intros Hrest [Hq Hnin].
    rewrite (IH _ Hrest Hnin). simpl. by rewrite lookup_insert_ne.
Qed.

(** X25.  After a completed dump, [pip-packages.txt] holds the pip listing
    and [conda-packages.txt] the conda listing, unless a copied config file
    of that name has taken the place; with an empty conda listing,
    [conda-packages.txt] is left as it was before the call. *)
Theorem dump_environment_contents (h : Host) (logdir : path)
    (config : option (config_arg config_data))
    (configs_path : option (list configs_path_item)) (w w' : world) :
  dump_environment save_config_text json_dumps h logdir config configs_path w
  = (Ok (), w') →
  (pip_packages_txt logdir ∉ copy_targets logdir configs_path →
   files w' !! pip_packages_txt logdir = Some (_list_pip_packages h).1)
  ∧ (conda_packages_txt logdir ∉ copy_targets logdir configs_path →
     files w' !! conda_packages_txt logdir
     = if bool_decide ((_list_conda_packages h).1 ≠ "")
       then Some (_list_conda_packages h).1
       else files w !! conda_packages_txt logdir).
Proof.
  assert (∀ a b, a ≠ "" → b ≠ "" → a ≠ b →
            path_join (config_dir logdir) a ≠ path_join (config_dir logdir) b)
    as Hapart.
  { intros a b Ha Hb Hab E. by apply path_join_literal_inj in E. }
  pose proof (Hapart "conda-packages.txt" "pip-packages.txt"
                ltac:(done) ltac:(done) ltac:(done)) as Hcp.
  pose proof (Hapart "config.yaml" "conda-packages.txt"
                ltac:(done) ltac:(done) ltac:(done)) as Hyc.
  pose proof (Hapart "_environment.json" "conda-packages.txt"
                ltac:(done) ltac:(done) ltac:(done)) as Hec.
  pose proof (Hapart "_config.json" "conda-packages.txt"
                ltac:(done) ltac:(done) ltac:(done)) as Hgc.
  pose proof (Hapart "pip-packages.txt" "conda-packages.txt"
                ltac:(done) ltac:(done) ltac:(done)) as Hpc.
  unfold dump_environment, copy_targets, pip_packages_txt, conda_packages_txt
    in *.
  unfold config_dir in *.
  destruct (_list_pip_packages h) as [pip_pkg pip_warnings].
  destruct (_list_conda_packages h) as [conda_pkg conda_warnings].
  cbn [fst snd].
  destruct (_get_environment_vars h) as [environment|e] eqn:Henv.
  2:{ destruct config as [[data|yaml container]|];
        try destruct (is_hydra_available h); by intros [= ]. }
  unfold save_config.
  unfold mbind, stm_bind, mret, stm_ret, lift, write_text, warn, add_text.
  destruct config as [[data|yaml container]|];
    try destruct (is_hydra_available h);
    repeat (cbn [fst snd files warnings summary_texts];
            match goal with
            | |- context [copy_configs ?d ?ps ?s] =>
                let H := fresh "Hcopy" in
                destruct (copy_configs d ps s) as [[[]|?] ?] eqn:H;
                [pose proof (λ q, copy_configs_frame _ _ _ _ _ q H) as Hframe;
                 clear H
                | cbn beta iota; by intros [= ]]
            | |- context [save_config_text ?x] =>
                destruct (save_config_text x); [| cbn beta iota; by intros [= ]]
            | |- context [json_dumps ?x] =>
                destruct (json_dumps x); [| cbn beta iota; by intros [= ]]
            | |- context [bool_decide (double_newlines conda_pkg ≠ "")] =>
                destruct (bool_decide (double_newlines conda_pkg ≠ ""))
            | |- context [bool_decide (conda_pkg ≠ "")] =>
                destruct (bool_decide (conda_pkg ≠ ""))
            end);
    intros [= <-]; cbn [fst snd files warnings summary_texts] in *;
    (split; intros Hnin; rewrite (Hframe _ Hnin);
     cbn [fst snd files warnings summary_texts];
     repeat (rewrite lookup_insert_eq || rewrite lookup_insert_ne by done);
     done).
Qed.

End dump_environment_files.

Lemma bare_dump_returns :
  dump_environment (config_data:=()) (λ _, Ok "{}") (λ _, Ok "{}")
    bare_host ["logs"] None None empty_world = (Ok (), bare_dump.2).
Proof. apply (returned_state bare_dump). reflexivity. Defined.

Lemma dump_environment_layout_witness :
  dump_environment (config_data:=()) (λ _, Ok "{}") (λ _, Ok "{}")
    bare_host ["logs"] None None empty_world = (Ok (), bare_dump.2)
  ∧ ∀ q, is_Some (files empty_world !! q)
         ∨ q ∈ dump_targets (config_data:=()) bare_host ["logs"] None None →
         is_Some (files bare_dump.2 !! q).
Proof.
  split; [exact bare_dump_returns |].
  exact (dump_environment_layout _ _ _ _ _ _ _ _ bare_dump_returns).
Defined.

Lemma dump_environment_summary_witness :
  dump_environment (config_data:=()) (λ _, Ok "{}") (λ _, Ok "{}")
    bare_host ["logs"] None None empty_world = (Ok (), bare_dump.2)
  ∧ ∃ environment, _get_environment_vars bare_host = Ok environment
    ∧ summary_texts bare_dump.2
      = summary_texts empty_world
        ++ summary_of (config_data:=()) (λ _, Ok "{}") bare_host None environment
    ∧ warnings bare_dump.2
      = warnings empty_world ++ (_list_pip_packages bare_host).2
        ++ (_list_conda_packages bare_host).2.
Proof.
  split; [exact bare_dump_returns |].
  exact (dump_environment_summary _ _ _ _ _ _ _ _ bare_dump_returns).
Defined.

Lemma dump_environment_contents_witness :
  dump_environment (config_data:=()) (λ _, Ok "{}") (λ _, Ok "{}")
    bare_host ["logs"] None None empty_world = (Ok (), bare_dump.2)
  ∧ (pip_packages_txt ["logs"] ∉ copy_targets ["logs"] None →
     files bare_dump.2 !! pip_packages_txt ["logs"]
     = Some (_list_pip_packages bare_host).1)
  ∧ (conda_packages_txt ["logs"] ∉ copy_targets ["logs"] None →
     files bare_dump.2 !! conda_packages_txt ["logs"]
     = if bool_decide ((_list_conda_packages bare_host).1 ≠ "")
       then Some (_list_conda_packages bare_host).1
       else files empty_world !! conda_packages_txt ["logs"]).
Proof.
  split; [exact bare_dump_returns |].
  exact (dump_environment_contents _ _ _ _ _ _ _ _ bare_dump_returns).
Defined.


(** The summary of the run on the bare host. *)
Example bare_dump_summary :
  summary_texts bare_dump.2
  = [("_environment", "{}", 0%Z); ("pip-packages", "", 0%Z)]
  ∧ length (warnings bare_dump.2) = 1.
Proof. split; reflexivity. Qed.
